(** * WSI preprocessing: tile extraction and quality pipeline

    A shallow embedding of [SlidePreprocessing.py] and
    [TileQualityFilters.py], and the properties of the tile pipeline
    (tile sizing, tiling, stain normalisation, blur filter, per-slide
    orchestration) stated over it. *)

From Stdlib Require Import ZArith Lia Bool List Ascii String.
From Stdlib Require Import Floats.PrimFloat Floats.SpecFloat Floats.FloatOps.
From Stdlib Require Import Numbers.Cyclic.Int63.Uint63.
From stdpp Require Import base gmap strings pretty list fin_maps.

#[local] Set Warnings "-inexact-float".

Local Open Scope Z_scope.

(* ===================================================================== *)
(** ** Python values: exceptions and call outcomes *)
(* ===================================================================== *)

(** The exceptions the modelled code can meet.  [Exception] stands for
    whatever an external collaborator (slide reader, mask, image library,
    encoder) raises; its argument is the message. *)
Inductive exn :=
| ZeroDivisionError
| OverflowError
| ValueError (msg : string)
| FileNotFoundError (path : string)
| ParserError (path : string)
| AttributeError (msg : string)
| UnidentifiedImageError (path : string)
| Exception (msg : string).

(** A call either returns a value or raises. *)
Inductive Outcome (A : Type) :=
| Returned (a : A)
| Raised (e : exn).
Arguments Returned {A} a.
Arguments Raised {A} e.

Definition obind {A B} (o : Outcome A) (k : A -> Outcome B) : Outcome B :=
  match o with
  | Returned a => k a
  | Raised e => Raised e
  end.

(* ===================================================================== *)
(** ** IEEE-754 binary64 arithmetic, as CPython's [float] has it *)
(* ===================================================================== *)

Module Binary64.

(** A finite double is [mant * 2 ^ expo]. *)
Record dyadic := Dy { mant : Z; expo : Z }.

Definition prec : Z := 53.
Definition emin : Z := -1074.
Definition emax : Z := 1024.

(** [floor (log2 (a / b))] for [0 < a] and [0 < b]. *)
Definition ilog2_frac (a b : Z) : Z :=
  let d := Z.log2 a - Z.log2 b in
  if (if 0 <=? d then b * 2 ^ d <=? a else b <=? a * 2 ^ (- d))
  then d else d - 1.

(** Nearest integer to [a / b], ties to even ([0 <= a], [0 < b]). *)
Definition round_half_even (a b : Z) : Z :=
  let q := a / b in
  let r := a mod b in
  match 2 * r ?= b with
  | Lt => q
  | Gt => q + 1
  | Eq => if Z.even q then q else q + 1
  end.

(** The exponent of the binade of [a / b], clamped at the subnormal
    exponent. *)
Definition round_expo (a b : Z) : Z :=
  Z.max (ilog2_frac a b - (prec - 1)) emin.

(** The double nearest to the rational [a / b] ([0 < b]), ties to even;
    [None] when the rounded value is not finite. *)
Definition round_frac (a b : Z) : option dyadic :=
  if a =? 0 then Some (Dy 0 0)
  else
    let n := Z.abs a in
    let e := round_expo n b in
    let m := if 0 <=? e then round_half_even n (b * 2 ^ e)
             else round_half_even (n * 2 ^ (- e)) b in
    if (emax - prec <? e) || ((e =? emax - prec) && (m =? 2 ^ prec))
    then None
    else Some (Dy (Z.sgn a * m) e).

(** [float(z)] for a Python int. *)
Definition of_int (z : Z) : option dyadic := round_frac z 1.

(** The correctly rounded quotient of two ints ([b <> 0]): what
    CPython's [long_true_divide] computes. *)
Definition div_int (a b : Z) : option dyadic :=
  round_frac (a * Z.sgn b) (Z.abs b).

(** The product of two doubles, rounded once. *)
Definition mul (x y : dyadic) : option dyadic :=
  let m := mant x * mant y in
  let e := expo x + expo y in
  if 0 <=? e then round_frac (m * 2 ^ e) 1 else round_frac m (2 ^ (- e)).

(** [int(x)]: truncation toward zero. *)
Definition trunc (x : dyadic) : Z :=
  if 0 <=? expo x then mant x * 2 ^ expo x
  else Z.quot (mant x) (2 ^ (- expo x)).

(** The value of a finite primitive float of the Standard Library, for
    comparing this model with the kernel's binary64 arithmetic. *)
Definition of_prim (f : float) : option dyadic :=
  match Prim2SF f with
  | S754_zero _ => Some (Dy 0 0)
  | S754_finite s m e => Some (Dy (if s then Z.neg m else Z.pos m) e)
  | _ => None
  end.

(** The canonical double of a positive integer below [2 ^ 53]: the
    significand shifted to 53 bits. *)
Definition canon (k : Z) : dyadic :=
  Dy (k * 2 ^ (52 - Z.log2 k)) (Z.log2 k - 52).

End Binary64.

(* ===================================================================== *)
(** ** Images, manifests, files *)
(* ===================================================================== *)

(** A pixel buffer: rows of RGB triples. *)
Definition Img : Type := list (list (Z * Z * Z)).

(** A grayscale or filter-response buffer. *)
Definition Gray : Type := list (list float).

(** A region of the binary tissue mask. *)
Definition MaskRegion : Type := list (list bool).

(** One row of a Manifest; the columns are
    [patient_id, x, y, magnification, size, path_to_slide, scale]. *)
Record Row := mkRow {
  r_patient_id : string;
  r_x : Z;
  r_y : Z;
  r_magnification : Z;
  r_size : Z;
  r_path_to_slide : string;
  r_scale : Z
}.

(** What a path of the output tree holds.  A Manifest CSV is its list of
    rows (writing and re-reading one gives the rows back); a stored tile
    is its pixel buffer; anything else is [OtherFile]. *)
Inductive File :=
| CsvFile (rows : list Row)
| ImageFile (img : Img)
| OtherFile.

(** The third field of an Error Record is a message or the caught
    exception. *)
Inductive ErrDesc :=
| Msg (s : string)
| Exc (e : exn).

(** An Error Record: (slide id, path, description, stage). *)
Definition ErrorRecord : Type := string * string * ErrDesc * string.

(** An Outcome Record: (slide id, path, tile count, in-focus count). *)
Definition OutcomeRecord : Type := string * string * option Z * option Z.

(** The state a worker process threads through a slide: the files of the
    output tree, the module-level [errors] list, and what was printed. *)
Record World := mkWorld {
  fs : gmap string File;
  errors : list ErrorRecord;
  stdout : list string
}.

(* ===================================================================== *)
(** ** Slides *)
(* ===================================================================== *)

(** The reader handle of an open slide: the object whose
    [read_region(origin, level, size)] yields the pixels of a rectangle,
    or raises. *)
Record OpenSlide := {
  read_region : Z * Z -> Z -> Z * Z -> Outcome Img
}.

(** Modelled from the spec: the [TissueSlide] class (its file is not among
    the sources).  A slide has an identifier, the path it was opened from,
    a native magnification, pixel dimensions (width, height), a scale
    factor and a reader handle; [slide] is [None] when the reader could
    not open the file.  The magnification is a Python int. *)
Record TissueSlide := {
  id : string;
  path : string;
  magnification : Z;
  dimensions : Z * Z;
  SCALE : Z;
  slide : option OpenSlide
}.

(** [best_size]: [int(size * (slide.magnification / mag))], or [None] when
    the requested magnification exceeds the slide's.  The quotient is a
    true division of two ints, the product an int times a float; a product
    that overflows is infinite and [int] raises on it. *)
Definition best_size (slide : TissueSlide) (size mag : Z) : Outcome (option Z) :=
  if magnification slide <? mag then Returned None
  else
    let natural_mag := magnification slide in
    if mag =? 0 then Raised ZeroDivisionError
    else
      match Binary64.div_int natural_mag mag with
      | None => Raised OverflowError
      | Some new_size =>
          match Binary64.of_int size with
          | None => Raised OverflowError
          | Some fsize =>
              match Binary64.mul fsize new_size with
              | None => Raised OverflowError
              | Some prod => Returned (Some (Binary64.trunc prod))
              end
          end
      end.

(** The same computation on the primitive binary64 floats of the kernel,
    for magnifications and sizes that fit 63 bits with
    [0 < mag <= natural_mag]; used to check [Binary64] against them. *)
Definition best_size_primitive (natural_mag size mag : Z) : option Z :=
  let new_size :=
    PrimFloat.div (PrimFloat.of_uint63 (Uint63.of_Z natural_mag))
                  (PrimFloat.of_uint63 (Uint63.of_Z mag)) in
  let prod := PrimFloat.mul (PrimFloat.of_uint63 (Uint63.of_Z size)) new_size in
  option_map Binary64.trunc (Binary64.of_prim prod).

(** Whether the two computations agree for every size of [sizes] and all
    magnifications [1 <= mag <= natural_mag <= bound]. *)
Definition primitive_floats_agree (sizes : list Z) (bound : nat) : bool :=
  forallb (fun size =>
    forallb (fun n =>
      forallb (fun m =>
        let natural_mag := Z.of_nat n in
        let mag := Z.of_nat m in
        match best_size
                {| id := ""; path := ""; magnification := natural_mag;
                   dimensions := (0, 0); SCALE := 1; slide := None |}
                size mag,
              best_size_primitive natural_mag size mag with
        | Returned (Some a), Some b => a =? b
        | _, _ => false
        end) (seq 1 n)) (seq 1 bound)) sizes.

(** Modelled from the spec: the [TissueMask] class (its file is not among
    the sources), as the two methods the Tile Selector calls on it. *)
Record TissueMask := {
  get_region_mask : Z * Z -> Z * Z -> Outcome MaskRegion;
  is_tissue : MaskRegion -> float -> Outcome bool
}.

(** The parsed command line, as far as [preprocessing] reads it. *)
Record Args := {
  desired_magnification : Z;
  desired_size : Z;
  overlap : Z;
  tissue_threshold : float;
  blur_threshold : float;
  tile_graph : bool
}.

(** The functions of other modules and libraries that the pipeline calls.
    Each is a parameter: the constructors of slides and masks, the image
    operations of PIL, scikit-image, OpenCV and numpy, the stain
    normaliser, and the two consumers of the final Manifest.  A call that
    can fail returns an [Outcome].  The reconstruction's picture is stored
    by the caller's path; the encoder's artefacts lie outside the slide's
    output tree and are not tracked. *)
Class Collaborators := {
  new_TissueSlide : string -> TissueSlide;
  new_TissueMask : TissueSlide -> string -> Outcome TissueMask;
  convert_RGB : Img -> Outcome Img;
  resize : Img -> Z * Z -> Outcome Img;
  normalizeStaining : Img -> Outcome Img;
  rgb2gray : Img -> Outcome Gray;
  cv2_Laplacian : Gray -> Outcome Gray;
  np_var : Gray -> float;
  SlideReconstruction : gmap string File -> string -> Outcome Img;
  encode_tiles : string -> string -> string -> string ->
                 gmap string File -> Outcome unit
}.

(* ===================================================================== *)
(** ** The state-and-exception monad of the stage functions *)
(* ===================================================================== *)

Definition M (A : Type) : Type := World -> Outcome A * World.

Definition ret {A} (a : A) : M A := fun w => (Returned a, w).

Definition bind {A B} (m : M A) (k : A -> M B) : M B :=
  fun w =>
    match m w with
    | (Returned a, w') => k a w'
    | (Raised e, w') => (Raised e, w')
    end.

Notation "'do' x <- c1 ; c2" := (bind c1 (fun x => c2))
  (at level 10, x name, c1 at level 100, c2 at level 200,
   format "'[v' 'do'  x  <-  c1 ;  '/' c2 ']'").
Notation "'run' c1 ; c2" := (bind c1 (fun _ => c2))
  (at level 10, c1 at level 100, c2 at level 200,
   format "'[v' 'run'  c1 ;  '/' c2 ']'").

(** A pure call that may raise. *)
Definition lift {A} (o : Outcome A) : M A := fun w => (o, w).

(** [try: body  except Exception as e: handler e].  What the body did
    before raising stays done. *)
Definition try_except {A} (body : M A) (handler : exn -> M A) : M A :=
  fun w =>
    match body w with
    | (Returned a, w') => (Returned a, w')
    | (Raised e, w') => handler e w'
    end.

(** A [for] loop whose body updates a local accumulator. *)
Fixpoint for_acc {A S} (l : list A) (body : A -> S -> M S) (s : S) : M S :=
  match l with
  | [] => ret s
  | a :: l' => do s' <- body a s; for_acc l' body s'
  end.

Definition print (s : string) : M unit :=
  fun w => (Returned tt, mkWorld (fs w) (errors w) (stdout w ++ [s])).

(** [errors.append(rec)] on the module-level list. *)
Definition errors_append (rec : ErrorRecord) : M unit :=
  fun w => (Returned tt, mkWorld (fs w) (errors w ++ [rec]) (stdout w)).

Definition write_file (p : string) (f : File) : M unit :=
  fun w => (Returned tt, mkWorld (<[p := f]> (fs w)) (errors w) (stdout w)).

(** [os.path.isfile]. *)
Definition isfile (p : string) : M bool :=
  fun w => (Returned (bool_decide (is_Some (fs w !! p))), w).

(** [pd.read_csv]. *)
Definition read_csv (p : string) : M (list Row) :=
  fun w =>
    match fs w !! p with
    | Some (CsvFile rows) => (Returned rows, w)
    | Some _ => (Raised (ParserError p), w)
    | None => (Raised (FileNotFoundError p), w)
    end.

(** [pd.DataFrame(df_list, columns=columns).to_csv(p, index=False)]. *)
Definition to_csv (p : string) (df_list : list Row) : M unit :=
  write_file p (CsvFile df_list).

(** [Image.open(p)], and [np.array] of it. *)
Definition Image_open (p : string) : M Img :=
  fun w =>
    match fs w !! p with
    | Some (ImageFile img) => (Returned img, w)
    | Some _ => (Raised (UnidentifiedImageError p), w)
    | None => (Raised (FileNotFoundError p), w)
    end.

(** [img.save(p)]. *)
Definition Image_save (img : Img) (p : string) : M unit :=
  write_file p (ImageFile img).

(* ===================================================================== *)
(** ** Paths, formatting, ranges *)
(* ===================================================================== *)

(** [os.path.join] of two components (POSIX). *)
Definition starts_with_slash (s : string) : bool :=
  match s with
  | String c _ => bool_decide (c = "/"%char)
  | EmptyString => false
  end.

Fixpoint ends_with_slash (s : string) : bool :=
  match s with
  | EmptyString => false
  | String c EmptyString => bool_decide (c = "/"%char)
  | String _ s' => ends_with_slash s'
  end.

Definition path_join (a b : string) : string :=
  if starts_with_slash b then b
  else if bool_decide (a = "") || ends_with_slash a then a +:+ b
  else a +:+ "/" +:+ b.

(** [str] of a Python int. *)
Definition str (z : Z) : string := pretty z.

(** The tile image name
    [{id}_tile_w{x}_h{y}_mag{mag}_size{size}_scale{scale}.png]. *)
Definition tile_name (id : string) (x y mag size scale : Z) : string :=
  id +:+ "_tile_w" +:+ str x +:+ "_h" +:+ str y +:+ "_mag" +:+ str mag
     +:+ "_size" +:+ str size +:+ "_scale" +:+ str scale +:+ ".png".

(** The number of items of a range with a positive step. *)
Definition range_length (lo hi step : Z) : Z :=
  if lo <? hi then (hi - lo - 1) / step + 1 else 0.

(** [range(start, stop, step)], as a list. *)
Definition py_range (start stop step : Z) : Outcome (list Z) :=
  if step =? 0 then Raised (ValueError "range() arg 3 must not be zero")
  else
    let n := if 0 <? step then range_length start stop step
             else range_length stop start (- step) in
    Returned (map (fun i => start + Z.of_nat i * step) (seq 0 (Z.to_nat n))).

(* ===================================================================== *)
(** ** TileQualityFilters.py *)
(* ===================================================================== *)

Section Pipeline.
Context `{Collaborators}.

(** [LaplaceFilter]: the variance of the Laplacian response of the
  grayscale image, compared with the threshold by [>=]. *)
Definition LaplaceFilter (img : Img) (var_threshold : float) : Outcome bool :=
obind (rgb2gray img) (fun grayscale =>
obind (cv2_Laplacian grayscale) (fun laplace_img =>
if PrimFloat.leb var_threshold (np_var laplace_img)
then Returned true
else Returned false)).

(* ===================================================================== *)
(** ** SlidePreprocessing.py *)
(* ===================================================================== *)

(** The stride of the two [range]s of [tiling]. *)
Definition tiling_stride (overlap desired_size size : Z) : Z :=
if negb (overlap =? 0) then desired_size / overlap else size.

(** The body of the inner loop of [tiling] at the candidate origin
  [(x, y)]. *)
Definition tiling_candidate (ts : TissueSlide) (tiles : string)
  (mask : TissueMask) (desired_size : Z) (threshold : float)
  (w h size x y : Z) (df_list : list Row) : M (list Row) :=
if (x <=? w - size) && (y <=? h - size) then
  do handle <- lift (match slide ts with
                     | Some handle => Returned handle
                     | None => Raised (AttributeError "read_region")
                     end);
  do tissue_rgb <- lift (read_region handle (x, y) 0 (size, size));
  do tile_mask <- lift (get_region_mask mask (x, y) (size, size));
  do tissue <- lift (is_tissue mask tile_mask threshold);
  if tissue then
    do tile <- lift (convert_RGB tissue_rgb);
    do tile <- lift (resize tile (desired_size, desired_size));
    let name := tile_name (id ts) x y (magnification ts) size (SCALE ts) in
    run Image_save tile (path_join tiles name);
    ret (df_list ++ [mkRow (id ts) x y (magnification ts) size
                           (path_join tiles name) (SCALE ts)])
  else ret df_list
else ret df_list.

(** [tiling]: the Tile Selector.  Directories are not tracked, so the
  [os.makedirs] calls leave the state as it is. *)
Definition tiling (ts : TissueSlide) (result_path : string) (mask : TissueMask)
  (overlap desired_size mag : Z) (threshold : float) : M (option Z) :=
run print "Tiling slide";
let tiles := path_join result_path "tiles" in
do size <- lift (best_size ts desired_size mag);
match size with
| None =>
    run errors_append
      (id ts, path ts,
       Msg "The desired magnification is greater than the slide magnification.",
       "Tiling");
    ret None
| Some size =>
    let w := fst (dimensions ts) in
    let h := snd (dimensions ts) in
    let stride := tiling_stride overlap desired_size size in
    do xs <- lift (py_range 0 (w - size + 1) stride);
    do df_list <-
      for_acc xs (fun x df_list =>
        do ys <- lift (py_range 0 (h - size + 1) stride);
        for_acc ys (fun y df_list =>
          tiling_candidate ts tiles mask desired_size threshold
                           w h size x y df_list) df_list) [];
    run to_csv (path_join result_path "tile_information.csv") df_list;
    ret (Some (Z.of_nat (length df_list)))
end.

(** The row and file name a later stage derives from an input row and its
  own tile directory. *)
Definition stage_name (row : Row) : string :=
tile_name (r_patient_id row) (r_x row) (r_y row) (r_magnification row)
          (r_size row) (r_scale row).

Definition stage_row (dir : string) (row : Row) : Row :=
mkRow (r_patient_id row) (r_x row) (r_y row) (r_magnification row)
      (r_size row) (path_join dir (stage_name row)) (r_scale row).

(** The body of the loop of [normalize_tiles].  [np.array] never yields
  [None], so the branch that prints "Error: Input tile is None." is
  never taken.  [normalizeStaining] stores its result at the path it is
  given. *)
Definition normalize_tile (path : string) (row : Row) (df_list : list Row)
: M (list Row) :=
let path_to_tile := r_path_to_slide row in
try_except
  (do tile <- Image_open path_to_tile;
   do normalized <- lift (normalizeStaining tile);
   run Image_save normalized (path_join path (stage_name row));
   ret (df_list ++ [stage_row path row]))
  (fun e =>
     run errors_append (r_patient_id row, path_to_tile, Exc e, "Normalization");
     ret df_list).

(** [normalize_tiles]: the Stain Normaliser. *)
Definition normalize_tiles (tile_information result_path device : string)
: M unit :=
run print "Normalizing tiles";
do tiles <- read_csv tile_information;
let path := path_join result_path "normalized_tiles" in
do df_list <- for_acc tiles (normalize_tile path) [];
to_csv (path_join result_path "normalized_tile_information.csv") df_list.

(** [str(e)] of a caught exception. *)
Definition exn_str (e : exn) : string :=
match e with
| ZeroDivisionError => "division by zero"
| OverflowError => "cannot convert float infinity to integer"
| ValueError msg => msg
| AttributeError msg => msg
| FileNotFoundError p => "No such file or directory: " +:+ p
| ParserError p => "Error tokenizing data: " +:+ p
| UnidentifiedImageError p => "cannot identify image file " +:+ p
| Exception msg => msg
end.

(** The body of the loop of [blurry_filter]. *)
Definition blurry_tile (path blurry_path : string) (threshold : float)
  (row : Row) (df_list : list Row) : M (list Row) :=
let path_to_tile := r_path_to_slide row in
try_except
  (do tile <- Image_open path_to_tile;
   do not_blurry <- lift (LaplaceFilter tile threshold);
   if not_blurry then
     do img <- Image_open path_to_tile;
     run Image_save img (path_join path (stage_name row));
     ret (df_list ++ [stage_row path row])
   else
     do img <- Image_open path_to_tile;
     run Image_save img (path_join blurry_path (stage_name row));
     ret df_list)
  (fun e =>
     run print ("An error occurred: " +:+ exn_str e);
     run errors_append (r_patient_id row, path_to_tile, Exc e, "Blur filter.");
     ret df_list).

(** [blurry_filter]: the Quality Filter. *)
Definition blurry_filter (tile_information result_path : string)
  (threshold : float) : M Z :=
run print "removing blurry tiles";
do tiles <- read_csv tile_information;
let path := path_join result_path "infocus_tiles" in
let blurry_path := path_join result_path "outfocus_tiles" in
do df_list <- for_acc tiles (blurry_tile path blurry_path threshold) [];
run to_csv (path_join result_path "infocus_tile_information.csv") df_list;
ret (Z.of_nat (length df_list)).

(** The call of [VisulizationUtils.SlideReconstruction], which stores its
  picture at [out]. *)
Definition call_SlideReconstruction (in_focus_path out : string) : M unit :=
fun w =>
  match SlideReconstruction (fs w) in_focus_path with
  | Returned img => Image_save img out w
  | Raised e => (Raised e, w)
  end.

(** The call of [SlideEncoding.encode_tiles]. *)
Definition call_encode_tiles (patient_id in_focus_path encoder_path device : string)
: M unit :=
fun w => (encode_tiles patient_id in_focus_path encoder_path device (fs w), w).

(** [preprocessing]: the per-slide Orchestrator.  It returns the local
  lists [summary] and [error]. *)
Definition preprocessing (path patient_path patient_id device encoder_path : string)
  (args : Args) : M (list OutcomeRecord * list ErrorRecord) :=
let Tissue := new_TissueSlide path in
run print ("processing: " +:+ path);
do r <-
  match slide Tissue with
  | Some _ =>
      if desired_magnification args <=? magnification Tissue then
        let tile_inf_path := path_join patient_path "tile_information.csv" in
        do tile_inf_exists <- isfile tile_inf_path;
        do total_tiles <-
          (if negb tile_inf_exists then
             do mask <- lift (new_TissueMask Tissue patient_path);
             tiling Tissue patient_path mask (overlap args)
                    (desired_size args) (desired_magnification args)
                    (tissue_threshold args)
           else
             do rows <- read_csv tile_inf_path;
             ret (Some (Z.of_nat (length rows))));
        let normalize_tiles_path :=
          path_join patient_path "normalized_tile_information.csv" in
        do normalized_exists <- isfile normalize_tiles_path;
        run (if negb normalized_exists
             then normalize_tiles tile_inf_path patient_path device
             else ret tt);
        let in_focus_path :=
          path_join patient_path "infocus_tile_information.csv" in
        do in_focus_exists <- isfile in_focus_path;
        do blur <-
          (if negb in_focus_exists then
             do n <- blurry_filter normalize_tiles_path patient_path
                                   (blur_threshold args);
             ret (Some n)
           else
             do rows <- read_csv in_focus_path;
             ret (Some (Z.of_nat (length rows))));
        run (if tile_graph args then
               call_SlideReconstruction in_focus_path
                 (path_join patient_path "Reconstructed_Slide.png")
             else ret tt);
        run call_encode_tiles patient_id in_focus_path encoder_path device;
        ret (total_tiles, blur, [])
      else
        run print "Desired magnification is greater than slide magnification";
        ret (None, None,
             [(patient_id, path,
               Msg "Desired magnification is greater than slide magnification",
               "Tiling")])
  | None =>
      ret (None, None,
           [(patient_id, path,
             Msg "OpenSlide had an error with opening the provided slide.",
             "Slide Opening")])
  end;
let '(total_tiles, blur, error) := r in
ret ([(patient_id, path, total_tiles, blur)], error).

End Pipeline.

(** A computation that, started with the file [f0] at [p0], writes only
    paths in [Pp], prints only lines in [Po], and returns only values in
    [Q]. *)
Definition keeps {A} (p0 : string) (f0 : File) (Pp Po : string -> Prop)
    (Q : A -> Prop) (m : M A) : Prop :=
  forall w o w', fs w !! p0 = Some f0 -> m w = (o, w') ->
    (forall p, ~ Pp p -> fs w' !! p = fs w !! p) /\
    (exists out, stdout w' = stdout w ++ out /\ Forall Po out) /\
    (forall a, o = Returned a -> Q a).

(* ===================================================================== *)
(** ** What the per-tile steps compute *)
(* ===================================================================== *)

Section TileOutcomes.
Context `{Collaborators}.

(** What loading the tile of a row from the files [f] and normalising it
    yields. *)
Definition normalized_tile (f : gmap string File) (row : Row) : Outcome Img :=
  match f !! r_path_to_slide row with
  | Some (ImageFile img) => normalizeStaining img
  | Some _ => Raised (UnidentifiedImageError (r_path_to_slide row))
  | None => Raised (FileNotFoundError (r_path_to_slide row))
  end.

(** The Error Record of a tile that could not be normalised. *)
Definition normalization_error (row : Row) (e : exn) : ErrorRecord :=
  (r_patient_id row, r_path_to_slide row, Exc e, "Normalization").

(** What loading the tile of a row from the files [f] and testing its
    sharpness yields: the picture and the decision. *)
Definition focus_decision (f : gmap string File) (threshold : float) (row : Row)
  : Outcome (Img * bool) :=
  match f !! r_path_to_slide row with
  | Some (ImageFile img) =>
      obind (LaplaceFilter img threshold) (fun b => Returned (img, b))
  | Some _ => Raised (UnidentifiedImageError (r_path_to_slide row))
  | None => Raised (FileNotFoundError (r_path_to_slide row))
  end.

End TileOutcomes.

(** The state with a picture stored at [p]. *)
Definition with_image (p : string) (img : Img) (w : World) : World :=
  mkWorld (<[p := ImageFile img]> (fs w)) (errors w) (stdout w).

(* ===================================================================== *)
(** ** A synthetic slide and simple collaborators, for concrete runs *)
(* ===================================================================== *)

Module Demo.

Definition pixel : Img := [[(200, 100, 150)]].

(** A reader whose every region is the same one-pixel picture. *)
Definition handle : OpenSlide :=
  {| read_region := fun _ _ _ => Returned pixel |}.

(** A [w] x [h] slide of native magnification [m] that opens. *)
Definition synthetic (w h m : Z) : TissueSlide :=
  {| id := "S1"; path := "S1.svs"; magnification := m;
     dimensions := (w, h); SCALE := 32; slide := Some handle |}.

(** A slide the reader cannot open. *)
Definition unreadable : TissueSlide :=
  {| id := "S0"; path := "S0.svs"; magnification := 0;
     dimensions := (0, 0); SCALE := 32; slide := None |}.

(** A mask that is tissue everywhere. *)
Definition all_tissue : TissueMask :=
  {| get_region_mask := fun _ _ => Returned [[true]];
     is_tissue := fun _ _ => Returned true |}.

(** Collaborators that open the 1024 x 1024 slide at magnification 40
    for every path but "S0.svs", leave pictures as they are, fail to
    normalise an empty picture, and give a picture whose first red value
    is at least 128 the variance 0.015, any other 0.001. *)
#[export] Instance collaborators : Collaborators := {|
  new_TissueSlide := fun p =>
    if bool_decide (p = "S0.svs") then unreadable else synthetic 1024 1024 40;
  new_TissueMask := fun _ _ => Returned all_tissue;
  convert_RGB := fun img => Returned img;
  resize := fun img _ => Returned img;
  normalizeStaining := fun img =>
    match img with
    | [] => Raised (Exception "Eigenvalues did not converge")
    | _ => Returned img
    end;
  rgb2gray := fun img =>
    Returned (map (map (fun '(r, _, _) =>
                          if 128 <=? r then 0.015%float else 0.001%float)) img);
  cv2_Laplacian := fun g => Returned g;
  np_var := fun g =>
    match g with
    | (v :: _) :: _ => v
    | _ => PrimFloat.zero
    end;
  SlideReconstruction := fun _ _ => Returned pixel;
  encode_tiles := fun _ _ _ _ _ => Returned tt
|}.

Definition empty_world : World := mkWorld ∅ [] [].

Definition args (mag size ov : Z) : Args :=
  {| desired_magnification := mag; desired_size := size; overlap := ov;
     tissue_threshold := 0.8; blur_threshold := 0.015; tile_graph := false |}.

End Demo.

(* ===================================================================== *)
(** ** Predicates used to state the properties *)
(* ===================================================================== *)

Definition last_char : string -> option ascii :=
  fix go (s : string) : option ascii :=
    match s with
    | EmptyString => None
    | String c EmptyString => Some c
    | String _ s' => go s'
    end.

(** What [path_join] puts before its second component. *)
Definition join_prefix (a : string) : string :=
  if bool_decide (a = "") || ends_with_slash a then a else a +:+ "/".

(** Paths of stored pictures end in "g" (".png"); Manifests end in "v". *)
Definition is_png (p : string) : Prop := last_char p = Some "g"%char.

(** What a run printed: the lines added to [stdout]. *)
Definition printed (w w' : World) : list string :=
  drop (length (stdout w)) (stdout w').

(** The Manifest row and tile file of the origin [(x, y)]. *)
Definition tile_row (ts : TissueSlide) (tiles : string) (size x y : Z) : Row :=
  mkRow (id ts) x y (magnification ts) size
        (path_join tiles
           (tile_name (id ts) x y (magnification ts) size (SCALE ts)))
        (SCALE ts).

(** A row of the Tiling Manifest: its origin is a pair of multiples of the
    stride, inside the slide by the extraction size. *)
Definition accepted_row (ts : TissueSlide) (tiles : string) (stride size : Z)
    (r : Row) : Prop :=
  exists i j : nat,
    r = tile_row ts tiles size (Z.of_nat i * stride) (Z.of_nat j * stride) /\
    0 <= r_x r <= fst (dimensions ts) - size /\
    0 <= r_y r <= snd (dimensions ts) - size.

(** The invariant of the two loops of [tiling]: every row gathered so far
    is an accepted row whose picture is stored. *)
Definition tiling_inv (ts : TissueSlide) (tiles : string) (stride size : Z)
    (df : list Row) (wd : World) : Prop :=
  Forall (accepted_row ts tiles stride size) df /\
  Forall (fun r => exists img,
            fs wd !! r_path_to_slide r = Some (ImageFile img)) df.

(** The line [blurry_filter] prints for a tile it could not process. *)
Definition error_line (s : string) : Prop :=
  exists msg, s = "An error occurred: " +:+ msg.

(** A computation that writes only paths in [Pp] and prints only lines in
    [Po]. *)
Definition writes_only {A} (Pp Po : string -> Prop) (m : M A) : Prop :=
  forall w o w', m w = (o, w') ->
    (forall p, ~ Pp p -> fs w' !! p = fs w !! p) /\
    (exists out, stdout w' = stdout w ++ out /\ Forall Po out).

(* ===================================================================== *)
(** ** Concrete states of the output tree *)
(* ===================================================================== *)

Module DemoRuns.

(** The row of the synthetic slide's tile at [(x, y)]. *)
Definition row (x y : Z) : Row :=
  tile_row (Demo.synthetic 1024 1024 40) "out/tiles" 512 x y.

(** A sharp picture and a blurred one, for the demo variance. *)
Definition sharp : Img := [[(200, 100, 150)]].
Definition blurred : Img := [[(90, 100, 150)]].

(** A Tiling Manifest of three tiles, the second of which has no file. *)
Definition missing_tile : World :=
  mkWorld
    (<["out/tile_information.csv" := CsvFile [row 0 0; row 0 512; row 512 0]]>
       (<[r_path_to_slide (row 0 0) := ImageFile sharp]>
          (<[r_path_to_slide (row 512 0) := ImageFile sharp]> ∅)))
    [] [].

(** A Normalization Manifest of three tiles, the second of which is
    blurred. *)
Definition one_blurred : World :=
  mkWorld
    (<["out/normalized_tile_information.csv"
       := CsvFile [row 0 0; row 0 512; row 512 0]]>
       (<[r_path_to_slide (row 0 0) := ImageFile sharp]>
          (<[r_path_to_slide (row 0 512) := ImageFile blurred]>
             (<[r_path_to_slide (row 512 0) := ImageFile sharp]> ∅))))
    [] [].

(** The state a first run of the Orchestrator leaves. *)
Definition after_first_run : World :=
  snd (@preprocessing Demo.collaborators "S1.svs" "out" "S1" "cpu" "enc"
         (Demo.args 20 256 0) Demo.empty_world).

(** A Tiling Manifest of two tiles, neither of which has a file. *)
Definition no_files : World :=
  mkWorld (<["out/tile_information.csv" := CsvFile [row 0 0; row 0 512]]> ∅)
          [] [].

(** The state the Stain Normaliser is in when it reaches the tile without
    a file. *)
Definition before_missing : Outcome (list Row) * World :=
  for_acc [row 0 0] (@normalize_tile Demo.collaborators "out/normalized_tiles") []
    (mkWorld (fs missing_tile) [] ["Normalizing tiles"]).

(** The state the Quality Filter is in when it reaches the third tile. *)
Definition before_third : Outcome (list Row) * World :=
  for_acc [row 0 0; row 0 512]
    (@blurry_tile Demo.collaborators "out/infocus_tiles" "out/outfocus_tiles"
       0.015%float) []
    (mkWorld (fs one_blurred) [] ["removing blurry tiles"]).

(** A second run over the same output directory. *)
Definition second_run : Outcome (list OutcomeRecord * list ErrorRecord) * World :=
  @preprocessing Demo.collaborators "S1.svs" "out" "S1" "cpu" "enc"
    (Demo.args 20 256 0) after_first_run.

End DemoRuns.

(* ===================================================================== *)
(** ** The candidates the Tile Selector accepts *)
(* ===================================================================== *)

(** Whether the mask accepts the window at [(x, y)]. *)
Definition tissue_accepts (mask : TissueMask) (threshold : float)
    (size x y : Z) : bool :=
  match get_region_mask mask (x, y) (size, size) with
  | Returned region =>
      match is_tissue mask region threshold with
      | Returned b => b
      | Raised _ => false
      end
  | Raised _ => false
  end.

(** Whether [tiling] accepts the candidate origin [(x, y)]. *)
Definition candidate_accepted (ts : TissueSlide) (mask : TissueMask)
    (threshold : float) (size : Z) (xy : Z * Z) : bool :=
  (fst xy <=? fst (dimensions ts) - size)
  && (snd xy <=? snd (dimensions ts) - size)
  && tissue_accepts mask threshold size (fst xy) (snd xy).

(** The rows of the accepted candidates among the origins [xs] x [ys], in
    the order of the two loops. *)
Definition accepted_rows (ts : TissueSlide) (tiles : string) (mask : TissueMask)
    (threshold : float) (size : Z) (xs ys : list Z) : list Row :=
  map (fun xy => tile_row ts tiles size (fst xy) (snd xy))
      (List.filter (candidate_accepted ts mask threshold size) (list_prod xs ys)).

(** The number of candidate origins along an axis of length [extent]. *)
Definition origins_along (extent size stride : Z) : Z :=
  Z.max 0 ((extent - size) / stride + 1).

(* ===================================================================== *)
(** ** Strings, as the driver functions use them *)
(* ===================================================================== *)

(** [s.split(sep)] for a separator of one character. *)
Fixpoint split_on (sep : ascii) (s : string) : list string :=
  match s with
  | EmptyString => [EmptyString]
  | String c s' =>
      if bool_decide (c = sep) then EmptyString :: split_on sep s'
      else match split_on sep s' with
           | h :: t => String c h :: t
           | [] => [String c EmptyString]
           end
  end.

(** [sep.join(fields)]. *)
Fixpoint join_with (sep : ascii) (fields : list string) : string :=
  match fields with
  | [] => EmptyString
  | [f] => f
  | f :: rest => f +:+ String sep (join_with sep rest)
  end.

(** Whether a string is ASCII text: every character code is below 128.
    The driver functions are modelled on such text, where [str.isdigit]
    and [int] know the digits 0 to 9 only. *)
Fixpoint ascii_only (s : string) : bool :=
  match s with
  | EmptyString => true
  | String c s' => (nat_of_ascii c <? 128)%nat && ascii_only s'
  end.

(** [c.isdigit()] for an ASCII character. *)
Definition isdigit (c : ascii) : bool :=
  (48 <=? nat_of_ascii c)%nat && (nat_of_ascii c <=? 57)%nat.

(** [''.join([char for char in s if char.isdigit()])]. *)
Fixpoint digits_of (s : string) : string :=
  match s with
  | EmptyString => EmptyString
  | String c s' => if isdigit c then String c (digits_of s') else digits_of s'
  end.

(** The value of a string of decimal digits, most significant first. *)
Definition int_of_digits (s : string) : Z :=
  fold_left (fun acc c => acc * 10 + (Z.of_nat (nat_of_ascii c) - 48))
            (list_ascii_of_string s) 0.

(** The exceptions of the driver functions. *)
Inductive driver_exn :=
| IndexError
| IntValueError (literal : string).

Inductive Result (A : Type) :=
| Ok (a : A)
| Err (e : driver_exn).
Arguments Ok {A} a.
Arguments Err {A} e.

(** The longest digit string [int] converts (CPython's default
    [int_max_str_digits]). *)
Definition int_max_str_digits : nat := 4300.

(** [int(s)] for a string that holds decimal digits only: it raises on
    the empty string and on more digits than the limit. *)
Definition int_of_string (s : string) : Result Z :=
  match s with
  | EmptyString => Err (IntValueError s)
  | _ =>
      if (int_max_str_digits <? String.length s)%nat then Err (IntValueError s)
      else Ok (int_of_digits s)
  end.

(** [extract_diagnosis]: the label of a patient identifier, from the
    digits of its fourth field.  Identifiers are ASCII strings. *)
Definition extract_diagnosis (ID : string) : Result Z :=
  let ID := split_on "-" ID in
  match nth_error ID 3 with
  | None => Err IndexError
  | Some diagnosis =>
      let tumor_identification := digits_of diagnosis in
      match int_of_string tumor_identification with
      | Err e => Err e
      | Ok v => if 11 <=? v then Ok 0 else Ok 1
      end
  end.

(** The number of occurrences of [c] in [s]. *)
Fixpoint count_char (c : ascii) (s : string) : nat :=
  match s with
  | EmptyString => O
  | String d s' => (if bool_decide (d = c) then 1 else 0) + count_char c s'
  end.

(* ===================================================================== *)
(** ** The patient file and the driver functions around it *)
(* ===================================================================== *)

(** [s.endswith(suffix)]. *)
Fixpoint ends_with (suffix s : string) : bool :=
  if String.eqb s suffix then true
  else match s with
       | EmptyString => false
       | String _ s' => ends_with suffix s'
       end.

(** The file name endings [patient_csv] and [move_svs_files] take for
    slides. *)
Definition slide_extensions : list string :=
  [".svs"; ".tif"; ".dcm"; ".ndpi"; ".vms"; ".vmu"; ".scn"; ".mrxs"; ".tiff";
   ".svslide"; ".bif"].

(** [file.endswith((".svs", ...))]. *)
Definition is_slide_file (file : string) : bool :=
  existsb (fun ext => ends_with ext file) slide_extensions.

(** [os.path.basename] (POSIX): what follows the last slash. *)
Definition basename (p : string) : string := List.last (split_on "/" p) "".

(** [s.rstrip("/")]. *)
Fixpoint rstrip_slash (s : string) : string :=
  match s with
  | EmptyString => EmptyString
  | String c s' =>
      match rstrip_slash s' with
      | EmptyString =>
          if bool_decide (c = "/"%char) then EmptyString else String c EmptyString
      | t => String c t
      end
  end.

(** [p[:p.rfind("/") + 1]]: the path up to and with its last slash. *)
Fixpoint head_with_slash (p : string) : string :=
  match p with
  | EmptyString => EmptyString
  | String c p' =>
      match head_with_slash p' with
      | EmptyString =>
          if bool_decide (c = "/"%char) then String c EmptyString else EmptyString
      | t => String c t
      end
  end.

(** [os.path.dirname] (POSIX): the head without its trailing slashes,
    unless it is made of slashes only. *)
Definition dirname (p : string) : string :=
  let head := head_with_slash p in
  match rstrip_slash head with
  | EmptyString => head
  | stripped => stripped
  end.

(** One row of [patient_files.csv]; the columns are
    [Patient ID, Original Slide Path, Preprocessing Path]. *)
Record PatientRow := mkPatientRow {
  p_id : string;
  p_original : string;
  p_preprocessing : string
}.

(** The row [patient_csv] writes for the slide at [original], whose
    identifier is taken from [name]: the base name up to its first
    dot. *)
Definition patient_csv_row (results_path original name : string) : PatientRow :=
  let patient_id := basename name in
  let patient_id := hd "" (split_on "." patient_id) in
  mkPatientRow patient_id original (path_join results_path patient_id).

(** [patient_csv]: the path of the patient file and the rows written to
    it after the header.  [listdir] gives the entries of a directory and
    [None] for what is not one.  Directories are not tracked, so the
    [os.makedirs] calls leave no trace. *)
Definition patient_csv (listdir : string -> option (list string))
    (input_path results_path : string) : string * list PatientRow :=
  let csv_file_path := path_join results_path "patient_files.csv" in
  let rows :=
    match listdir input_path with
    | Some names =>
        fold_left
          (fun rows file =>
             if is_slide_file file
             then rows ++ [patient_csv_row results_path
                             (path_join input_path file) file]
             else rows)
          names []
    | None => [patient_csv_row results_path input_path input_path]
    end in
  (csv_file_path, rows).

(** A row of the patient file after [patient_files_encoded]: the columns
    [target] and [Encoded Path] are added. *)
Record EncodedRow := mkEncodedRow {
  e_row : PatientRow;
  e_target : Z;
  e_encoded_path : string
}.

(** The loop of [patient_files_encoded] over the rows of the frame; the
    Patient ID of a row is a string. *)
Fixpoint patient_files_encoded_loop (rows : list PatientRow)
    (df : list EncodedRow) : Result (list EncodedRow) :=
  match rows with
  | [] => Ok df
  | row :: rows' =>
      match extract_diagnosis (p_id row) with
      | Err e => Err e
      | Ok label =>
          let encoded_path :=
            path_join (path_join (dirname (p_preprocessing row)) "encoded")
                      (p_id row +:+ ".h5") in
          patient_files_encoded_loop rows'
            (df ++ [mkEncodedRow row label encoded_path])
      end
  end.

(** [patient_files_encoded], on the rows read from the patient file: the
    rows it writes back, or the exception raised before anything is
    written. *)
Definition patient_files_encoded (rows : list PatientRow)
  : Result (list EncodedRow) :=
  patient_files_encoded_loop rows [].

Section Driver.
Context `{Collaborators}.

(** [preprocess_patient]: the Orchestrator on one row of the patient
    file. *)
Definition preprocess_patient (row : PatientRow) (device encoder_path : string)
    (args : Args) : M (list OutcomeRecord * list ErrorRecord) :=
  let result := p_preprocessing row in
  let original := p_original row in
  let patient_id := p_id row in
  do se <- preprocessing original result patient_id device encoder_path args;
  run print ("done with patient " +:+ patient_id);
  ret se.

End Driver.

(** A listing with two slides whose names agree up to the first dot. *)
Definition demo_listdir (p : string) : option (list string) :=
  if bool_decide (p = "slides")
  then Some ["S1.svs"; "notes.txt"; "S1.v2.tif"; "TCGA-A1-A0SB-01Z-00-DX1.svs"]
  else None.

Module DemoDriver.

(** The rows [patient_csv] writes for the demo listing. *)
Definition rows : list PatientRow := snd (patient_csv demo_listdir "slides" "out").

Definition first_row : PatientRow :=
  patient_csv_row "out" (path_join "slides" "S1.svs") "S1.svs".
Definition second_row : PatientRow :=
  patient_csv_row "out" (path_join "slides" "S1.v2.tif") "S1.v2.tif".

(** The driver on the first row, and then on the second. *)
Definition first_run : Outcome (list OutcomeRecord * list ErrorRecord) * World :=
  @preprocess_patient Demo.collaborators first_row "cpu" "out/encoded"
    (Demo.args 20 256 0) Demo.empty_world.
Definition second_run : Outcome (list OutcomeRecord * list ErrorRecord) * World :=
  @preprocess_patient Demo.collaborators second_row "cpu" "out/encoded"
    (Demo.args 20 256 0) (snd first_run).

End DemoDriver.

(* ===================================================================== *)
(** ** Facts about the binary64 model *)
(* ===================================================================== *)

Module Binary64Facts.
Import Binary64.

Lemma round_half_even_exact (k b : Z) :
  0 < b -> round_half_even (k * b) b = k.
Proof.
  intros Hb. unfold round_half_even.
  rewrite Z.div_mul by lia. rewrite Z.mod_mul by lia.
  cbv zeta. destruct (Z.compare_spec (2 * 0) b); lia.
Qed.

(** The binade of an exact quotient is that of the quotient. *)
Lemma ilog2_frac_exact (k b : Z) :
  0 < b -> 0 < k -> ilog2_frac (k * b) b = Z.log2 k.
Proof.
  intros Hb Hk. unfold ilog2_frac.
  pose proof (Z.log2_mul_below k b Hk Hb) as Hlo.
  pose proof (Z.log2_mul_above k b ltac:(lia) ltac:(lia)) as Hhi.
  pose proof (Z.log2_nonneg k) as Hk0.
  pose proof (Z.log2_spec k Hk) as [Hk1 Hk2].
  set (d := Z.log2 (k * b) - Z.log2 b) in *.
  assert (Hd : d = Z.log2 k \/ d = Z.log2 k + 1) by lia.
  replace (0 <=? d) with true by (symmetry; apply Z.leb_le; lia).
  destruct Hd as [Hd | Hd]; rewrite Hd.
  - replace (b * 2 ^ Z.log2 k <=? k * b) with true; [reflexivity|].
    symmetry. apply Z.leb_le. nia.
  - replace (b * 2 ^ (Z.log2 k + 1) <=? k * b) with false; [lia|].
    symmetry. apply Z.leb_gt.
    replace (Z.succ (Z.log2 k)) with (Z.log2 k + 1) in Hk2 by lia. nia.
Qed.

(** Rounding an exact quotient that fits the significand changes
    nothing. *)
Lemma round_frac_exact (k b : Z) :
  0 < b -> 0 < k < 2 ^ 53 -> round_frac (k * b) b = Some (canon k).
Proof.
  intros Hb [Hk Hk53]. unfold round_frac, round_expo, prec, emin, emax.
  assert (Hl : 0 <= Z.log2 k <= 52).
  { split; [apply Z.log2_nonneg|].
    enough (Z.log2 k < 53) by lia. apply Z.log2_lt_pow2; lia. }
  replace (k * b =? 0) with false by (symmetry; apply Z.eqb_neq; nia).
  rewrite (Z.abs_eq (k * b)) by nia.
  rewrite ilog2_frac_exact by lia.
  rewrite Z.max_l by lia.
  replace (Z.sgn (k * b)) with 1 by (symmetry; apply Z.sgn_pos; nia).
  replace (1024 - 53 <? Z.log2 k - (53 - 1)) with false
    by (symmetry; apply Z.ltb_ge; lia).
  replace (Z.log2 k - (53 - 1) =? 1024 - 53) with false
    by (symmetry; apply Z.eqb_neq; lia).
  cbn [orb andb]. unfold canon. f_equal.
  replace (Z.log2 k - (53 - 1)) with (Z.log2 k - 52) by lia.
  destruct (Z.leb_spec 0 (Z.log2 k - 52)) as [He | He].
  - assert (Z.log2 k = 52) as -> by lia. cbn [Z.sub Z.pos_sub Z.pow Z.opp].
    change (2 ^ 0) with 1. rewrite !Z.mul_1_r.
    rewrite round_half_even_exact by lia. f_equal. lia.
  - replace (k * b * 2 ^ (- (Z.log2 k - 52)))
      with (k * 2 ^ (52 - Z.log2 k) * b).
    + rewrite round_half_even_exact by lia. f_equal. lia.
    + replace (- (Z.log2 k - 52)) with (52 - Z.log2 k) by lia. ring.
Qed.

Lemma of_int_exact (k : Z) : 0 < k < 2 ^ 53 -> of_int k = Some (canon k).
Proof.
  intros Hk. unfold of_int.
  rewrite <- (Z.mul_1_r k) at 1. apply round_frac_exact; lia.
Qed.




End Binary64Facts.

(* ===================================================================== *)
(** ** Facts about paths and names *)
(* ===================================================================== *)

Lemma last_char_cons (c : ascii) (s : string) (d : ascii) :
  last_char s = Some d -> last_char (String c s) = Some d.
Proof. destruct s; [discriminate|]. intros Hs. exact Hs. Qed.

Lemma last_char_app (s t : string) (c : ascii) :
  last_char t = Some c -> last_char (s +:+ t) = Some c.
Proof.
  intros Ht. induction s as [|a s IH]; [exact Ht|].
  change (String a s +:+ t) with (String a (s +:+ t)).
  apply last_char_cons. exact IH.
Qed.

Lemma append_assoc (a b c : string) : (a +:+ b) +:+ c = a +:+ (b +:+ c).
Proof.
  induction a as [|x a IH]; [reflexivity|].
  change (String x ((a +:+ b) +:+ c) = String x (a +:+ (b +:+ c))).
  rewrite IH. reflexivity.
Qed.

Lemma append_inj_l (a b c : string) : a +:+ b = a +:+ c -> b = c.
Proof.
  induction a as [|x a IH]; [trivial|]. intros Heq.
  change (String x (a +:+ b) = String x (a +:+ c)) in Heq.
  apply IH. congruence.
Qed.

Lemma path_join_relative (a b : string) :
  starts_with_slash b = false -> path_join a b = join_prefix a +:+ b.
Proof.
  intros Hb. unfold path_join, join_prefix. rewrite Hb.
  destruct (bool_decide (a = "") || ends_with_slash a); [reflexivity|].
  symmetry. apply append_assoc.
Qed.

Lemma last_char_path_join (a b : string) (c : ascii) :
  last_char b = Some c -> last_char (path_join a b) = Some c.
Proof.
  intros Hb. unfold path_join.
  destruct (starts_with_slash b); [exact Hb|].
  destruct (bool_decide (a = "") || ends_with_slash a);
    repeat apply last_char_app; exact Hb.
Qed.

Lemma path_join_inj (a b c : string) :
  starts_with_slash b = false -> starts_with_slash c = false ->
  path_join a b = path_join a c -> b = c.
Proof.
  intros Hb Hc. rewrite !path_join_relative by assumption.
  apply append_inj_l.
Qed.

Lemma tile_name_png (i : string) (x y mag size scale : Z) :
  is_png (tile_name i x y mag size scale).
Proof.
  unfold is_png, tile_name. repeat apply last_char_app. reflexivity.
Qed.

Lemma tile_path_png (dir i : string) (x y mag size scale : Z) :
  is_png (path_join dir (tile_name i x y mag size scale)).
Proof. apply last_char_path_join, tile_name_png. Qed.

Lemma csv_not_png (dir name : string) :
  last_char name = Some "v"%char -> ~ is_png (path_join dir name).
Proof.
  intros Hn Hp. unfold is_png in Hp.
  rewrite (last_char_path_join dir name _ Hn) in Hp. discriminate.
Qed.

(* ===================================================================== *)
(** ** Facts about the monad and its loops *)
(* ===================================================================== *)

Lemma bind_inv {A B} (m : M A) (k : A -> M B) (w w2 : World) (b : B) :
  bind m k w = (Returned b, w2) ->
  exists a w1, m w = (Returned a, w1) /\ k a w1 = (Returned b, w2).
Proof.
  unfold bind. destruct (m w) as [[a | e] w1]; [eauto | discriminate].
Qed.

Lemma bind_returned {A B} (m : M A) (k : A -> M B) (w w1 : World) (a : A) :
  m w = (Returned a, w1) -> bind m k w = k a w1.
Proof. unfold bind. intros ->. reflexivity. Qed.

Lemma bind_raised {A B} (m : M A) (k : A -> M B) (w w1 : World) (e : exn) :
  m w = (Raised e, w1) -> bind m k w = (Raised e, w1).
Proof. unfold bind. intros ->. reflexivity. Qed.

Lemma for_acc_app {A S} (l1 l2 : list A) (body : A -> S -> M S) (s : S) (w : World) :
  for_acc (l1 ++ l2) body s w =
  match for_acc l1 body s w with
  | (Returned s1, w1) => for_acc l2 body s1 w1
  | (Raised e, w1) => (Raised e, w1)
  end.
Proof.
  revert s w. induction l1 as [|a l1 IH]; intros s w; [reflexivity|].
  cbn [app for_acc]. unfold bind.
  destruct (body a s w) as [[s1 | e] w1]; [apply IH | reflexivity].
Qed.

(** An invariant of the accumulator and the state that every returning
    iteration keeps holds when the loop returns. *)
Lemma for_acc_inv {A S} (P : S -> World -> Prop) (l : list A)
    (body : A -> S -> M S) :
  (forall a s w s' w', In a l -> P s w ->
     body a s w = (Returned s', w') -> P s' w') ->
  forall s w s' w', P s w ->
    for_acc l body s w = (Returned s', w') -> P s' w'.
Proof.
  induction l as [|a l IH]; intros Hstep s w s' w' HP Hrun.
  - cbn in Hrun. unfold ret in Hrun. congruence.
  - cbn [for_acc] in Hrun. apply bind_inv in Hrun as (s1 & w1 & H1 & H2).
    apply (IH (fun a0 s0 w0 s0' w0' Hin => Hstep a0 s0 w0 s0' w0' (or_intror Hin))
              s1 w1 s' w'); [|exact H2].
    apply (Hstep a s w s1 w1); [left; reflexivity | exact HP | exact H1].
Qed.

(* ===================================================================== *)
(** ** What a computation may write and print *)
(* ===================================================================== *)

Section WritesOnly.
Variables Pp Po : string -> Prop.

Lemma wo_pure {A} (m : M A) :
  (forall w, snd (m w) = w) -> writes_only Pp Po m.
Proof.
  intros Hm w o w' Hrun. pose proof (Hm w) as Hw. rewrite Hrun in Hw.
  cbn in Hw. subst w'. split; [reflexivity|].
  exists []. rewrite app_nil_r. split; [reflexivity | constructor].
Qed.

Lemma wo_ret {A} (a : A) : writes_only Pp Po (ret a).
Proof. apply wo_pure. reflexivity. Qed.

Lemma wo_lift {A} (o : Outcome A) : writes_only Pp Po (lift o).
Proof. apply wo_pure. reflexivity. Qed.

Lemma wo_isfile (p : string) : writes_only Pp Po (isfile p).
Proof. apply wo_pure. reflexivity. Qed.

Lemma wo_read_csv (p : string) : writes_only Pp Po (read_csv p).
Proof.
  apply wo_pure. intros w. unfold read_csv.
  destruct (fs w !! p) as [[]|]; reflexivity.
Qed.

Lemma wo_Image_open (p : string) : writes_only Pp Po (Image_open p).
Proof.
  apply wo_pure. intros w. unfold Image_open.
  destruct (fs w !! p) as [[]|]; reflexivity.
Qed.

Lemma wo_errors_append (r : ErrorRecord) : writes_only Pp Po (errors_append r).
Proof.
  intros w o w' Hrun. unfold errors_append in Hrun.
  injection Hrun as _ <-. cbn. split; [reflexivity|].
  exists []. rewrite app_nil_r. split; [reflexivity | constructor].
Qed.

Lemma wo_print (s : string) : Po s -> writes_only Pp Po (print s).
Proof.
  intros Hs w o w' Hrun. unfold print in Hrun.
  injection Hrun as _ <-. cbn. split; [reflexivity|].
  exists [s]. split; [reflexivity | repeat constructor; exact Hs].
Qed.

Lemma wo_write_file (p : string) (f : File) :
  Pp p -> writes_only Pp Po (write_file p f).
Proof.
  intros Hp w o w' Hrun. unfold write_file in Hrun.
  injection Hrun as _ <-. cbn. split.
  - intros q Hq. apply lookup_insert_ne. intros ->. contradiction.
  - exists []. rewrite app_nil_r. split; [reflexivity | constructor].
Qed.

Lemma wo_seq (w w1 w2 : World) :
  ((forall p, ~ Pp p -> fs w1 !! p = fs w !! p) /\
   (exists out, stdout w1 = stdout w ++ out /\ Forall Po out)) ->
  ((forall p, ~ Pp p -> fs w2 !! p = fs w1 !! p) /\
   (exists out, stdout w2 = stdout w1 ++ out /\ Forall Po out)) ->
  (forall p, ~ Pp p -> fs w2 !! p = fs w !! p) /\
  (exists out, stdout w2 = stdout w ++ out /\ Forall Po out).
Proof.
  intros [Hf1 (o1 & Ho1 & HP1)] [Hf2 (o2 & Ho2 & HP2)]. split.
  - intros p Hp. rewrite (Hf2 p Hp). apply Hf1, Hp.
  - exists (o1 ++ o2). rewrite Ho2, Ho1, app_assoc. split; [reflexivity|].
    apply Forall_app. split; assumption.
Qed.

Lemma wo_bind {A B} (m : M A) (k : A -> M B) :
  writes_only Pp Po m -> (forall a, writes_only Pp Po (k a)) ->
  writes_only Pp Po (bind m k).
Proof.
  intros Hm Hk w o w' Hrun. unfold bind in Hrun.
  destruct (m w) as [[a | e] w1] eqn:Hmw.
  - apply (wo_seq w w1 w'); [exact (Hm _ _ _ Hmw) | exact (Hk _ _ _ _ Hrun)].
  - injection Hrun as <- <-. exact (Hm _ _ _ Hmw).
Qed.

Lemma wo_try_except {A} (body : M A) (handler : exn -> M A) :
  writes_only Pp Po body -> (forall e, writes_only Pp Po (handler e)) ->
  writes_only Pp Po (try_except body handler).
Proof.
  intros Hm Hk w o w' Hrun. unfold try_except in Hrun.
  destruct (body w) as [[a | e] w1] eqn:Hmw.
  - injection Hrun as <- <-. exact (Hm _ _ _ Hmw).
  - apply (wo_seq w w1 w'); [exact (Hm _ _ _ Hmw) | exact (Hk _ _ _ _ Hrun)].
Qed.

Lemma wo_for_acc {A S} (l : list A) (body : A -> S -> M S) (s : S) :
  (forall a s', writes_only Pp Po (body a s')) ->
  writes_only Pp Po (for_acc l body s).
Proof.
  intros Hb. revert s. induction l as [|a l IH]; intros s.
  - apply wo_ret.
  - cbn [for_acc]. apply wo_bind; [apply Hb | intros s'; apply IH].
Qed.

End WritesOnly.

Lemma wo_mono {A} (Pp Po Pp' Po' : string -> Prop) (m : M A) :
  (forall p, Pp p -> Pp' p) -> (forall s, Po s -> Po' s) ->
  writes_only Pp Po m -> writes_only Pp' Po' m.
Proof.
  intros Hp Ho Hm w o w' Hrun. destruct (Hm w o w' Hrun) as [Hf (out & Hout & HP)].
  split.
  - intros p Hn. apply Hf. intros HPp. apply Hn, Hp, HPp.
  - exists out. split; [exact Hout|]. eapply Forall_impl; [exact HP | exact Ho].
Qed.

(** Steps through the structure of a computation. *)
Ltac wo_step :=
  lazymatch goal with
  | |- writes_only _ _ (ret _) => apply wo_ret
  | |- writes_only _ _ (lift _) => apply wo_lift
  | |- writes_only _ _ (isfile _) => apply wo_isfile
  | |- writes_only _ _ (read_csv _) => apply wo_read_csv
  | |- writes_only _ _ (Image_open _) => apply wo_Image_open
  | |- writes_only _ _ (errors_append _) => apply wo_errors_append
  | |- writes_only _ _ (bind _ _) => apply wo_bind; [|intros ?]
  | |- writes_only _ _ (try_except _ _) => apply wo_try_except; [|intros ?]
  | |- writes_only _ _ (for_acc _ _ _) => apply wo_for_acc; intros ? ?
  | |- writes_only _ _ (if ?b then _ else _) => destruct b
  | |- writes_only _ _ (match ?x with _ => _ end) => destruct x
  end.

(* ===================================================================== *)
(** ** What each stage writes and prints *)
(* ===================================================================== *)

Section StageFrames.
Context `{Collaborators}.

Lemma tiling_candidate_writes ts tiles mask desired_size threshold w h size x y df :
  writes_only is_png (fun _ => False)
    (tiling_candidate ts tiles mask desired_size threshold w h size x y df).
Proof.
  unfold tiling_candidate. repeat wo_step.
  apply wo_write_file, tile_path_png.
Qed.

Lemma tiling_writes ts result_path mask overlap desired_size mag threshold :
  writes_only
    (fun p => is_png p \/ p = path_join result_path "tile_information.csv")
    (fun s => s = "Tiling slide")
    (tiling ts result_path mask overlap desired_size mag threshold).
Proof.
  unfold tiling. repeat wo_step.
  - apply wo_print. reflexivity.
  - eapply wo_mono; [| |apply tiling_candidate_writes]; cbn; tauto.
  - apply wo_write_file. right. reflexivity.
Qed.

Lemma normalize_tile_writes dir row df :
  writes_only is_png (fun _ => False) (normalize_tile dir row df).
Proof.
  unfold normalize_tile. repeat wo_step.
  apply wo_write_file. apply tile_path_png.
Qed.

Lemma normalize_tiles_writes tile_information result_path device :
  writes_only
    (fun p => is_png p \/
              p = path_join result_path "normalized_tile_information.csv")
    (fun s => s = "Normalizing tiles")
    (normalize_tiles tile_information result_path device).
Proof.
  unfold normalize_tiles. repeat wo_step.
  - apply wo_print. reflexivity.
  - eapply wo_mono; [| |apply normalize_tile_writes]; cbn; tauto.
  - apply wo_write_file. right. reflexivity.
Qed.

Lemma blurry_tile_writes dir blurry_dir threshold row df :
  writes_only is_png error_line (blurry_tile dir blurry_dir threshold row df).
Proof.
  unfold blurry_tile. repeat wo_step.
  - apply wo_write_file. apply tile_path_png.
  - apply wo_write_file. apply tile_path_png.
  - apply wo_print. eexists. reflexivity.
Qed.

Lemma blurry_filter_writes tile_information result_path threshold :
  writes_only
    (fun p => is_png p \/
              p = path_join result_path "infocus_tile_information.csv")
    (fun s => s = "removing blurry tiles" \/ error_line s)
    (blurry_filter tile_information result_path threshold).
Proof.
  unfold blurry_filter. repeat wo_step.
  - apply wo_print. left. reflexivity.
  - eapply wo_mono; [| |apply blurry_tile_writes]; cbn; tauto.
  - apply wo_write_file. right. reflexivity.
Qed.

Lemma call_SlideReconstruction_writes in_focus_path out :
  is_png out ->
  writes_only is_png (fun _ => False) (call_SlideReconstruction in_focus_path out).
Proof.
  intros Hout w o w' Hrun. unfold call_SlideReconstruction in Hrun.
  destruct (SlideReconstruction (fs w) in_focus_path).
  - exact (wo_write_file _ _ _ _ Hout _ _ _ Hrun).
  - exact (wo_lift _ _ (Raised e) _ _ _ Hrun).
Qed.

Lemma call_encode_tiles_writes patient_id in_focus_path encoder_path device :
  writes_only is_png (fun _ => False)
    (call_encode_tiles patient_id in_focus_path encoder_path device).
Proof. apply wo_pure. reflexivity. Qed.

End StageFrames.

(* ===================================================================== *)
(** ** The Tile Selector *)
(* ===================================================================== *)

Lemma lift_inv {A} (o : Outcome A) (w w' : World) (a : A) :
  lift o w = (Returned a, w') -> o = Returned a /\ w' = w.
Proof. unfold lift. intros [= -> ->]. split; reflexivity. Qed.

Lemma range_length_bound (lo hi step : Z) (i : nat) :
  0 < step -> (i < Z.to_nat (range_length lo hi step))%nat ->
  lo + Z.of_nat i * step < hi.
Proof.
  intros Hs Hi. unfold range_length in Hi.
  destruct (Z.ltb_spec lo hi) as [Hlt | Hge]; [|cbn in Hi; lia].
  assert (Hq : Z.of_nat i <= (hi - lo - 1) / step).
  { pose proof (Z.div_pos (hi - lo - 1) step ltac:(lia) Hs). lia. }
  pose proof (Z.mul_div_le (hi - lo - 1) step Hs). nia.
Qed.

Lemma py_range_In (start stop step x : Z) (l : list Z) :
  py_range start stop step = Returned l -> In x l ->
  exists i : nat, x = start + Z.of_nat i * step /\
                  (0 < step -> x < stop) /\ (step < 0 -> stop < x).
Proof.
  unfold py_range. destruct (Z.eqb_spec step 0) as [|Hne]; [discriminate|].
  intros [= <-] Hin. apply in_map_iff in Hin as (i & <- & Hi).
  apply in_seq in Hi as [_ Hi]. cbn in Hi.
  exists i. split; [reflexivity|].
  destruct (Z.ltb_spec 0 step) as [Hpos | Hneg].
  - split; [|lia]. intros _. apply range_length_bound; assumption.
  - split; [lia|]. intros _.
    pose proof (range_length_bound stop start (- step) i ltac:(lia) Hi). lia.
Qed.

Section TilingFacts.
Context `{Collaborators}.

(** A candidate either leaves the rows and the files as they are, or is
    in bounds, stores its picture and adds its row. *)
Lemma tiling_candidate_inv ts tiles mask desired_size threshold w h size x y
    df df' wd wd' :
  tiling_candidate ts tiles mask desired_size threshold w h size x y df wd
    = (Returned df', wd') ->
  (df' = df /\ wd' = wd) \/
  (x <= w - size /\ y <= h - size /\
   df' = df ++ [tile_row ts tiles size x y] /\
   exists img,
     wd' = mkWorld (<[r_path_to_slide (tile_row ts tiles size x y) := ImageFile img]> (fs wd))
                   (errors wd) (stdout wd)).
Proof.
  unfold tiling_candidate. intros Hrun.
  destruct ((x <=? w - size) && (y <=? h - size)) eqn:Hguard.
  2: { left. unfold ret in Hrun. injection Hrun as <- <-. split; reflexivity. }
  apply andb_true_iff in Hguard as [Hx Hy].
  apply Z.leb_le in Hx. apply Z.leb_le in Hy.
  apply bind_inv in Hrun as (handle & w1 & H1 & Hrun).
  apply lift_inv in H1 as [_ ->].
  apply bind_inv in Hrun as (rgb & w1 & H1 & Hrun).
  apply lift_inv in H1 as [_ ->].
  apply bind_inv in Hrun as (tm & w1 & H1 & Hrun).
  apply lift_inv in H1 as [_ ->].
  apply bind_inv in Hrun as (tissue & w1 & H1 & Hrun).
  apply lift_inv in H1 as [_ ->].
  destruct tissue.
  2: { left. unfold ret in Hrun. injection Hrun as <- <-. split; reflexivity. }
  apply bind_inv in Hrun as (t1 & w1 & H1 & Hrun).
  apply lift_inv in H1 as [_ ->].
  apply bind_inv in Hrun as (t2 & w1 & H1 & Hrun).
  apply lift_inv in H1 as [_ ->].
  apply bind_inv in Hrun as ([] & w1 & H1 & Hrun).
  unfold Image_save, write_file in H1. injection H1 as <-.
  unfold ret in Hrun. injection Hrun as <- <-.
  right. repeat split; try assumption. exists t2. reflexivity.
Qed.

Lemma tiling_inv_step ts tiles mask desired_size threshold stride size
    (i j : nat) df df' wd wd' :
  let w := fst (dimensions ts) in
  let h := snd (dimensions ts) in
  let x := Z.of_nat i * stride in
  let y := Z.of_nat j * stride in
  ((0 < stride -> x < w - size + 1) /\ (stride < 0 -> w - size + 1 < x)) ->
  ((0 < stride -> y < h - size + 1) /\ (stride < 0 -> h - size + 1 < y)) ->
  stride <> 0 ->
  tiling_inv ts tiles stride size df wd ->
  tiling_candidate ts tiles mask desired_size threshold w h size x y df wd
    = (Returned df', wd') ->
  tiling_inv ts tiles stride size df' wd'.
Proof.
  intros w h x y Hx Hy Hs [Hrows Hfiles] Hrun.
  apply tiling_candidate_inv in Hrun
    as [[-> ->] | (Hxb & Hyb & -> & img & ->)]; [split; assumption|].
  split.
  - apply Forall_app. split; [exact Hrows|]. constructor; [|constructor].
    exists i, j. split; [reflexivity|]. cbn. fold w h x y. lia.
  - apply Forall_app. split.
    + eapply Forall_impl; [exact Hfiles|]. intros r [img0 Hr]. cbn [fs].
      destruct (decide (r_path_to_slide (tile_row ts tiles size x y) = r_path_to_slide r)) as [Heq | Hne].
      * exists img. rewrite Heq. apply lookup_insert_eq.
      * exists img0. rewrite lookup_insert_ne by exact Hne. exact Hr.
    + constructor; [|constructor]. exists img. cbn [fs]. apply lookup_insert_eq.
Qed.

Lemma accepted_row_png ts tiles stride size r :
  accepted_row ts tiles stride size r -> is_png (r_path_to_slide r).
Proof. intros (i & j & -> & _). apply tile_path_png. Qed.

(** What [tiling] has done when it returns a count: the Manifest is
    written, the count is its length, and every row is an accepted row
    with a stored picture. *)
Lemma tiling_returns ts result_path mask overlap desired_size mag threshold
    w0 n w' :
  tiling ts result_path mask overlap desired_size mag threshold w0
    = (Returned (Some n), w') ->
  exists size rows,
    best_size ts desired_size mag = Returned (Some size) /\
    tiling_stride overlap desired_size size <> 0 /\
    fs w' !! path_join result_path "tile_information.csv" = Some (CsvFile rows) /\
    n = Z.of_nat (length rows) /\
    errors w' = errors w0 /\
    tiling_inv ts (path_join result_path "tiles")
               (tiling_stride overlap desired_size size) size rows w'.
Proof.
  unfold tiling. intros Hrun.
  apply bind_inv in Hrun as ([] & w1 & Hprint & Hrun).
  unfold print in Hprint. injection Hprint as <-.
  apply bind_inv in Hrun as (osize & w1 & Hsize & Hrun).
  apply lift_inv in Hsize as [Hsize ->].
  destruct osize as [size|].
  2: { apply bind_inv in Hrun as ([] & w1 & _ & Hrun). discriminate. }
  set (stride := tiling_stride overlap desired_size size) in *.
  apply bind_inv in Hrun as (xs & w1 & Hxs & Hrun).
  apply lift_inv in Hxs as [Hxs ->].
  apply bind_inv in Hrun as (rows & w2 & Hloop & Hrun).
  apply bind_inv in Hrun as ([] & w3 & Hcsv & Hrun).
  unfold to_csv, write_file in Hcsv. injection Hcsv as <-.
  unfold ret in Hrun. injection Hrun as <- <-.
  assert (Hstride : stride <> 0).
  { intros Hz. rewrite Hz in Hxs. discriminate. }
  assert (Hinv : tiling_inv ts (path_join result_path "tiles") stride size rows w2
                 /\ errors w2 = errors w0).
  { revert Hloop.
    apply (for_acc_inv
             (fun df wd => tiling_inv ts (path_join result_path "tiles") stride size df wd
                           /\ errors wd = errors w0)).
    2: { split; [split; constructor | reflexivity]. }
    intros x df wd df' wd' Hx HP Hbody.
    apply (py_range_In _ _ _ _ _ Hxs) in Hx as (i & Hi & Hxb).
    apply bind_inv in Hbody as (ys & wd1 & Hys & Hbody).
    apply lift_inv in Hys as [Hys ->].
    revert HP Hbody.
    apply (for_acc_inv
             (fun df wd => tiling_inv ts (path_join result_path "tiles") stride size df wd
                           /\ errors wd = errors w0)).
    intros y df1 wd1 df1' wd1' Hy [HP He] Hcand.
    apply (py_range_In _ _ _ _ _ Hys) in Hy as (j & Hj & Hyb).
    rewrite Z.add_0_l in Hi, Hj. subst x y. split.
    - eapply tiling_inv_step; [exact Hxb | exact Hyb | exact Hstride | exact HP | exact Hcand].
    - apply tiling_candidate_inv in Hcand
        as [[_ ->] | (_ & _ & _ & img & ->)]; exact He. }
  destruct Hinv as [[Hrows Hfiles] Herr].
  exists size, rows. cbn [fs errors].
  split; [exact Hsize|]. split; [exact Hstride|].
  split; [apply lookup_insert_eq|]. split; [reflexivity|].
  split; [exact Herr|]. split; [exact Hrows|].
  apply Forall_forall. intros r Hr.
  pose proof (proj1 (Forall_forall _ _) Hrows r Hr) as Hacc.
  pose proof (proj1 (Forall_forall _ _) Hfiles r Hr) as [img Himg].
  exists img. cbn [fs]. rewrite lookup_insert_ne; [exact Himg|].
  intros Heq. apply accepted_row_png in Hacc. rewrite <- Heq in Hacc.
  revert Hacc. apply csv_not_png. reflexivity.
Qed.

End TilingFacts.

(* ===================================================================== *)
(** ** Tile sizing and the magnification failure (C1) *)
(* ===================================================================== *)


Section MagnificationFailure.
Context `{Collaborators}.



End MagnificationFailure.



(* ===================================================================== *)
(** ** Bounds and recorded magnification (C6, C8) *)
(* ===================================================================== *)

(** The run of the Tile Selector on the synthetic 1024 x 1024 slide of
    native magnification 40, for 256-pixel tiles at magnification 20. *)
Lemma synthetic_run :
  fst (@tiling Demo.collaborators (Demo.synthetic 1024 1024 40) "out"
         Demo.all_tissue 0 256 20 0.8%float Demo.empty_world)
  = Returned (Some 4).
Proof. vm_compute. reflexivity. Qed.

Lemma run_eq {A} (m : M A) (w : World) (o : Outcome A) :
  fst (m w) = o -> m w = (o, snd (m w)).
Proof. intros <-. destruct (m w). reflexivity. Qed.

Section TilingClaims.
Context `{Collaborators}.

(** C6.  Every row of the Manifest the Tile Selector writes has its origin
    inside the slide by the extraction size:
    [0 <= x <= width - size] and [0 <= y <= height - size]. *)
Theorem tiling_origins_in_bounds ts result_path mask overlap desired_size mag
    threshold w n w' :
  tiling ts result_path mask overlap desired_size mag threshold w
    = (Returned (Some n), w') ->
  exists size rows,
    best_size ts desired_size mag = Returned (Some size) /\
    fs w' !! path_join result_path "tile_information.csv" = Some (CsvFile rows) /\
    n = Z.of_nat (length rows) /\
    forall r, In r rows ->
      r_size r = size /\
      0 <= r_x r <= fst (dimensions ts) - size /\
      0 <= r_y r <= snd (dimensions ts) - size.
Proof.
  intros Hrun.
  apply tiling_returns in Hrun
    as (size & rows & Hsize & _ & Hcsv & Hn & _ & Hrows & _).
  exists size, rows.
  split; [exact Hsize|]. split; [exact Hcsv|]. split; [exact Hn|].
  intros r Hr. apply list_elem_of_In in Hr.
  pose proof (proj1 (Forall_forall _ _) Hrows r Hr) as (i & j & Hrow & Hx & Hy).
  split; [rewrite Hrow; reflexivity|]. split; assumption.
Qed.

(** C8 (as amended).  Every row of the Manifest the Tile Selector writes
    records the native magnification of the slide, and so does the name
    of the stored tile, whatever the target magnification. *)
Theorem tiling_records_native_magnification ts result_path mask overlap
    desired_size mag threshold w n w' :
  tiling ts result_path mask overlap desired_size mag threshold w
    = (Returned (Some n), w') ->
  exists size rows,
    best_size ts desired_size mag = Returned (Some size) /\
    fs w' !! path_join result_path "tile_information.csv" = Some (CsvFile rows) /\
    forall r, In r rows ->
      r_magnification r = magnification ts /\
      r_path_to_slide r =
        path_join (path_join result_path "tiles")
          (tile_name (id ts) (r_x r) (r_y r) (magnification ts) size (SCALE ts)) /\
      exists img, fs w' !! r_path_to_slide r = Some (ImageFile img).
Proof.
  intros Hrun.
  apply tiling_returns in Hrun
    as (size & rows & Hsize & _ & Hcsv & _ & _ & Hrows & Hfiles).
  exists size, rows. split; [exact Hsize|]. split; [exact Hcsv|].
  intros r Hr. apply list_elem_of_In in Hr.
  pose proof (proj1 (Forall_forall _ _) Hrows r Hr) as (i & j & Hrow & _).
  pose proof (proj1 (Forall_forall _ _) Hfiles r Hr) as Himg.
  split; [rewrite Hrow; reflexivity|]. split; [rewrite Hrow; reflexivity|].
  exact Himg.
Qed.

End TilingClaims.

Lemma tiling_origins_in_bounds_witness :
  exists size rows,
    best_size (Demo.synthetic 1024 1024 40) 256 20 = Returned (Some size) /\
    fs (snd (@tiling Demo.collaborators (Demo.synthetic 1024 1024 40) "out"
               Demo.all_tissue 0 256 20 0.8%float Demo.empty_world))
      !! path_join "out" "tile_information.csv" = Some (CsvFile rows) /\
    4 = Z.of_nat (length rows) /\
    forall r, In r rows ->
      r_size r = size /\
      0 <= r_x r <= 1024 - size /\
      0 <= r_y r <= 1024 - size.
Proof.
  apply (@tiling_origins_in_bounds Demo.collaborators
           (Demo.synthetic 1024 1024 40) "out" Demo.all_tissue 0 256 20
           0.8%float Demo.empty_world 4).
  apply run_eq, synthetic_run.
Defined.

Lemma tiling_records_native_magnification_witness :
  exists size rows,
    best_size (Demo.synthetic 1024 1024 40) 256 20 = Returned (Some size) /\
    fs (snd (@tiling Demo.collaborators (Demo.synthetic 1024 1024 40) "out"
               Demo.all_tissue 0 256 20 0.8%float Demo.empty_world))
      !! path_join "out" "tile_information.csv" = Some (CsvFile rows) /\
    forall r, In r rows ->
      r_magnification r = 40 /\
      r_path_to_slide r =
        path_join (path_join "out" "tiles")
          (tile_name "S1" (r_x r) (r_y r) 40 size 32) /\
      exists img,
        fs (snd (@tiling Demo.collaborators (Demo.synthetic 1024 1024 40) "out"
                   Demo.all_tissue 0 256 20 0.8%float Demo.empty_world))
          !! r_path_to_slide r = Some (ImageFile img).
Proof.
  apply (@tiling_records_native_magnification Demo.collaborators
           (Demo.synthetic 1024 1024 40) "out" Demo.all_tissue 0 256 20
           0.8%float Demo.empty_world 4).
  apply run_eq, synthetic_run.
Defined.

(** C8 (counterexample).  On the slide of native magnification 40, tiled
    for the target magnification 20, the first row of the Manifest records
    magnification 40 and its tile is named [..._mag40_...]. *)
Lemma recorded_magnification_is_not_the_target :
  exists rows,
    fs (snd (@tiling Demo.collaborators (Demo.synthetic 1024 1024 40) "out"
               Demo.all_tissue 0 256 20 0.8%float Demo.empty_world))
      !! "out/tile_information.csv"
    = Some (CsvFile
              (mkRow "S1" 0 0 40 512
                     "out/tiles/S1_tile_w0_h0_mag40_size512_scale32.png" 32
               :: rows)) /\
    40 <> 20.
Proof. eexists. split; [vm_compute; reflexivity | discriminate]. Qed.

(* ===================================================================== *)
(** ** The stride and the zero-step range (C9) *)
(* ===================================================================== *)


Lemma py_range_returns (start stop step : Z) :
  step <> 0 -> exists l, py_range start stop step = Returned l.
Proof.
  intros Hs. unfold py_range.
  destruct (Z.eqb_spec step 0); [contradiction|]. eexists. reflexivity.
Qed.




Section ZeroStride.
Context `{Collaborators}.




End ZeroStride.



(* ===================================================================== *)
(** ** The Stain Normaliser (C4) *)
(* ===================================================================== *)

Section NormalizeFacts.
Context `{Collaborators}.

Lemma normalize_tile_ok dir row df w img :
  normalized_tile (fs w) row = Returned img ->
  normalize_tile dir row df w =
  (Returned (df ++ [stage_row dir row]),
   with_image (path_join dir (stage_name row)) img w).
Proof.
  unfold normalized_tile, normalize_tile, try_except, bind, Image_open, lift.
  destruct (fs w !! r_path_to_slide row) as [[rows | tile |]|]; try discriminate.
  intros ->. reflexivity.
Qed.

Lemma normalize_tile_fail dir row df w e :
  normalized_tile (fs w) row = Raised e ->
  normalize_tile dir row df w =
  (Returned df,
   mkWorld (fs w) (errors w ++ [normalization_error row e]) (stdout w)).
Proof.
  unfold normalized_tile, normalize_tile, try_except, bind, Image_open, lift.
  destruct (fs w !! r_path_to_slide row) as [[rows | tile |]|].
  - intros [= <-]. reflexivity.
  - intros ->. reflexivity.
  - intros [= <-]. reflexivity.
  - intros [= <-]. reflexivity.
Qed.

(** The loop of [normalize_tiles] always returns; the rows it adds, the
    files it leaves and the Error Records it appends depend on the input
    rows and the files only. *)
Lemma normalize_loop dir (l : list Row) :
  forall f, exists out f' new,
    forall df E so,
      for_acc l (normalize_tile dir) df (mkWorld f E so) =
      (Returned (df ++ out), mkWorld f' (E ++ new) so).
Proof.
  induction l as [|row l IH]; intros f.
  - exists [], f, []. intros df E so. rewrite !app_nil_r. reflexivity.
  - destruct (normalized_tile f row) as [img | e] eqn:Htile.
    + destruct (IH (<[path_join dir (stage_name row) := ImageFile img]> f))
        as (out & f' & new & Hloop).
      exists (stage_row dir row :: out), f', new. intros df E so.
      cbn [for_acc].
      erewrite bind_returned by (apply normalize_tile_ok; exact Htile).
      unfold with_image. cbn [fs errors stdout].
      rewrite Hloop, <- app_assoc. reflexivity.
    + destruct (IH f) as (out & f' & new & Hloop).
      exists out, f', (normalization_error row e :: new). intros df E so.
      cbn [for_acc].
      erewrite bind_returned by (apply normalize_tile_fail; exact Htile).
      cbn [fs errors stdout].
      rewrite Hloop, <- app_assoc. reflexivity.
Qed.

(** [normalize_tiles] returns whenever its input Manifest can be read. *)
Lemma normalize_tiles_run tile_information result_path device w rows :
  fs w !! tile_information = Some (CsvFile rows) ->
  normalize_tiles tile_information result_path device w =
  match for_acc rows (normalize_tile (path_join result_path "normalized_tiles")) []
          (mkWorld (fs w) (errors w) (stdout w ++ ["Normalizing tiles"])) with
  | (Returned df_list, w1) =>
      (Returned tt,
       mkWorld (<[path_join result_path "normalized_tile_information.csv"
                  := CsvFile df_list]> (fs w1))
               (errors w1) (stdout w1))
  | (Raised e, w1) => (Raised e, w1)
  end.
Proof.
  intros Hcsv. unfold normalize_tiles.
  erewrite bind_returned by (unfold print; reflexivity).
  erewrite bind_returned by (unfold read_csv; cbn [fs]; rewrite Hcsv; reflexivity).
  unfold bind. destruct (for_acc _ _ _ _) as [[df | e] w1]; reflexivity.
Qed.

(** C4.  In a run of the Stain Normaliser over a Manifest in which the
    tile [bad] fails to load or to transform: the stage returns; one Error
    Record with stage "Normalization" is appended for [bad], after those
    of the tiles before it and before those of the tiles after it; [bad]
    adds no row to the output Manifest; and the tiles after it are
    processed from the state the tiles before it left, as if [bad] were
    not in the Manifest. *)
Theorem normalize_isolates_failing_tile tile_information result_path device
    pre bad post w out1 w1 e :
  let dir := path_join result_path "normalized_tiles" in
  fs w !! tile_information = Some (CsvFile (pre ++ bad :: post)) ->
  for_acc pre (normalize_tile dir) []
    (mkWorld (fs w) (errors w) (stdout w ++ ["Normalizing tiles"]))
    = (Returned out1, w1) ->
  normalized_tile (fs w1) bad = Raised e ->
  exists out2 w2 w',
    for_acc post (normalize_tile dir) out1 w1 = (Returned (out1 ++ out2), w2) /\
    normalize_tiles tile_information result_path device w = (Returned tt, w') /\
    fs w' = <[path_join result_path "normalized_tile_information.csv"
              := CsvFile (out1 ++ out2)]> (fs w2) /\
    errors w' =
      errors w1 ++
      (r_patient_id bad, r_path_to_slide bad, Exc e, "Normalization")
        :: drop (length (errors w1)) (errors w2).
Proof.
  intros dir Hcsv Hpre Hbad. destruct w1 as [f1 E1 so1]. cbn [fs] in Hbad.
  destruct (normalize_loop dir post f1) as (out2 & f2 & new & Hpost).
  exists out2, (mkWorld f2 (E1 ++ new) so1).
  eexists. split; [apply Hpost|].
  rewrite (normalize_tiles_run _ _ _ _ _ Hcsv). fold dir.
  rewrite for_acc_app, Hpre. cbn [for_acc].
  erewrite bind_returned by (apply normalize_tile_fail; exact Hbad).
  cbn [fs errors stdout]. rewrite Hpost.
  split; [reflexivity|]. cbn [fs errors stdout]. split; [reflexivity|].
  rewrite drop_app_length, <- app_assoc. reflexivity.
Qed.

End NormalizeFacts.

(* ===================================================================== *)
(** ** The Quality Filter (C7) *)
(* ===================================================================== *)

Section BlurFacts.
Context `{Collaborators}.

(** The decision of [LaplaceFilter] is the comparison of the variance of
    the Laplacian response with the threshold. *)
Lemma LaplaceFilter_decision img threshold grayscale laplace_img :
  rgb2gray img = Returned grayscale ->
  cv2_Laplacian grayscale = Returned laplace_img ->
  LaplaceFilter img threshold
    = Returned (PrimFloat.leb threshold (np_var laplace_img)).
Proof.
  intros Hg Hl. unfold LaplaceFilter, obind. rewrite Hg, Hl.
  destruct (PrimFloat.leb threshold (np_var laplace_img)); reflexivity.
Qed.

Lemma blurry_tile_in_focus dir blurry_dir threshold row df w img :
  focus_decision (fs w) threshold row = Returned (img, true) ->
  blurry_tile dir blurry_dir threshold row df w =
  (Returned (df ++ [stage_row dir row]),
   with_image (path_join dir (stage_name row)) img w).
Proof.
  unfold focus_decision, blurry_tile, try_except, bind, Image_open, lift, obind.
  destruct (fs w !! r_path_to_slide row) as [[rows | tile |]|] eqn:Hfile;
    try discriminate.
  destruct (LaplaceFilter tile threshold) as [b|]; [|discriminate].
  intros [= <- ->]. rewrite Hfile. reflexivity.
Qed.

Lemma blurry_tile_out_of_focus dir blurry_dir threshold row df w img :
  focus_decision (fs w) threshold row = Returned (img, false) ->
  blurry_tile dir blurry_dir threshold row df w =
  (Returned df, with_image (path_join blurry_dir (stage_name row)) img w).
Proof.
  unfold focus_decision, blurry_tile, try_except, bind, Image_open, lift, obind.
  destruct (fs w !! r_path_to_slide row) as [[rows | tile |]|] eqn:Hfile;
    try discriminate.
  destruct (LaplaceFilter tile threshold) as [b|]; [|discriminate].
  intros [= <- ->]. rewrite Hfile. reflexivity.
Qed.

Lemma blurry_tile_fail dir blurry_dir threshold row df w e :
  focus_decision (fs w) threshold row = Raised e ->
  blurry_tile dir blurry_dir threshold row df w =
  (Returned df,
   mkWorld (fs w)
     (errors w ++ [(r_patient_id row, r_path_to_slide row, Exc e, "Blur filter.")])
     (stdout w ++ ["An error occurred: " +:+ exn_str e])).
Proof.
  unfold focus_decision, blurry_tile, try_except, bind, Image_open, lift, obind.
  destruct (fs w !! r_path_to_slide row) as [[rows | tile |]|] eqn:Hfile.
  - intros [= <-]. reflexivity.
  - destruct (LaplaceFilter tile threshold) as [b|]; [discriminate|].
    intros [= <-]. reflexivity.
  - intros [= <-]. reflexivity.
  - intros [= <-]. reflexivity.
Qed.

(** The loop of [blurry_filter] always returns; what it adds depends on
    the input rows and the files only, and a stored picture stays a
    stored picture. *)
Lemma blurry_loop dir blurry_dir threshold (l : list Row) :
  forall f, exists out f' new lines,
    (forall p img, f !! p = Some (ImageFile img) ->
                   exists img', f' !! p = Some (ImageFile img')) /\
    forall df E so,
      for_acc l (blurry_tile dir blurry_dir threshold) df (mkWorld f E so) =
      (Returned (df ++ out), mkWorld f' (E ++ new) (so ++ lines)).
Proof.
  induction l as [|row l IH]; intros f.
  - exists [], f, [], []. split; [eauto|].
    intros df E so. rewrite !app_nil_r. reflexivity.
  - assert (Hkeep : forall q img0 (g : gmap string File),
              (forall p img, <[q := ImageFile img0]> f !! p = Some (ImageFile img) ->
                             exists img', g !! p = Some (ImageFile img')) ->
              forall p img, f !! p = Some (ImageFile img) ->
                            exists img', g !! p = Some (ImageFile img')).
    { intros q img0 g Hg p img Hp. destruct (decide (q = p)) as [-> | Hne].
      - apply (Hg p img0). apply lookup_insert_eq.
      - apply (Hg p img). rewrite lookup_insert_ne by exact Hne. exact Hp. }
    destruct (focus_decision f threshold row) as [[img [|]] | e] eqn:Htile.
    + destruct (IH (<[path_join dir (stage_name row) := ImageFile img]> f))
        as (out & f' & new & lines & Himg & Hloop).
      exists (stage_row dir row :: out), f', new, lines.
      split; [eapply Hkeep; exact Himg|]. intros df E so. cbn [for_acc].
      erewrite bind_returned by (apply blurry_tile_in_focus; exact Htile).
      unfold with_image. cbn [fs errors stdout].
      rewrite Hloop, <- app_assoc. reflexivity.
    + destruct (IH (<[path_join blurry_dir (stage_name row) := ImageFile img]> f))
        as (out & f' & new & lines & Himg & Hloop).
      exists out, f', new, lines.
      split; [eapply Hkeep; exact Himg|]. intros df E so. cbn [for_acc].
      erewrite bind_returned by (apply blurry_tile_out_of_focus; exact Htile).
      unfold with_image. cbn [fs errors stdout].
      rewrite Hloop. reflexivity.
    + destruct (IH f) as (out & f' & new & lines & Himg & Hloop).
      exists out, f',
        ((r_patient_id row, r_path_to_slide row, Exc e, "Blur filter.") :: new),
        (("An error occurred: " +:+ exn_str e) :: lines).
      split; [exact Himg|]. intros df E so. cbn [for_acc].
      erewrite bind_returned by (apply blurry_tile_fail; exact Htile).
      cbn [fs errors stdout].
      rewrite Hloop, <- !app_assoc. reflexivity.
Qed.

Lemma blurry_filter_run tile_information result_path threshold w rows :
  fs w !! tile_information = Some (CsvFile rows) ->
  blurry_filter tile_information result_path threshold w =
  match for_acc rows
          (blurry_tile (path_join result_path "infocus_tiles")
                       (path_join result_path "outfocus_tiles") threshold) []
          (mkWorld (fs w) (errors w) (stdout w ++ ["removing blurry tiles"])) with
  | (Returned df_list, w1) =>
      (Returned (Z.of_nat (length df_list)),
       mkWorld (<[path_join result_path "infocus_tile_information.csv"
                  := CsvFile df_list]> (fs w1))
               (errors w1) (stdout w1))
  | (Raised e, w1) => (Raised e, w1)
  end.
Proof.
  intros Hcsv. unfold blurry_filter.
  erewrite bind_returned by (unfold print; reflexivity).
  erewrite bind_returned by (unfold read_csv; cbn [fs]; rewrite Hcsv; reflexivity).
  unfold bind. destruct (for_acc _ _ _ _) as [[df | e] w1]; reflexivity.
Qed.

(** C7.  [LaplaceFilter] classifies a tile as in focus exactly when the
    variance of the Laplacian response of its grayscale conversion is
    greater than or equal to the threshold.  In a run of the Quality
    Filter, a tile [t] that loads and is classified is stored under
    [infocus_tiles] and adds its row to the output Manifest when it is in
    focus; when it is not, it is stored under [outfocus_tiles] and adds
    no row.  The rows after it are those of the tiles after it. *)
Theorem blurry_filter_partitions tile_information result_path threshold
    pre t post w out1 w1 img grayscale laplace_img :
  let dir := path_join result_path "infocus_tiles" in
  let blurry_dir := path_join result_path "outfocus_tiles" in
  let in_focus := PrimFloat.leb threshold (np_var laplace_img) in
  let acc := if in_focus then out1 ++ [stage_row dir t] else out1 in
  let stored := path_join (if in_focus then dir else blurry_dir) (stage_name t) in
  fs w !! tile_information = Some (CsvFile (pre ++ t :: post)) ->
  for_acc pre (blurry_tile dir blurry_dir threshold) []
    (mkWorld (fs w) (errors w) (stdout w ++ ["removing blurry tiles"]))
    = (Returned out1, w1) ->
  fs w1 !! r_path_to_slide t = Some (ImageFile img) ->
  rgb2gray img = Returned grayscale ->
  cv2_Laplacian grayscale = Returned laplace_img ->
  LaplaceFilter img threshold = Returned in_focus /\
  exists out2 w2 w' img',
    for_acc post (blurry_tile dir blurry_dir threshold) acc
      (with_image stored img w1) = (Returned (acc ++ out2), w2) /\
    blurry_filter tile_information result_path threshold w
      = (Returned (Z.of_nat (length (acc ++ out2))), w') /\
    fs w' = <[path_join result_path "infocus_tile_information.csv"
              := CsvFile (acc ++ out2)]> (fs w2) /\
    fs w' !! stored = Some (ImageFile img').
Proof.
  intros dir blurry_dir in_focus acc stored Hcsv Hpre Himg Hg Hl.
  pose proof (LaplaceFilter_decision img threshold _ _ Hg Hl) as Hdec.
  fold in_focus in Hdec. split; [exact Hdec|].
  assert (Htile : focus_decision (fs w1) threshold t = Returned (img, in_focus)).
  { unfold focus_decision. rewrite Himg, Hdec. reflexivity. }
  assert (Hstep : blurry_tile dir blurry_dir threshold t out1 w1
                  = (Returned acc, with_image stored img w1)).
  { subst acc stored. destruct in_focus.
    - apply blurry_tile_in_focus. exact Htile.
    - apply blurry_tile_out_of_focus. exact Htile. }
  assert (Hpng : is_png stored).
  { subst stored. unfold stage_name. apply tile_path_png. }
  clearbody acc stored in_focus.
  destruct w1 as [f1 E1 so1]. unfold with_image in *. cbn [fs errors stdout] in *.
  destruct (blurry_loop dir blurry_dir threshold post
              (<[stored := ImageFile img]> f1))
    as (out2 & f2 & new & lines & Hkeep & Hpost).
  destruct (Hkeep stored img (lookup_insert_eq _ _ _)) as [img' Himg'].
  exists out2. eexists. eexists. exists img'.
  split; [apply Hpost|].
  rewrite (blurry_filter_run _ _ _ _ _ Hcsv). fold dir blurry_dir.
  rewrite for_acc_app, Hpre. cbn [for_acc].
  rewrite (bind_returned _ _ _ _ _ Hstep), Hpost.
  split; [reflexivity|]. cbn [fs]. split; [reflexivity|].
  rewrite lookup_insert_ne; [exact Himg'|].
  intros Heq. apply (csv_not_png result_path "infocus_tile_information.csv");
    [reflexivity|]. rewrite Heq. exact Hpng.
Qed.

End BlurFacts.

(* ===================================================================== *)
(** ** Reasoning about a run that starts with a file in place *)
(* ===================================================================== *)

Section Keeps.
Variables (p0 : string) (f0 : File) (Pp Po : string -> Prop).
Hypothesis p0_kept : ~ Pp p0.

Lemma keeps_of_writes {A} (m : M A) :
  writes_only Pp Po m -> keeps p0 f0 Pp Po (fun _ => True) m.
Proof.
  intros Hm w o w' _ Hrun. destruct (Hm w o w' Hrun) as [Hf Hout].
  split; [exact Hf|]. split; [exact Hout|]. trivial.
Qed.

Lemma keeps_post {A} (Q Q' : A -> Prop) (m : M A) :
  (forall a, Q a -> Q' a) -> keeps p0 f0 Pp Po Q m -> keeps p0 f0 Pp Po Q' m.
Proof.
  intros HQ Hm w o w' Hfile Hrun.
  destruct (Hm w o w' Hfile Hrun) as (Hf & Hout & Hval).
  split; [exact Hf|]. split; [exact Hout|].
  intros a Ha. apply HQ, Hval, Ha.
Qed.

Lemma keeps_ret {A} (a : A) : keeps p0 f0 Pp Po (fun v => v = a) (ret a).
Proof.
  intros w o w' _ Hrun. destruct (wo_ret Pp Po a w o w' Hrun) as [Hf Hout].
  split; [exact Hf|]. split; [exact Hout|].
  unfold ret in Hrun. intros v ->. congruence.
Qed.

Lemma keeps_bind {A B} (QA : A -> Prop) (QB : B -> Prop) (m : M A) (k : A -> M B) :
  keeps p0 f0 Pp Po QA m ->
  (forall a, QA a -> keeps p0 f0 Pp Po QB (k a)) ->
  keeps p0 f0 Pp Po QB (bind m k).
Proof.
  intros Hm Hk w o w' Hfile Hrun. unfold bind in Hrun.
  destruct (m w) as [[a | e] w1] eqn:Hmw.
  - destruct (Hm w _ w1 Hfile Hmw) as (Hf1 & Hout1 & Hval1).
    assert (Hfile1 : fs w1 !! p0 = Some f0) by (rewrite (Hf1 p0 p0_kept); exact Hfile).
    destruct (Hk a (Hval1 a eq_refl) w1 o w' Hfile1 Hrun) as (Hf2 & Hout2 & Hval2).
    destruct (wo_seq Pp Po w w1 w' (conj Hf1 Hout1) (conj Hf2 Hout2)) as [Hf Hout].
    split; [exact Hf|]. split; [exact Hout|]. exact Hval2.
  - injection Hrun as <- <-.
    destruct (Hm w _ w1 Hfile Hmw) as (Hf1 & Hout1 & _).
    split; [exact Hf1|]. split; [exact Hout1|]. discriminate.
Qed.

Lemma keeps_isfile_here : keeps p0 f0 Pp Po (fun b => b = true) (isfile p0).
Proof.
  intros w o w' Hfile Hrun.
  destruct (wo_isfile Pp Po p0 w o w' Hrun) as [Hf Hout].
  split; [exact Hf|]. split; [exact Hout|].
  unfold isfile in Hrun. intros b ->. injection Hrun as <- _.
  apply bool_decide_eq_true. rewrite Hfile. eauto.
Qed.

End Keeps.

Lemma keeps_read_csv_here (p0 : string) (rows : list Row) (Pp Po : string -> Prop) :
  keeps p0 (CsvFile rows) Pp Po (fun r => r = rows) (read_csv p0).
Proof.
  intros w o w' Hfile Hrun.
  destruct (wo_read_csv Pp Po p0 w o w' Hrun) as [Hf Hout].
  split; [exact Hf|]. split; [exact Hout|].
  unfold read_csv in Hrun. rewrite Hfile in Hrun. intros r ->. congruence.
Qed.

(** What [keeps] says of one run. *)
Lemma keeps_run {A} (p0 : string) (f0 : File) (Pp Po : string -> Prop)
    (Q : A -> Prop) (m : M A) (w : World) (o : Outcome A) (w' : World) :
  keeps p0 f0 Pp Po Q m -> ~ Pp p0 ->
  fs w !! p0 = Some f0 -> m w = (o, w') ->
  fs w' !! p0 = Some f0 /\ Forall Po (printed w w') /\
  (forall a, o = Returned a -> Q a).
Proof.
  intros Hm Hp Hfile Hrun. destruct (Hm w o w' Hfile Hrun) as (Hf & (out & Hout & HPo) & Hval).
  split; [rewrite (Hf p0 Hp); exact Hfile|].
  split; [|exact Hval].
  unfold printed. rewrite Hout, drop_app_length. exact HPo.
Qed.

(* ===================================================================== *)
(** ** Checkpoints of the Orchestrator (C2) *)
(* ===================================================================== *)

Lemma error_line_head (s : string) :
  error_line s -> exists t, s = String "A"%char t.
Proof. intros [msg ->]. eexists. reflexivity. Qed.

Lemma csv_names_differ (dir a b : string) :
  starts_with_slash a = false -> starts_with_slash b = false ->
  a <> b -> path_join dir a <> path_join dir b.
Proof. intros Ha Hb Hne Heq. apply Hne. exact (path_join_inj dir a b Ha Hb Heq). Qed.

(** Closes the side conditions on paths and printed lines. *)
Ltac side_paths :=
  let Hp := fresh in
  intros Hp; cbn beta in Hp;
  repeat match type of Hp with _ \/ _ => destruct Hp as [Hp | Hp] end;
  first
    [ revert Hp; apply csv_not_png; reflexivity
    | revert Hp; apply csv_names_differ; [reflexivity | reflexivity | discriminate] ].

Ltac side_lines :=
  let s := fresh in
  let Hs := fresh in
  intros s Hs; cbn beta in Hs;
  repeat match type of Hs with _ \/ _ => destruct Hs as [Hs | Hs] end;
  first
    [ contradiction
    | subst s; discriminate
    | apply error_line_head in Hs as [? ->]; discriminate ].

Ltac wo_leaf lem :=
  eapply wo_mono; [ | | apply lem ]; [ cbn beta; tauto | side_lines ].

Section Checkpoints.
Context `{Collaborators}.

Variables (path patient_path patient_id device encoder_path : string).
Variable args : Args.

Hypothesis slide_opens : slide (new_TissueSlide path) <> None.
Hypothesis magnification_ok :
  desired_magnification args <= magnification (new_TissueSlide path).

Let tile_csv := path_join patient_path "tile_information.csv".
Let normalized_csv := path_join patient_path "normalized_tile_information.csv".
Let in_focus_csv := path_join patient_path "infocus_tile_information.csv".

Lemma preprocessing_skips_tiling rows :
  keeps tile_csv (CsvFile rows)
    (fun p => is_png p \/ p = normalized_csv \/ p = in_focus_csv)
    (fun s => s <> "Tiling slide")
    (fun r => exists blur,
       fst r = [(patient_id, path, Some (Z.of_nat (length rows)), blur)])
    (preprocessing path patient_path patient_id device encoder_path args).
Proof.
  assert (Hkept : ~ (is_png tile_csv \/ tile_csv = normalized_csv \/ tile_csv = in_focus_csv))
    by (subst tile_csv normalized_csv in_focus_csv; side_paths).
  unfold preprocessing.
  destruct (slide (new_TissueSlide path)) as [handle|]; [|contradiction].
  replace (desired_magnification args <=? magnification (new_TissueSlide path))
    with true by (symmetry; apply Z.leb_le; exact magnification_ok).
  unfold tile_csv, normalized_csv, in_focus_csv in *.
  eapply keeps_bind; [exact Hkept | apply keeps_of_writes, wo_print; discriminate |].
  intros _ _.
  eapply (keeps_bind _ _ _ _ Hkept
            (fun r => fst (fst r) = Some (Z.of_nat (length rows)))).
  2: { intros [[total blur] err] Hr. cbn in Hr. subst total.
       eapply keeps_post; [|apply keeps_ret]. intros r ->. eexists. reflexivity. }
  eapply keeps_bind; [exact Hkept | apply keeps_isfile_here; exact Hkept |].
  intros b ->. cbn [negb].
  eapply keeps_bind; [exact Hkept | |].
  { eapply keeps_bind; [exact Hkept | apply keeps_read_csv_here |].
    intros r ->. apply keeps_ret. }
  intros total ->.
  eapply keeps_bind; [exact Hkept | apply keeps_of_writes, wo_isfile |].
  intros normalized_exists _.
  eapply keeps_bind; [exact Hkept | apply keeps_of_writes |].
  { destruct normalized_exists; cbn [negb]; [apply wo_ret|].
    wo_leaf normalize_tiles_writes. }
  intros _ _.
  eapply keeps_bind; [exact Hkept | apply keeps_of_writes, wo_isfile |].
  intros in_focus_exists _.
  eapply keeps_bind; [exact Hkept | apply keeps_of_writes |].
  { destruct in_focus_exists; cbn [negb]; repeat wo_step.
    wo_leaf blurry_filter_writes. }
  intros blur _.
  eapply keeps_bind; [exact Hkept | apply keeps_of_writes |].
  { destruct (tile_graph args); [|apply wo_ret].
    eapply wo_mono; [| |apply call_SlideReconstruction_writes];
      [cbn beta; tauto | side_lines | apply last_char_path_join; reflexivity]. }
  intros _ _.
  eapply keeps_bind; [exact Hkept | apply keeps_of_writes |].
  { wo_leaf call_encode_tiles_writes. }
  intros _ _. eapply keeps_post; [|apply keeps_ret]. intros r ->. reflexivity.
Qed.

Lemma preprocessing_skips_normalization f0 :
  keeps normalized_csv f0
    (fun p => is_png p \/ p = tile_csv \/ p = in_focus_csv)
    (fun s => s <> "Normalizing tiles")
    (fun _ => True)
    (preprocessing path patient_path patient_id device encoder_path args).
Proof.
  assert (Hkept : ~ (is_png normalized_csv \/ normalized_csv = tile_csv
                     \/ normalized_csv = in_focus_csv))
    by (subst tile_csv normalized_csv in_focus_csv; side_paths).
  unfold preprocessing.
  destruct (slide (new_TissueSlide path)) as [handle|]; [|contradiction].
  replace (desired_magnification args <=? magnification (new_TissueSlide path))
    with true by (symmetry; apply Z.leb_le; exact magnification_ok).
  unfold tile_csv, normalized_csv, in_focus_csv in *.
  eapply keeps_bind; [exact Hkept | apply keeps_of_writes, wo_print; discriminate |].
  intros _ _.
  eapply (keeps_bind _ _ _ _ Hkept (fun _ => True)).
  2: { intros [[total blur] err] _.
       eapply keeps_post; [|apply keeps_ret]. trivial. }
  eapply keeps_bind; [exact Hkept | apply keeps_of_writes, wo_isfile |].
  intros tile_inf_exists _.
  eapply keeps_bind; [exact Hkept | apply keeps_of_writes |].
  { destruct tile_inf_exists; cbn [negb]; repeat wo_step.
    wo_leaf tiling_writes. }
  intros total _.
  eapply keeps_bind; [exact Hkept | apply keeps_isfile_here; exact Hkept |].
  intros b ->. cbn [negb].
  eapply keeps_bind; [exact Hkept | apply keeps_of_writes, wo_ret |].
  intros _ _.
  eapply keeps_bind; [exact Hkept | apply keeps_of_writes, wo_isfile |].
  intros in_focus_exists _.
  eapply keeps_bind; [exact Hkept | apply keeps_of_writes |].
  { destruct in_focus_exists; cbn [negb]; repeat wo_step.
    wo_leaf blurry_filter_writes. }
  intros blur _.
  eapply keeps_bind; [exact Hkept | apply keeps_of_writes |].
  { destruct (tile_graph args); [|apply wo_ret].
    eapply wo_mono; [| |apply call_SlideReconstruction_writes];
      [cbn beta; tauto | side_lines | apply last_char_path_join; reflexivity]. }
  intros _ _.
  eapply keeps_bind; [exact Hkept | apply keeps_of_writes |].
  { wo_leaf call_encode_tiles_writes. }
  intros _ _. eapply keeps_post; [|apply keeps_ret]. trivial.
Qed.

Lemma preprocessing_skips_blur_filter rows :
  keeps in_focus_csv (CsvFile rows)
    (fun p => is_png p \/ p = tile_csv \/ p = normalized_csv)
    (fun s => s <> "removing blurry tiles")
    (fun r => exists total,
       fst r = [(patient_id, path, total, Some (Z.of_nat (length rows)))])
    (preprocessing path patient_path patient_id device encoder_path args).
Proof.
  assert (Hkept : ~ (is_png in_focus_csv \/ in_focus_csv = tile_csv
                     \/ in_focus_csv = normalized_csv))
    by (subst tile_csv normalized_csv in_focus_csv; side_paths).
  unfold preprocessing.
  destruct (slide (new_TissueSlide path)) as [handle|]; [|contradiction].
  replace (desired_magnification args <=? magnification (new_TissueSlide path))
    with true by (symmetry; apply Z.leb_le; exact magnification_ok).
  unfold tile_csv, normalized_csv, in_focus_csv in *.
  eapply keeps_bind; [exact Hkept | apply keeps_of_writes, wo_print; discriminate |].
  intros _ _.
  eapply (keeps_bind _ _ _ _ Hkept
            (fun r => snd (fst r) = Some (Z.of_nat (length rows)))).
  2: { intros [[total blur] err] Hr. cbn in Hr. subst blur.
       eapply keeps_post; [|apply keeps_ret]. intros r ->. eexists. reflexivity. }
  eapply keeps_bind; [exact Hkept | apply keeps_of_writes, wo_isfile |].
  intros tile_inf_exists _.
  eapply keeps_bind; [exact Hkept | apply keeps_of_writes |].
  { destruct tile_inf_exists; cbn [negb]; repeat wo_step.
    wo_leaf tiling_writes. }
  intros total _.
  eapply keeps_bind; [exact Hkept | apply keeps_of_writes, wo_isfile |].
  intros normalized_exists _.
  eapply keeps_bind; [exact Hkept | apply keeps_of_writes |].
  { destruct normalized_exists; cbn [negb]; [apply wo_ret|].
    wo_leaf normalize_tiles_writes. }
  intros _ _.
  eapply keeps_bind; [exact Hkept | apply keeps_isfile_here; exact Hkept |].
  intros b ->. cbn [negb].
  eapply keeps_bind; [exact Hkept | |].
  { eapply keeps_bind; [exact Hkept | apply keeps_read_csv_here |].
    intros r ->. apply keeps_ret. }
  intros blur ->.
  eapply keeps_bind; [exact Hkept | apply keeps_of_writes |].
  { destruct (tile_graph args); [|apply wo_ret].
    eapply wo_mono; [| |apply call_SlideReconstruction_writes];
      [cbn beta; tauto | side_lines | apply last_char_path_join; reflexivity]. }
  intros _ _.
  eapply keeps_bind; [exact Hkept | apply keeps_of_writes |].
  { wo_leaf call_encode_tiles_writes. }
  intros _ _. eapply keeps_post; [|apply keeps_ret]. intros r ->. reflexivity.
Qed.

End Checkpoints.

(* ===================================================================== *)
(** ** What a completed stage leaves behind *)
(* ===================================================================== *)

Lemma isfile_inv (p : string) (w w' : World) (b : bool) :
  isfile p w = (Returned b, w') ->
  w' = w /\ b = bool_decide (is_Some (fs w !! p)).
Proof. unfold isfile. intros [= <- <-]. split; reflexivity. Qed.

Lemma read_csv_inv (p : string) (w w' : World) (rows : list Row) :
  read_csv p w = (Returned rows, w') ->
  w' = w /\ fs w !! p = Some (CsvFile rows).
Proof.
  unfold read_csv. destruct (fs w !! p) as [[r| |]|]; try discriminate.
  intros [= <- <-]. split; reflexivity.
Qed.

Lemma writes_only_keeps_file {A} (Pp Po : string -> Prop) (m : M A)
    (w : World) (o : Outcome A) (w' : World) (p : string) (f : File) :
  writes_only Pp Po m -> ~ Pp p -> m w = (o, w') ->
  fs w !! p = Some f -> fs w' !! p = Some f.
Proof.
  intros Hm Hp Hrun Hfile. destruct (Hm w o w' Hrun) as [Hf _].
  rewrite (Hf p Hp). exact Hfile.
Qed.

Section CompletedStages.
Context `{Collaborators}.

Lemma best_size_none ts size mag :
  best_size ts size mag = Returned None -> magnification ts < mag.
Proof.
  unfold best_size. destruct (Z.ltb_spec (magnification ts) mag) as [Hlt | Hge];
    [intros _; exact Hlt|].
  destruct (mag =? 0); [discriminate|].
  destruct (Binary64.div_int _ _); [|discriminate].
  destruct (Binary64.of_int _); [|discriminate].
  destruct (Binary64.mul _ _); discriminate.
Qed.

Lemma tiling_returns_none ts result_path mask overlap desired_size mag threshold
    w w' :
  tiling ts result_path mask overlap desired_size mag threshold w
    = (Returned None, w') ->
  magnification ts < mag.
Proof.
  unfold tiling. intros Hrun.
  apply bind_inv in Hrun as ([] & w1 & _ & Hrun).
  apply bind_inv in Hrun as (osize & w2 & Hsize & Hrun).
  apply lift_inv in Hsize as [Hsize ->].
  destruct osize as [size|]; [|apply (best_size_none _ _ _ Hsize)].
  apply bind_inv in Hrun as (xs & w3 & _ & Hrun).
  apply bind_inv in Hrun as (rows & w4 & _ & Hrun).
  apply bind_inv in Hrun as ([] & w5 & _ & Hrun).
  discriminate.
Qed.

Lemma normalize_tiles_returns tile_information result_path device w w' :
  normalize_tiles tile_information result_path device w = (Returned tt, w') ->
  exists rows,
    fs w' !! path_join result_path "normalized_tile_information.csv"
      = Some (CsvFile rows).
Proof.
  unfold normalize_tiles. intros Hrun.
  apply bind_inv in Hrun as ([] & w1 & _ & Hrun).
  apply bind_inv in Hrun as (tiles & w2 & _ & Hrun).
  apply bind_inv in Hrun as (rows & w3 & _ & Hrun).
  unfold to_csv, write_file in Hrun. injection Hrun as <-.
  exists rows. apply lookup_insert_eq.
Qed.

Lemma blurry_filter_returns tile_information result_path threshold w n w' :
  blurry_filter tile_information result_path threshold w = (Returned n, w') ->
  exists rows,
    fs w' !! path_join result_path "infocus_tile_information.csv"
      = Some (CsvFile rows) /\
    n = Z.of_nat (length rows).
Proof.
  unfold blurry_filter. intros Hrun.
  apply bind_inv in Hrun as ([] & w1 & _ & Hrun).
  apply bind_inv in Hrun as (tiles & w2 & _ & Hrun).
  apply bind_inv in Hrun as (rows & w3 & _ & Hrun).
  apply bind_inv in Hrun as ([] & w4 & Hcsv & Hrun).
  unfold to_csv, write_file in Hcsv. injection Hcsv as <-.
  unfold ret in Hrun. injection Hrun as <- <-.
  exists rows. split; [apply lookup_insert_eq | reflexivity].
Qed.

(** A run of the Orchestrator that returns, on a slide that opens at an
    adequate magnification, reports the lengths of the Tiling and in-focus
    Manifests it leaves, and no Error Record. *)
Lemma preprocessing_returns path patient_path patient_id device encoder_path
    args w s e w' :
  slide (new_TissueSlide path) <> None ->
  desired_magnification args <= magnification (new_TissueSlide path) ->
  preprocessing path patient_path patient_id device encoder_path args w
    = (Returned (s, e), w') ->
  exists tile_rows in_focus_rows,
    s = [(patient_id, path, Some (Z.of_nat (length tile_rows)),
          Some (Z.of_nat (length in_focus_rows)))] /\
    e = [] /\
    fs w' !! path_join patient_path "tile_information.csv"
      = Some (CsvFile tile_rows) /\
    fs w' !! path_join patient_path "infocus_tile_information.csv"
      = Some (CsvFile in_focus_rows).
Proof.
  intros Hopen Hmag. unfold preprocessing.
  destruct (slide (new_TissueSlide path)) as [handle|]; [|contradiction].
  replace (desired_magnification args <=? magnification (new_TissueSlide path))
    with true by (symmetry; apply Z.leb_le; exact Hmag).
  intros Hrun.
  apply bind_inv in Hrun as ([] & w1 & _ & Hrun).
  apply bind_inv in Hrun as ([[total blur] err] & w9 & Hrun & Hret).
  unfold ret in Hret. injection Hret as <- <- <-.
  apply bind_inv in Hrun as (b1 & w2 & Hb1 & Hrun).
  apply isfile_inv in Hb1 as [-> ->].
  apply bind_inv in Hrun as (total' & w3 & Htotal & Hrun).
  apply bind_inv in Hrun as (b2 & w4 & Hb2 & Hrun).
  apply isfile_inv in Hb2 as [-> ->].
  apply bind_inv in Hrun as ([] & w5 & Hnorm & Hrun).
  apply bind_inv in Hrun as (b3 & w6 & Hb3 & Hrun).
  apply isfile_inv in Hb3 as [-> ->].
  apply bind_inv in Hrun as (blur' & w7 & Hblur & Hrun).
  apply bind_inv in Hrun as ([] & w8 & Hrec & Hrun).
  apply bind_inv in Hrun as ([] & w10 & Henc & Hrun).
  unfold ret in Hrun. injection Hrun as <- <- <- <-.
  assert (Htile : exists tile_rows,
            total' = Some (Z.of_nat (length tile_rows)) /\
            fs w3 !! path_join patient_path "tile_information.csv"
              = Some (CsvFile tile_rows)).
  { destruct (bool_decide _) in Htotal; cbn [negb] in Htotal.
    - apply bind_inv in Htotal as (rows & w' & Hread & Hret).
      apply read_csv_inv in Hread as [-> Hfile].
      unfold ret in Hret. injection Hret as <- <-. eauto.
    - apply bind_inv in Htotal as (mask & w' & Hmask & Htiling).
      apply lift_inv in Hmask as [_ ->].
      destruct total' as [n|].
      + apply tiling_returns in Htiling
          as (size & rows & _ & _ & Hcsv & -> & _). eauto.
      + apply tiling_returns_none in Htiling. lia. }
  destruct Htile as (tile_rows & -> & Htile).
  assert (Htile5 : fs w5 !! path_join patient_path "tile_information.csv"
                   = Some (CsvFile tile_rows)).
  { destruct (bool_decide _) in Hnorm; cbn [negb] in Hnorm.
    - unfold ret in Hnorm. injection Hnorm as <-. exact Htile.
    - eapply writes_only_keeps_file;
        [apply normalize_tiles_writes | side_paths | exact Hnorm | exact Htile]. }
  assert (Hfocus : exists in_focus_rows,
            blur' = Some (Z.of_nat (length in_focus_rows)) /\
            fs w7 !! path_join patient_path "infocus_tile_information.csv"
              = Some (CsvFile in_focus_rows) /\
            fs w7 !! path_join patient_path "tile_information.csv"
              = Some (CsvFile tile_rows)).
  { destruct (bool_decide _) in Hblur; cbn [negb] in Hblur.
    - apply bind_inv in Hblur as (rows & w' & Hread & Hret).
      apply read_csv_inv in Hread as [-> Hfile].
      unfold ret in Hret. injection Hret as <- <-. eauto.
    - apply bind_inv in Hblur as (n & w' & Hfilter & Hret).
      unfold ret in Hret. injection Hret as <- <-.
      pose proof (blurry_filter_returns _ _ _ _ _ _ Hfilter) as (rows & Hcsv & ->).
      exists rows. split; [reflexivity|]. split; [exact Hcsv|].
      eapply writes_only_keeps_file;
        [apply blurry_filter_writes | side_paths | exact Hfilter | exact Htile5]. }
  destruct Hfocus as (in_focus_rows & -> & Hfocus & Htile7).
  assert (Hpng : forall p f, ~ is_png p ->
                             fs w7 !! p = Some f -> fs w10 !! p = Some f).
  { intros p f Hp Hfile.
    eapply writes_only_keeps_file;
      [apply call_encode_tiles_writes | exact Hp | exact Henc |].
    destruct (tile_graph args).
    - eapply writes_only_keeps_file;
        [apply call_SlideReconstruction_writes | exact Hp | exact Hrec | exact Hfile].
      apply last_char_path_join. reflexivity.
    - unfold ret in Hrec. injection Hrec as <-. exact Hfile. }
  exists tile_rows, in_focus_rows.
  split; [reflexivity|]. split; [reflexivity|].
  split; (apply Hpng; [apply csv_not_png; reflexivity | assumption]).
Qed.

End CompletedStages.

Lemma not_printed (banner : string) (l : list string) :
  Forall (fun s => s <> banner) l -> ~ In banner l.
Proof.
  intros Hall Hin. apply list_elem_of_In in Hin.
  exact (proj1 (Forall_forall _ _) Hall banner Hin eq_refl).
Qed.

Section OrchestratorClaims.
Context `{Collaborators}.

(** C2 (as amended).  On a slide that opens and whose magnification is at
    least the target, the Orchestrator does not run a stage whose
    Manifest is already in the output directory: the stage's banner is
    not printed, its Manifest stays as it is, and the count the
    Orchestrator reports is the number of rows of the persisted
    Manifest.  In particular a second run of the Orchestrator over the
    output directory of a run that returned runs neither the Tile
    Selector nor the Quality Filter again and reports the same counts. *)
Theorem orchestrator_checkpoints path patient_path patient_id device
    encoder_path args w o w' :
  let orchestrate := preprocessing path patient_path patient_id device encoder_path args in
  let tile_csv := path_join patient_path "tile_information.csv" in
  let normalized_csv := path_join patient_path "normalized_tile_information.csv" in
  let in_focus_csv := path_join patient_path "infocus_tile_information.csv" in
  slide (new_TissueSlide path) <> None ->
  desired_magnification args <= magnification (new_TissueSlide path) ->
  orchestrate w = (o, w') ->
  (forall rows, fs w !! tile_csv = Some (CsvFile rows) ->
     ~ In "Tiling slide" (printed w w') /\
     fs w' !! tile_csv = Some (CsvFile rows) /\
     forall s e, o = Returned (s, e) ->
       exists blur,
         s = [(patient_id, path, Some (Z.of_nat (length rows)), blur)]) /\
  (forall f, fs w !! normalized_csv = Some f ->
     ~ In "Normalizing tiles" (printed w w') /\
     fs w' !! normalized_csv = Some f) /\
  (forall rows, fs w !! in_focus_csv = Some (CsvFile rows) ->
     ~ In "removing blurry tiles" (printed w w') /\
     fs w' !! in_focus_csv = Some (CsvFile rows) /\
     forall s e, o = Returned (s, e) ->
       exists total,
         s = [(patient_id, path, total, Some (Z.of_nat (length rows)))]) /\
  (forall s e, o = Returned (s, e) ->
     exists tile_rows in_focus_rows,
       s = [(patient_id, path, Some (Z.of_nat (length tile_rows)),
             Some (Z.of_nat (length in_focus_rows)))] /\
       fs w' !! tile_csv = Some (CsvFile tile_rows) /\
       fs w' !! in_focus_csv = Some (CsvFile in_focus_rows) /\
       forall o2 w2, orchestrate w' = (o2, w2) ->
         ~ In "Tiling slide" (printed w' w2) /\
         ~ In "removing blurry tiles" (printed w' w2) /\
         forall s2 e2, o2 = Returned (s2, e2) -> s2 = s).
Proof.
  intros orchestrate tile_csv normalized_csv in_focus_csv Hopen Hmag Hrun.
  assert (Htiling : forall w o w' rows,
            orchestrate w = (o, w') -> fs w !! tile_csv = Some (CsvFile rows) ->
            ~ In "Tiling slide" (printed w w') /\
            fs w' !! tile_csv = Some (CsvFile rows) /\
            forall s e, o = Returned (s, e) ->
              exists blur,
                s = [(patient_id, path, Some (Z.of_nat (length rows)), blur)]).
  { intros v o1 v' rows Hv Hfile.
    destruct (keeps_run _ _ _ _ _ _ _ _ _
                (preprocessing_skips_tiling path patient_path patient_id device
                   encoder_path args Hopen Hmag rows)
                ltac:(side_paths) Hfile Hv) as (Hkept & Hout & Hval).
    split; [apply not_printed, Hout|]. split; [exact Hkept|].
    intros s e ->. destruct (Hval (s, e) eq_refl) as [blur Hs]. eauto. }
  assert (Hblur : forall w o w' rows,
            orchestrate w = (o, w') -> fs w !! in_focus_csv = Some (CsvFile rows) ->
            ~ In "removing blurry tiles" (printed w w') /\
            fs w' !! in_focus_csv = Some (CsvFile rows) /\
            forall s e, o = Returned (s, e) ->
              exists total,
                s = [(patient_id, path, total, Some (Z.of_nat (length rows)))]).
  { intros v o1 v' rows Hv Hfile.
    destruct (keeps_run _ _ _ _ _ _ _ _ _
                (preprocessing_skips_blur_filter path patient_path patient_id
                   device encoder_path args Hopen Hmag rows)
                ltac:(side_paths) Hfile Hv) as (Hkept & Hout & Hval).
    split; [apply not_printed, Hout|]. split; [exact Hkept|].
    intros s e ->. destruct (Hval (s, e) eq_refl) as [total Hs]. eauto. }
  split; [intros rows; apply Htiling; exact Hrun|].
  split.
  { intros f Hfile.
    destruct (keeps_run _ _ _ _ _ _ _ _ _
                (preprocessing_skips_normalization path patient_path patient_id
                   device encoder_path args Hopen Hmag f)
                ltac:(side_paths) Hfile Hrun) as (Hkept & Hout & _).
    split; [apply not_printed, Hout | exact Hkept]. }
  split; [intros rows; apply Hblur; exact Hrun|].
  intros s e ->.
  destruct (preprocessing_returns _ _ _ _ _ _ _ _ _ _ Hopen Hmag Hrun)
    as (tile_rows & in_focus_rows & -> & _ & Htile & Hfocus).
  exists tile_rows, in_focus_rows.
  split; [reflexivity|]. split; [exact Htile|]. split; [exact Hfocus|].
  intros o2 w2 Hrun2.
  destruct (Htiling _ _ _ _ Hrun2 Htile) as (Hno1 & _ & Hcount1).
  destruct (Hblur _ _ _ _ Hrun2 Hfocus) as (Hno2 & _ & Hcount2).
  split; [exact Hno1|]. split; [exact Hno2|].
  intros s2 e2 ->.
  destruct (Hcount1 _ _ eq_refl) as [blur ->].
  destruct (Hcount2 _ _ eq_refl) as [total Heq].
  congruence.
Qed.

End OrchestratorClaims.

(** The second run over the output directory of the synthetic slide does
    not tile again, leaves the Manifest of four rows as it is, and reports
    the counts of the first run. *)
Lemma orchestrator_checkpoints_witness :
  (~ In "Tiling slide"
        (printed DemoRuns.after_first_run (snd DemoRuns.second_run)) /\
   fs (snd DemoRuns.second_run) !! "out/tile_information.csv"
     = Some (CsvFile [DemoRuns.row 0 0; DemoRuns.row 0 512;
                      DemoRuns.row 512 0; DemoRuns.row 512 512]) /\
   forall s e, fst DemoRuns.second_run = Returned (s, e) ->
     exists blur, s = [("S1", "S1.svs", Some 4, blur)]) /\
  (~ In "removing blurry tiles"
        (printed DemoRuns.after_first_run (snd DemoRuns.second_run)) /\
   forall s2 e2, fst DemoRuns.second_run = Returned (s2, e2) ->
     s2 = [("S1", "S1.svs", Some 4, Some 4)]).
Proof.
  assert (Hopen : slide (@new_TissueSlide Demo.collaborators "S1.svs") <> None)
    by (vm_compute; discriminate).
  assert (Hmag : desired_magnification (Demo.args 20 256 0)
                 <= magnification (@new_TissueSlide Demo.collaborators "S1.svs"))
    by (vm_compute; discriminate).
  split.
  - destruct (@orchestrator_checkpoints Demo.collaborators "S1.svs" "out" "S1"
                "cpu" "enc" (Demo.args 20 256 0) DemoRuns.after_first_run
                (fst DemoRuns.second_run) (snd DemoRuns.second_run) Hopen Hmag
                (surjective_pairing _)) as [Htiling _].
    apply (Htiling [DemoRuns.row 0 0; DemoRuns.row 0 512;
                    DemoRuns.row 512 0; DemoRuns.row 512 512]).
    vm_compute. reflexivity.
  - destruct (@orchestrator_checkpoints Demo.collaborators "S1.svs" "out" "S1"
                "cpu" "enc" (Demo.args 20 256 0) Demo.empty_world
                (Returned ([("S1", "S1.svs", Some 4, Some 4)], []))
                DemoRuns.after_first_run Hopen Hmag)
      as (_ & _ & _ & Hagain); [vm_compute; reflexivity|].
    destruct (Hagain _ _ eq_refl) as (tr & fr & _ & _ & _ & Hsecond).
    destruct (Hsecond (fst DemoRuns.second_run) (snd DemoRuns.second_run)
                (surjective_pairing _)) as (_ & Hno & Hsame).
    split; assumption.
Defined.

(** C2 (counterexample).  A Tiling Manifest of four rows is in the output
    directory, and yet the Orchestrator reports no count: for a target
    magnification of 50 on the slide of magnification 40, and for a slide
    that cannot be opened, it looks at no Manifest and both counts are
    [None].  The Tile Selector itself has no checkpoint: called on that
    directory it prints its banner and tiles again. *)
Lemma checkpoint_needs_an_adequate_slide :
  fs DemoRuns.after_first_run !! path_join "out" "tile_information.csv"
    = Some (CsvFile [DemoRuns.row 0 0; DemoRuns.row 0 512;
                     DemoRuns.row 512 0; DemoRuns.row 512 512]) /\
  fst (@preprocessing Demo.collaborators "S1.svs" "out" "S1" "cpu" "enc"
         (Demo.args 50 256 0) DemoRuns.after_first_run)
    = Returned
        ([("S1", "S1.svs", None, None)],
         [("S1", "S1.svs",
           Msg "Desired magnification is greater than slide magnification",
           "Tiling")]) /\
  fst (@preprocessing Demo.collaborators "S0.svs" "out" "S0" "cpu" "enc"
         (Demo.args 20 256 0) DemoRuns.after_first_run)
    = Returned
        ([("S0", "S0.svs", None, None)],
         [("S0", "S0.svs",
           Msg "OpenSlide had an error with opening the provided slide.",
           "Slide Opening")]) /\
  In "Tiling slide"
     (printed DemoRuns.after_first_run
        (snd (@tiling Demo.collaborators (Demo.synthetic 1024 1024 40) "out"
                Demo.all_tissue 0 256 20 0.8%float DemoRuns.after_first_run))).
Proof.
  split; [vm_compute; reflexivity|].
  split; [vm_compute; reflexivity|].
  split; [vm_compute; reflexivity|].
  vm_compute. left. reflexivity.
Qed.

(** The Manifest of three tiles whose second has no file: the first and
    third are normalised, the second is reported. *)
Lemma normalize_isolates_failing_tile_witness :
  exists out2 w2 w',
    for_acc [DemoRuns.row 512 0]
      (@normalize_tile Demo.collaborators (path_join "out" "normalized_tiles"))
      [stage_row "out/normalized_tiles" (DemoRuns.row 0 0)]
      (snd DemoRuns.before_missing)
    = (Returned ([stage_row "out/normalized_tiles" (DemoRuns.row 0 0)] ++ out2), w2) /\
    @normalize_tiles Demo.collaborators "out/tile_information.csv" "out" "cpu"
      DemoRuns.missing_tile = (Returned tt, w') /\
    fs w' = <[path_join "out" "normalized_tile_information.csv"
              := CsvFile ([stage_row "out/normalized_tiles" (DemoRuns.row 0 0)] ++ out2)]>
              (fs w2) /\
    errors w' =
      errors (snd DemoRuns.before_missing) ++
      (r_patient_id (DemoRuns.row 0 512), r_path_to_slide (DemoRuns.row 0 512),
       Exc (FileNotFoundError (r_path_to_slide (DemoRuns.row 0 512))),
       "Normalization")
        :: drop (length (errors (snd DemoRuns.before_missing))) (errors w2).
Proof.
  apply (@normalize_isolates_failing_tile Demo.collaborators
           "out/tile_information.csv" "out" "cpu"
           [DemoRuns.row 0 0] (DemoRuns.row 0 512) [DemoRuns.row 512 0]
           DemoRuns.missing_tile).
  - vm_compute. reflexivity.
  - vm_compute. reflexivity.
  - vm_compute. reflexivity.
Defined.

(** The third tile of the Normalization Manifest has variance 0.015, the
    threshold: it is in focus, stored under [infocus_tiles] and in the
    Manifest. *)
Lemma blurry_filter_partitions_witness :
  @LaplaceFilter Demo.collaborators DemoRuns.sharp 0.015%float = Returned true /\
  exists out2 w2 w' img',
    for_acc []
      (@blurry_tile Demo.collaborators (path_join "out" "infocus_tiles")
         (path_join "out" "outfocus_tiles") 0.015%float)
      ([stage_row "out/infocus_tiles" (DemoRuns.row 0 0)]
         ++ [stage_row (path_join "out" "infocus_tiles") (DemoRuns.row 512 0)])
      (with_image
         (path_join (path_join "out" "infocus_tiles")
                    (stage_name (DemoRuns.row 512 0)))
         DemoRuns.sharp (snd DemoRuns.before_third))
    = (Returned
         (([stage_row "out/infocus_tiles" (DemoRuns.row 0 0)]
             ++ [stage_row (path_join "out" "infocus_tiles") (DemoRuns.row 512 0)])
            ++ out2), w2) /\
    @blurry_filter Demo.collaborators "out/normalized_tile_information.csv"
      "out" 0.015%float DemoRuns.one_blurred
    = (Returned
         (Z.of_nat
            (length
               (([stage_row "out/infocus_tiles" (DemoRuns.row 0 0)]
                   ++ [stage_row (path_join "out" "infocus_tiles")
                                 (DemoRuns.row 512 0)])
                  ++ out2))), w') /\
    fs w' = <[path_join "out" "infocus_tile_information.csv"
              := CsvFile
                   (([stage_row "out/infocus_tiles" (DemoRuns.row 0 0)]
                       ++ [stage_row (path_join "out" "infocus_tiles")
                                     (DemoRuns.row 512 0)])
                      ++ out2)]> (fs w2) /\
    fs w' !! path_join (path_join "out" "infocus_tiles")
                       (stage_name (DemoRuns.row 512 0))
      = Some (ImageFile img').
Proof.
  refine (@blurry_filter_partitions Demo.collaborators
            "out/normalized_tile_information.csv" "out" 0.015%float
            [DemoRuns.row 0 0; DemoRuns.row 0 512] (DemoRuns.row 512 0) []
            DemoRuns.one_blurred
            [stage_row "out/infocus_tiles" (DemoRuns.row 0 0)]
            (snd DemoRuns.before_third) DemoRuns.sharp
            [[0.015%float]] [[0.015%float]] _ _ _ _ _).
  - vm_compute. reflexivity.
  - vm_compute. reflexivity.
  - vm_compute. reflexivity.
  - vm_compute. reflexivity.
  - vm_compute. reflexivity.
Defined.

(* ===================================================================== *)
(** ** The Manifest of a completed stage (C10) *)
(* ===================================================================== *)

Section AllTilesFail.
Context `{Collaborators}.

Lemma normalize_all_fail dir (l : list Row) (f : gmap string File) :
  (forall r, In r l -> exists e, normalized_tile f r = Raised e) ->
  exists new, forall df E so,
    for_acc l (normalize_tile dir) df (mkWorld f E so) =
    (Returned df, mkWorld f (E ++ new) so).
Proof.
  induction l as [|row l IH]; intros Hfail.
  - exists []. intros df E so. rewrite app_nil_r. reflexivity.
  - destruct (Hfail row (or_introl eq_refl)) as [e He].
    destruct IH as [new Hloop]; [intros r Hr; apply Hfail; right; exact Hr|].
    exists (normalization_error row e :: new). intros df E so. cbn [for_acc].
    erewrite bind_returned by (apply normalize_tile_fail; exact He).
    cbn [fs errors stdout]. rewrite Hloop, <- app_assoc. reflexivity.
Qed.

Lemma blurry_all_fail dir blurry_dir threshold (l : list Row)
    (f : gmap string File) :
  (forall r, In r l -> exists e, focus_decision f threshold r = Raised e) ->
  exists new lines, forall df E so,
    for_acc l (blurry_tile dir blurry_dir threshold) df (mkWorld f E so) =
    (Returned df, mkWorld f (E ++ new) (so ++ lines)).
Proof.
  induction l as [|row l IH]; intros Hfail.
  - exists [], []. intros df E so. rewrite !app_nil_r. reflexivity.
  - destruct (Hfail row (or_introl eq_refl)) as [e He].
    destruct IH as (new & lines & Hloop);
      [intros r Hr; apply Hfail; right; exact Hr|].
    exists ((r_patient_id row, r_path_to_slide row, Exc e, "Blur filter.") :: new),
           (("An error occurred: " +:+ exn_str e) :: lines).
    intros df E so. cbn [for_acc].
    erewrite bind_returned by (apply blurry_tile_fail; exact He).
    cbn [fs errors stdout]. rewrite Hloop, <- !app_assoc. reflexivity.
Qed.

(** C10.  A stage that runs to its end has written its Manifest, even an
    empty one: [tiling] that returns a count (zero included),
    [normalize_tiles] and [blurry_filter] on any readable input Manifest
    (they always return, and write the empty Manifest when every tile
    fails).  A later run of the Orchestrator that finds the Manifest does
    not run the stage again. *)
Theorem completed_stage_leaves_manifest :
  (forall ts result_path mask overlap desired_size mag threshold w n w',
     tiling ts result_path mask overlap desired_size mag threshold w
       = (Returned (Some n), w') ->
     exists rows,
       fs w' !! path_join result_path "tile_information.csv"
         = Some (CsvFile rows) /\
       n = Z.of_nat (length rows)) /\
  (forall tile_information result_path device w tiles,
     fs w !! tile_information = Some (CsvFile tiles) ->
     exists rows w',
       normalize_tiles tile_information result_path device w
         = (Returned tt, w') /\
       fs w' !! path_join result_path "normalized_tile_information.csv"
         = Some (CsvFile rows) /\
       ((forall r, In r tiles -> exists e, normalized_tile (fs w) r = Raised e) ->
        rows = [])) /\
  (forall tile_information result_path threshold w tiles,
     fs w !! tile_information = Some (CsvFile tiles) ->
     exists rows w',
       blurry_filter tile_information result_path threshold w
         = (Returned (Z.of_nat (length rows)), w') /\
       fs w' !! path_join result_path "infocus_tile_information.csv"
         = Some (CsvFile rows) /\
       ((forall r, In r tiles ->
           exists e, focus_decision (fs w) threshold r = Raised e) ->
        rows = [])) /\
  (forall path patient_path patient_id device encoder_path args w o w',
     slide (new_TissueSlide path) <> None ->
     desired_magnification args <= magnification (new_TissueSlide path) ->
     preprocessing path patient_path patient_id device encoder_path args w
       = (o, w') ->
     (forall rows,
        fs w !! path_join patient_path "tile_information.csv"
          = Some (CsvFile rows) ->
        ~ In "Tiling slide" (printed w w')) /\
     (forall rows,
        fs w !! path_join patient_path "normalized_tile_information.csv"
          = Some (CsvFile rows) ->
        ~ In "Normalizing tiles" (printed w w')) /\
     (forall rows,
        fs w !! path_join patient_path "infocus_tile_information.csv"
          = Some (CsvFile rows) ->
        ~ In "removing blurry tiles" (printed w w'))).
Proof.
  split; [|split; [|split]].
  - intros ts result_path mask overlap desired_size mag threshold w n w' Hrun.
    apply tiling_returns in Hrun as (size & rows & _ & _ & Hcsv & Hn & _).
    exists rows. split; assumption.
  - intros tile_information result_path device w tiles Hcsv.
    destruct (normalize_loop (path_join result_path "normalized_tiles") tiles (fs w))
      as (out & f' & new & Hloop).
    exists out. eexists.
    rewrite (normalize_tiles_run _ _ _ _ _ Hcsv), Hloop. cbn [app fs].
    split; [reflexivity|]. split; [apply lookup_insert_eq|].
    intros Hfail.
    destruct (normalize_all_fail (path_join result_path "normalized_tiles")
                tiles (fs w) Hfail) as [new' Hskip].
    specialize (Hloop [] (errors w) (stdout w ++ ["Normalizing tiles"])).
    rewrite Hskip in Hloop. injection Hloop as Hout _. symmetry. exact Hout.
  - intros tile_information result_path threshold w tiles Hcsv.
    destruct (blurry_loop (path_join result_path "infocus_tiles")
                (path_join result_path "outfocus_tiles") threshold tiles (fs w))
      as (out & f' & new & lines & _ & Hloop).
    exists out. eexists.
    rewrite (blurry_filter_run _ _ _ _ _ Hcsv), Hloop. cbn [app fs].
    split; [reflexivity|]. split; [apply lookup_insert_eq|].
    intros Hfail.
    destruct (blurry_all_fail (path_join result_path "infocus_tiles")
                (path_join result_path "outfocus_tiles") threshold
                tiles (fs w) Hfail) as (new' & lines' & Hskip).
    specialize (Hloop [] (errors w) (stdout w ++ ["removing blurry tiles"])).
    rewrite Hskip in Hloop. injection Hloop as Hout _. symmetry. exact Hout.
  - intros path patient_path patient_id device encoder_path args w o w'
      Hopen Hmag Hrun.
    split; [|split]; intros rows Hfile.
    + destruct (keeps_run _ _ _ _ _ _ _ _ _
                  (preprocessing_skips_tiling path patient_path patient_id device
                     encoder_path args Hopen Hmag rows)
                  ltac:(side_paths) Hfile Hrun) as (_ & Hout & _).
      apply not_printed, Hout.
    + destruct (keeps_run _ _ _ _ _ _ _ _ _
                  (preprocessing_skips_normalization path patient_path patient_id
                     device encoder_path args Hopen Hmag (CsvFile rows))
                  ltac:(side_paths) Hfile Hrun) as (_ & Hout & _).
      apply not_printed, Hout.
    + destruct (keeps_run _ _ _ _ _ _ _ _ _
                  (preprocessing_skips_blur_filter path patient_path patient_id
                     device encoder_path args Hopen Hmag rows)
                  ltac:(side_paths) Hfile Hrun) as (_ & Hout & _).
      apply not_printed, Hout.
Qed.

End AllTilesFail.

(** With the overlap -1 the Tile Selector accepts no tile and writes the
    empty Manifest; neither tile of the Manifest [no_files] has a file, and
    the Stain Normaliser and the Quality Filter return and write the empty
    Manifest; the second run of the Orchestrator prints no stage banner. *)
Lemma completed_stage_leaves_manifest_witness :
  (exists rows,
     fs (snd (@tiling Demo.collaborators (Demo.synthetic 1024 1024 40) "out"
                Demo.all_tissue (-1) 256 20 0.8%float Demo.empty_world))
       !! path_join "out" "tile_information.csv" = Some (CsvFile rows) /\
     0 = Z.of_nat (length rows)) /\
  (exists rows w',
     @normalize_tiles Demo.collaborators "out/tile_information.csv" "out" "cpu"
       DemoRuns.no_files = (Returned tt, w') /\
     fs w' !! path_join "out" "normalized_tile_information.csv"
       = Some (CsvFile rows) /\
     rows = []) /\
  (exists rows w',
     @blurry_filter Demo.collaborators "out/tile_information.csv" "out"
       0.015%float DemoRuns.no_files = (Returned (Z.of_nat (length rows)), w') /\
     fs w' !! path_join "out" "infocus_tile_information.csv"
       = Some (CsvFile rows) /\
     rows = []) /\
  (~ In "Tiling slide"
        (printed DemoRuns.after_first_run (snd DemoRuns.second_run)) /\
   ~ In "Normalizing tiles"
        (printed DemoRuns.after_first_run (snd DemoRuns.second_run)) /\
   ~ In "removing blurry tiles"
        (printed DemoRuns.after_first_run (snd DemoRuns.second_run))).
Proof.
  destruct (@completed_stage_leaves_manifest Demo.collaborators)
    as (Htiling & Hnormalize & Hblur & Hagain).
  split; [|split; [|split]].
  - apply (Htiling (Demo.synthetic 1024 1024 40) "out" Demo.all_tissue (-1)
             256 20 0.8%float Demo.empty_world 0).
    apply run_eq. vm_compute. reflexivity.
  - destruct (Hnormalize "out/tile_information.csv" "out" "cpu" DemoRuns.no_files
                [DemoRuns.row 0 0; DemoRuns.row 0 512])
      as (rows & w' & Hrun & Hcsv & Hempty); [vm_compute; reflexivity|].
    exists rows, w'. split; [exact Hrun|]. split; [exact Hcsv|].
    apply Hempty. intros r [<- | [<- | []]]; eexists; vm_compute; reflexivity.
  - destruct (Hblur "out/tile_information.csv" "out" 0.015%float DemoRuns.no_files
                [DemoRuns.row 0 0; DemoRuns.row 0 512])
      as (rows & w' & Hrun & Hcsv & Hempty); [vm_compute; reflexivity|].
    exists rows, w'. split; [exact Hrun|]. split; [exact Hcsv|].
    apply Hempty. intros r [<- | [<- | []]]; eexists; vm_compute; reflexivity.
  - destruct (Hagain "S1.svs" "out" "S1" "cpu" "enc" (Demo.args 20 256 0)
                DemoRuns.after_first_run (fst DemoRuns.second_run)
                (snd DemoRuns.second_run))
      as (H1 & H2 & H3);
      [vm_compute; discriminate | vm_compute; discriminate
      | apply surjective_pairing |].
    split; [|split].
    + apply (H1 [DemoRuns.row 0 0; DemoRuns.row 0 512;
                 DemoRuns.row 512 0; DemoRuns.row 512 512]).
      vm_compute. reflexivity.
    + eapply H2. vm_compute. reflexivity.
    + eapply H3. vm_compute. reflexivity.
Defined.

(* ===================================================================== *)
(** ** What the Orchestrator catches (C3) *)
(* ===================================================================== *)

Section OrchestratorErrors.
Context `{Collaborators}.

Lemma preprocessing_slide_unreadable path patient_path patient_id device
    encoder_path args w :
  slide (new_TissueSlide path) = None ->
  preprocessing path patient_path patient_id device encoder_path args w =
  (Returned
     ([(patient_id, path, None, None)],
      [(patient_id, path,
        Msg "OpenSlide had an error with opening the provided slide.",
        "Slide Opening")]),
   mkWorld (fs w) (errors w) (stdout w ++ ["processing: " +:+ path])).
Proof. intros Hslide. unfold preprocessing. rewrite Hslide. reflexivity. Qed.

Lemma preprocessing_magnification_too_high path patient_path patient_id device
    encoder_path args w :
  slide (new_TissueSlide path) <> None ->
  magnification (new_TissueSlide path) < desired_magnification args ->
  preprocessing path patient_path patient_id device encoder_path args w =
  (Returned
     ([(patient_id, path, None, None)],
      [(patient_id, path,
        Msg "Desired magnification is greater than slide magnification",
        "Tiling")]),
   mkWorld (fs w) (errors w)
     ((stdout w ++ ["processing: " +:+ path])
        ++ ["Desired magnification is greater than slide magnification"])).
Proof.
  intros Hslide Hmag. unfold preprocessing.
  destruct (slide (new_TissueSlide path)); [|contradiction].
  replace (desired_magnification args <=? magnification (new_TissueSlide path))
    with false by (symmetry; apply Z.leb_gt; exact Hmag).
  reflexivity.
Qed.

Lemma preprocessing_tiling_raises path patient_path patient_id device
    encoder_path args w mask e w1 :
  slide (new_TissueSlide path) <> None ->
  desired_magnification args <= magnification (new_TissueSlide path) ->
  fs w !! path_join patient_path "tile_information.csv" = None ->
  new_TissueMask (new_TissueSlide path) patient_path = Returned mask ->
  tiling (new_TissueSlide path) patient_path mask (overlap args)
    (desired_size args) (desired_magnification args) (tissue_threshold args)
    (mkWorld (fs w) (errors w) (stdout w ++ ["processing: " +:+ path]))
    = (Raised e, w1) ->
  preprocessing path patient_path patient_id device encoder_path args w
    = (Raised e, w1).
Proof.
  intros Hslide Hmag Hfile Hmask Htiling. unfold preprocessing.
  destruct (slide (new_TissueSlide path)); [|contradiction].
  replace (desired_magnification args <=? magnification (new_TissueSlide path))
    with true by (symmetry; apply Z.leb_le; exact Hmag).
  erewrite bind_returned by (unfold print; reflexivity).
  apply bind_raised.
  erewrite bind_returned
    by (unfold isfile; cbn [fs]; rewrite Hfile; reflexivity).
  apply bind_raised.
  rewrite bool_decide_eq_false_2 by (intros [? ?]; discriminate).
  cbn [negb].
  erewrite bind_returned by (unfold lift; rewrite Hmask; reflexivity).
  exact Htiling.
Qed.

(** C3 (as amended).  A slide that cannot be opened, or whose native
    magnification is below the target, becomes one Error Record (stage
    "Slide Opening", stage "Tiling") and the Orchestrator returns one
    Outcome Record without counts.  Whenever the Orchestrator returns, it
    returns exactly one Outcome Record.  Inside [normalize_tiles] and
    [blurry_filter] the exception of a tile is caught, so these stages
    return whenever their input Manifest can be read.  An exception that
    [tiling] raises is not caught: the Orchestrator raises it. *)
Theorem orchestrator_error_conversion path patient_path patient_id device
    encoder_path args w :
  (slide (new_TissueSlide path) = None ->
   exists w',
     preprocessing path patient_path patient_id device encoder_path args w =
     (Returned
        ([(patient_id, path, None, None)],
         [(patient_id, path,
           Msg "OpenSlide had an error with opening the provided slide.",
           "Slide Opening")]), w') /\
     fs w' = fs w) /\
  (slide (new_TissueSlide path) <> None ->
   magnification (new_TissueSlide path) < desired_magnification args ->
   exists w',
     preprocessing path patient_path patient_id device encoder_path args w =
     (Returned
        ([(patient_id, path, None, None)],
         [(patient_id, path,
           Msg "Desired magnification is greater than slide magnification",
           "Tiling")]), w') /\
     fs w' = fs w) /\
  (forall s e w',
     preprocessing path patient_path patient_id device encoder_path args w
       = (Returned (s, e), w') ->
     exists total blur, s = [(patient_id, path, total, blur)]) /\
  (forall tile_information result_path tiles,
     fs w !! tile_information = Some (CsvFile tiles) ->
     (exists w', normalize_tiles tile_information result_path device w
                 = (Returned tt, w')) /\
     (forall threshold, exists n w',
        blurry_filter tile_information result_path threshold w
          = (Returned n, w'))) /\
  (forall mask e w1,
     slide (new_TissueSlide path) <> None ->
     desired_magnification args <= magnification (new_TissueSlide path) ->
     fs w !! path_join patient_path "tile_information.csv" = None ->
     new_TissueMask (new_TissueSlide path) patient_path = Returned mask ->
     tiling (new_TissueSlide path) patient_path mask (overlap args)
       (desired_size args) (desired_magnification args) (tissue_threshold args)
       (mkWorld (fs w) (errors w) (stdout w ++ ["processing: " +:+ path]))
       = (Raised e, w1) ->
     preprocessing path patient_path patient_id device encoder_path args w
       = (Raised e, w1)).
Proof.
  split; [|split; [|split; [|split]]].
  - intros Hslide. eexists.
    split; [apply preprocessing_slide_unreadable; exact Hslide | reflexivity].
  - intros Hslide Hmag. eexists.
    split; [apply preprocessing_magnification_too_high; assumption | reflexivity].
  - intros s e w' Hrun.
    destruct (slide (new_TissueSlide path)) as [handle|] eqn:Hslide.
    + destruct (Z.le_gt_cases (desired_magnification args)
                  (magnification (new_TissueSlide path))) as [Hmag | Hmag].
      * destruct (preprocessing_returns path patient_path patient_id device
                    encoder_path args w s e w') as (tr & fr & -> & _);
          [rewrite Hslide; discriminate | exact Hmag | exact Hrun |].
        eexists _, _. reflexivity.
      * rewrite preprocessing_magnification_too_high in Hrun;
          [|rewrite Hslide; discriminate | exact Hmag].
        injection Hrun as <- _ _. eexists _, _. reflexivity.
    + rewrite (preprocessing_slide_unreadable _ _ _ _ _ _ _ Hslide) in Hrun.
      injection Hrun as <- _ _. eexists _, _. reflexivity.
  - intros tile_information result_path tiles Hcsv. split.
    + destruct (normalize_loop (path_join result_path "normalized_tiles")
                  tiles (fs w)) as (out & f' & new & Hloop).
      eexists. rewrite (normalize_tiles_run _ _ _ _ _ Hcsv), Hloop. reflexivity.
    + intros threshold.
      destruct (blurry_loop (path_join result_path "infocus_tiles")
                  (path_join result_path "outfocus_tiles") threshold tiles (fs w))
        as (out & f' & new & lines & _ & Hloop).
      eexists _, _. rewrite (blurry_filter_run _ _ _ _ _ Hcsv), Hloop. reflexivity.
  - intros mask e w1. apply preprocessing_tiling_raises.
Qed.

End OrchestratorErrors.

(** The slide "S0.svs" cannot be opened, and the target magnification 50
    exceeds the native 40 of "S1.svs": each gives one Outcome Record and
    one Error Record.  With the overlap 300 the exception of the Tile
    Selector leaves the Orchestrator. *)
Lemma orchestrator_error_conversion_witness :
  (exists w',
     @preprocessing Demo.collaborators "S0.svs" "out" "S0" "cpu" "enc"
       (Demo.args 20 256 0) Demo.empty_world =
     (Returned
        ([("S0", "S0.svs", None, None)],
         [("S0", "S0.svs",
           Msg "OpenSlide had an error with opening the provided slide.",
           "Slide Opening")]), w') /\
     fs w' = fs Demo.empty_world) /\
  (exists w',
     @preprocessing Demo.collaborators "S1.svs" "out" "S1" "cpu" "enc"
       (Demo.args 50 256 0) Demo.empty_world =
     (Returned
        ([("S1", "S1.svs", None, None)],
         [("S1", "S1.svs",
           Msg "Desired magnification is greater than slide magnification",
           "Tiling")]), w') /\
     fs w' = fs Demo.empty_world) /\
  (exists w1,
     @preprocessing Demo.collaborators "S1.svs" "out" "S1" "cpu" "enc"
       (Demo.args 20 256 300) Demo.empty_world
     = (Raised (ValueError "range() arg 3 must not be zero"), w1)).
Proof.
  split; [|split].
  - destruct (@orchestrator_error_conversion Demo.collaborators "S0.svs" "out"
                "S0" "cpu" "enc" (Demo.args 20 256 0) Demo.empty_world)
      as [Hunreadable _].
    apply Hunreadable. vm_compute. reflexivity.
  - destruct (@orchestrator_error_conversion Demo.collaborators "S1.svs" "out"
                "S1" "cpu" "enc" (Demo.args 50 256 0) Demo.empty_world)
      as (_ & Hmag & _).
    apply Hmag; vm_compute; [discriminate | reflexivity].
  - destruct (@orchestrator_error_conversion Demo.collaborators "S1.svs" "out"
                "S1" "cpu" "enc" (Demo.args 20 256 300) Demo.empty_world)
      as (_ & _ & _ & _ & Hraise).
    eexists.
    apply (Hraise Demo.all_tissue);
      [vm_compute; discriminate | vm_compute; discriminate
      | vm_compute; reflexivity | reflexivity | vm_compute; reflexivity].
Defined.

(** C3 (counterexample).  With the overlap 300 for 256-pixel tiles the
    stride is zero: [tiling] raises [ValueError], and so does the
    Orchestrator. *)
Lemma orchestrator_raises_on_zero_stride :
  fst (@preprocessing Demo.collaborators "S1.svs" "out" "S1" "cpu" "enc"
         (Demo.args 20 256 300) Demo.empty_world)
  = Raised (ValueError "range() arg 3 must not be zero").
Proof. vm_compute. reflexivity. Qed.

(** The Error Record of a tile that fails in the Stain Normaliser goes to
    the module-level list, not to the list the Orchestrator returns. *)
Lemma normalization_error_not_returned :
  fst (@preprocessing Demo.collaborators "S1.svs" "out" "S1" "cpu" "enc"
         (Demo.args 20 256 0) DemoRuns.missing_tile)
  = Returned ([("S1", "S1.svs", Some 3, Some 2)], []) /\
  errors (snd (@preprocessing Demo.collaborators "S1.svs" "out" "S1" "cpu" "enc"
                 (Demo.args 20 256 0) DemoRuns.missing_tile))
  = [("S1", r_path_to_slide (DemoRuns.row 0 512),
      Exc (FileNotFoundError (r_path_to_slide (DemoRuns.row 0 512))),
      "Normalization")].
Proof. split; vm_compute; reflexivity. Qed.

(* ===================================================================== *)
(** ** The binary64 model against the primitive floats *)
(* ===================================================================== *)

(** [best_size] computed with [Binary64] and with the kernel's floats give
    the same size, for a few small sizes and the usual tile sizes, at all
    magnifications up to 64. *)
Lemma binary64_agrees_with_primitive_floats :
  primitive_floats_agree
    [7; 11; 117; 224; 256; 299; 512; 1024] 64
  = true.
Proof. vm_compute. reflexivity. Qed.

(* ===================================================================== *)
(** ** What the later stages keep of their input Manifest *)
(* ===================================================================== *)

Section StageConservation.
Context `{Collaborators}.

(** A stored picture stays a stored picture when a picture is stored. *)
Lemma stored_after_insert (f g : gmap string File) (q : string) (img0 : Img) :
  (forall p img, <[q := ImageFile img0]> f !! p = Some (ImageFile img) ->
                 exists img', g !! p = Some (ImageFile img')) ->
  forall p img, f !! p = Some (ImageFile img) ->
                exists img', g !! p = Some (ImageFile img').
Proof.
  intros Hg p img Hp. destruct (decide (q = p)) as [-> | Hne].
  - apply (Hg p img0). apply lookup_insert_eq.
  - apply (Hg p img). rewrite lookup_insert_ne by exact Hne. exact Hp.
Qed.



(** The loop of [blurry_filter], by the tiles it keeps and the tiles it
    sets aside. *)
Lemma blurry_loop_kept dir blurry_dir threshold (l : list Row) :
  forall f, exists kept blurry f' new lines,
    sublist kept l /\ sublist blurry l /\
    (length kept + length blurry + length new = length l)%nat /\
    Forall (fun rec => snd rec = "Blur filter.") new /\
    (forall p img, f !! p = Some (ImageFile img) ->
                   exists img', f' !! p = Some (ImageFile img')) /\
    Forall (fun r => exists img,
              f' !! r_path_to_slide (stage_row dir r) = Some (ImageFile img)) kept /\
    Forall (fun r => exists img,
              f' !! r_path_to_slide (stage_row blurry_dir r) = Some (ImageFile img))
           blurry /\
    forall df E so,
      for_acc l (blurry_tile dir blurry_dir threshold) df (mkWorld f E so) =
      (Returned (df ++ map (stage_row dir) kept),
       mkWorld f' (E ++ new) (so ++ lines)).
Proof.
  induction l as [|row l IH]; intros f.
  - exists [], [], f, [], []. repeat split; try constructor; eauto.
    intros df E so. cbn [map]. rewrite !app_nil_r. reflexivity.
  - destruct (focus_decision f threshold row) as [[img [|]] | e] eqn:Htile.
    + destruct (IH (<[path_join dir (stage_name row) := ImageFile img]> f))
        as (kept & blurry & f' & new & lines & Hs1 & Hs2 & Hlen & Hstage & Hkeep
            & Hst1 & Hst2 & Hloop).
      exists (row :: kept), blurry, f', new, lines.
      split; [constructor; exact Hs1|]. split; [constructor; exact Hs2|].
      split; [cbn [length]; lia|]. split; [exact Hstage|].
      split; [eapply stored_after_insert; exact Hkeep|].
      split.
      { constructor; [|exact Hst1]. apply (Hkeep _ img). apply lookup_insert_eq. }
      split; [exact Hst2|].
      intros df E so. cbn [for_acc map].
      erewrite bind_returned by (apply blurry_tile_in_focus; exact Htile).
      unfold with_image. cbn [fs errors stdout].
      rewrite Hloop, <- app_assoc. reflexivity.
    + destruct (IH (<[path_join blurry_dir (stage_name row) := ImageFile img]> f))
        as (kept & blurry & f' & new & lines & Hs1 & Hs2 & Hlen & Hstage & Hkeep
            & Hst1 & Hst2 & Hloop).
      exists kept, (row :: blurry), f', new, lines.
      split; [constructor; exact Hs1|]. split; [constructor; exact Hs2|].
      split; [cbn [length]; lia|]. split; [exact Hstage|].
      split; [eapply stored_after_insert; exact Hkeep|].
      split; [exact Hst1|].
      split.
      { constructor; [|exact Hst2]. apply (Hkeep _ img). apply lookup_insert_eq. }
      intros df E so. cbn [for_acc].
      erewrite bind_returned by (apply blurry_tile_out_of_focus; exact Htile).
      unfold with_image. cbn [fs errors stdout].
      rewrite Hloop. reflexivity.
    + destruct (IH f)
        as (kept & blurry & f' & new & lines & Hs1 & Hs2 & Hlen & Hstage & Hkeep
            & Hst1 & Hst2 & Hloop).
      exists kept, blurry, f',
        ((r_patient_id row, r_path_to_slide row, Exc e, "Blur filter.") :: new),
        (("An error occurred: " +:+ exn_str e) :: lines).
      split; [constructor; exact Hs1|]. split; [constructor; exact Hs2|].
      split; [cbn [length]; lia|].
      split; [constructor; [reflexivity | exact Hstage]|].
      split; [exact Hkeep|]. split; [exact Hst1|]. split; [exact Hst2|].
      intros df E so. cbn [for_acc].
      erewrite bind_returned by (apply blurry_tile_fail; exact Htile).
      cbn [fs errors stdout].
      rewrite Hloop, <- !app_assoc. reflexivity.
Qed.

(** X2.  [blurry_filter] returns the number of rows of the Manifest it
    writes.  That Manifest is made of input rows, in order, with only the
    path replaced; every input tile is either kept (stored under
    [infocus_tiles]), set aside (stored under [outfocus_tiles]) or
    reported by one Error Record of stage "Blur filter." (with the final
    period). *)
Theorem blurry_filter_accounts_for_every_tile tile_information result_path
    threshold w tiles :
  let dir := path_join result_path "infocus_tiles" in
  let blurry_dir := path_join result_path "outfocus_tiles" in
  fs w !! tile_information = Some (CsvFile tiles) ->
  exists kept blurry new w',
    blurry_filter tile_information result_path threshold w
      = (Returned (Z.of_nat (length kept)), w') /\
    sublist kept tiles /\ sublist blurry tiles /\
    fs w' !! path_join result_path "infocus_tile_information.csv"
      = Some (CsvFile (map (stage_row dir) kept)) /\
    errors w' = errors w ++ new /\
    (length kept + length blurry + length new = length tiles)%nat /\
    Forall (fun rec => snd rec = "Blur filter.") new /\
    (forall r, In r kept ->
       exists img, fs w' !! r_path_to_slide (stage_row dir r) = Some (ImageFile img)) /\
    (forall r, In r blurry ->
       exists img,
         fs w' !! r_path_to_slide (stage_row blurry_dir r) = Some (ImageFile img)).
Proof.
  intros dir blurry_dir Hcsv.
  destruct (blurry_loop_kept dir blurry_dir threshold tiles (fs w))
    as (kept & blurry & f' & new & lines & Hs1 & Hs2 & Hlen & Hstage & _
        & Hst1 & Hst2 & Hloop).
  exists kept, blurry, new. eexists.
  rewrite (blurry_filter_run _ _ _ _ _ Hcsv). fold dir blurry_dir. rewrite Hloop.
  cbn [app]. rewrite length_map.
  split; [reflexivity|]. cbn [fs errors]. split; [exact Hs1|]. split; [exact Hs2|].
  split; [apply lookup_insert_eq|]. split; [reflexivity|].
  split; [exact Hlen|]. split; [exact Hstage|].
  assert (Hpng : forall d r (img : Img),
            f' !! r_path_to_slide (stage_row d r) = Some (ImageFile img) ->
            <[path_join result_path "infocus_tile_information.csv"
              := CsvFile (map (stage_row dir) kept)]> f'
              !! r_path_to_slide (stage_row d r) = Some (ImageFile img)).
  { intros d r img Himg. rewrite lookup_insert_ne; [exact Himg|].
    intros Heq. apply (csv_not_png result_path "infocus_tile_information.csv");
      [reflexivity|]. rewrite Heq. apply tile_path_png. }
  split; intros r Hr; apply list_elem_of_In in Hr.
  - destruct (proj1 (Forall_forall _ _) Hst1 r Hr) as [img Himg]. eauto.
  - destruct (proj1 (Forall_forall _ _) Hst2 r Hr) as [img Himg]. eauto.
Qed.

End StageConservation.


Lemma blurry_filter_accounts_for_every_tile_witness :
  exists kept blurry new w',
    @blurry_filter Demo.collaborators "out/normalized_tile_information.csv" "out"
      0.015%float DemoRuns.one_blurred
      = (Returned (Z.of_nat (length kept)), w') /\
    sublist kept [DemoRuns.row 0 0; DemoRuns.row 0 512; DemoRuns.row 512 0] /\
    sublist blurry [DemoRuns.row 0 0; DemoRuns.row 0 512; DemoRuns.row 512 0] /\
    fs w' !! path_join "out" "infocus_tile_information.csv"
      = Some (CsvFile (map (stage_row (path_join "out" "infocus_tiles")) kept)) /\
    errors w' = errors DemoRuns.one_blurred ++ new /\
    (length kept + length blurry + length new
     = length [DemoRuns.row 0 0; DemoRuns.row 0 512; DemoRuns.row 512 0])%nat /\
    Forall (fun rec => snd rec = "Blur filter.") new /\
    (forall r, In r kept ->
       exists img,
         fs w' !! r_path_to_slide (stage_row (path_join "out" "infocus_tiles") r)
           = Some (ImageFile img)) /\
    (forall r, In r blurry ->
       exists img,
         fs w' !! r_path_to_slide (stage_row (path_join "out" "outfocus_tiles") r)
           = Some (ImageFile img)).
Proof.
  apply (@blurry_filter_accounts_for_every_tile Demo.collaborators
           "out/normalized_tile_information.csv" "out" 0.015%float
           DemoRuns.one_blurred
           [DemoRuns.row 0 0; DemoRuns.row 0 512; DemoRuns.row 512 0]).
  vm_compute. reflexivity.
Defined.

(* ===================================================================== *)
(** ** The Error Records the Orchestrator returns *)
(* ===================================================================== *)

Section ReturnedErrors.
Context `{Collaborators}.

(** X3.  The list of Error Records [preprocessing] returns is empty
    whenever the stages ran; otherwise it holds the one record of the
    slide-opening or magnification failure, the counts are [None] and no
    file was touched.  Records of stage "Normalization" or "Blur filter."
    are never in it. *)
Theorem preprocessing_returned_errors path patient_path patient_id device
    encoder_path args w s e w' :
  preprocessing path patient_path patient_id device encoder_path args w
    = (Returned (s, e), w') ->
  (e = [] /\
   exists total blur, s = [(patient_id, path, Some total, Some blur)]) \/
  (exists msg stage,
     e = [(patient_id, path, Msg msg, stage)] /\
     (stage = "Slide Opening" \/ stage = "Tiling") /\
     s = [(patient_id, path, None, None)] /\
     fs w' = fs w /\ errors w' = errors w).
Proof.
  intros Hrun.
  destruct (slide (new_TissueSlide path)) as [handle|] eqn:Hslide.
  - destruct (Z.le_gt_cases (desired_magnification args)
                (magnification (new_TissueSlide path))) as [Hmag | Hmag].
    + left.
      destruct (preprocessing_returns path patient_path patient_id device
                  encoder_path args w s e w') as (tr & fr & -> & -> & _);
        [rewrite Hslide; discriminate | exact Hmag | exact Hrun |].
      split; [reflexivity|]. eexists _, _. reflexivity.
    + right. rewrite preprocessing_magnification_too_high in Hrun;
        [|rewrite Hslide; discriminate | exact Hmag].
      injection Hrun as <- <- <-. eexists _, _.
      split; [reflexivity|]. split; [right; reflexivity|].
      repeat split; reflexivity.
  - right. rewrite (preprocessing_slide_unreadable _ _ _ _ _ _ _ Hslide) in Hrun.
    injection Hrun as <- <- <-. eexists _, _.
    split; [reflexivity|]. split; [left; reflexivity|].
    repeat split; reflexivity.
Qed.

End ReturnedErrors.

Lemma preprocessing_returned_errors_witness :
  ([(("S0", "S0.svs", Msg "OpenSlide had an error with opening the provided slide.",
      "Slide Opening") : ErrorRecord)] = [] /\
   exists total blur,
     [(("S0", "S0.svs", None, None) : OutcomeRecord)]
     = [("S0", "S0.svs", Some total, Some blur)]) \/
  (exists msg stage,
     [(("S0", "S0.svs", Msg "OpenSlide had an error with opening the provided slide.",
        "Slide Opening") : ErrorRecord)] = [("S0", "S0.svs", Msg msg, stage)] /\
     (stage = "Slide Opening" \/ stage = "Tiling") /\
     [(("S0", "S0.svs", None, None) : OutcomeRecord)] = [("S0", "S0.svs", None, None)] /\
     fs (snd (@preprocessing Demo.collaborators "S0.svs" "out" "S0" "cpu" "enc"
                (Demo.args 20 256 0) Demo.empty_world))
       = fs Demo.empty_world /\
     errors (snd (@preprocessing Demo.collaborators "S0.svs" "out" "S0" "cpu" "enc"
                (Demo.args 20 256 0) Demo.empty_world))
       = errors Demo.empty_world).
Proof.
  apply (@preprocessing_returned_errors Demo.collaborators "S0.svs" "out" "S0"
           "cpu" "enc" (Demo.args 20 256 0) Demo.empty_world).
  apply run_eq. vm_compute. reflexivity.
Defined.

(* ===================================================================== *)
(** ** A run over a fresh output directory *)
(* ===================================================================== *)

Lemma stage_row_twice (d1 d2 : string) (r : Row) :
  stage_row d2 (stage_row d1 r) = stage_row d2 r.
Proof. reflexivity. Qed.


Section FreshRun.
Context `{Collaborators}.




End FreshRun.


(* ===================================================================== *)
(** ** The Manifest the Tile Selector writes *)
(* ===================================================================== *)

Lemma for_acc_length {A B} (l : list A) (body : A -> list B -> M (list B))
    (k : nat) :
  (forall a s w s' w', In a l -> body a s w = (Returned s', w') ->
                       (length s' <= length s + k)%nat) ->
  forall s w s' w', for_acc l body s w = (Returned s', w') ->
                    (length s' <= length s + k * length l)%nat.
Proof.
  induction l as [|a l IH]; intros Hstep s w s' w' Hrun.
  - cbn in Hrun. unfold ret in Hrun. injection Hrun as <- _. lia.
  - cbn [for_acc] in Hrun. apply bind_inv in Hrun as (s1 & w1 & H1 & H2).
    pose proof (Hstep a s w s1 w1 (or_introl eq_refl) H1).
    pose proof (IH (fun a0 s0 w0 s0' w0' Hin => Hstep a0 s0 w0 s0' w0' (or_intror Hin))
                   s1 w1 s' w' H2).
    cbn [length]. lia.
Qed.

Lemma py_range_length (stop step : Z) (l : list Z) :
  0 < step -> py_range 0 stop step = Returned l ->
  Z.of_nat (length l) = Z.max 0 ((stop - 1) / step + 1).
Proof.
  intros Hs. unfold py_range, range_length.
  destruct (Z.eqb_spec step 0); [lia|].
  destruct (Z.ltb_spec 0 step); [|lia].
  intros [= <-]. rewrite length_map, length_seq.
  destruct (Z.ltb_spec 0 stop) as [Hpos | Hneg].
  - replace (stop - 0 - 1) with (stop - 1) by lia.
    pose proof (Z.div_pos (stop - 1) step ltac:(lia) Hs). lia.
  - cbn. assert ((stop - 1) / step < 0) by (apply Z.div_lt_upper_bound; lia). lia.
Qed.

Section TilingExactness.
Context `{Collaborators}.

Lemma tiling_candidate_total ts tiles mask desired_size threshold size x y df wd
    handle :
  slide ts = Some handle ->
  (forall x y, exists img, read_region handle (x, y) 0 (size, size) = Returned img) ->
  (forall x y, exists region b,
     get_region_mask mask (x, y) (size, size) = Returned region /\
     is_tissue mask region threshold = Returned b) ->
  (forall img, exists img', convert_RGB img = Returned img') ->
  (forall img, exists img', resize img (desired_size, desired_size) = Returned img') ->
  exists wd',
    tiling_candidate ts tiles mask desired_size threshold
      (fst (dimensions ts)) (snd (dimensions ts)) size x y df wd
    = (Returned
         (df ++ (if candidate_accepted ts mask threshold size (x, y)
                 then [tile_row ts tiles size x y] else [])), wd') /\
    errors wd' = errors wd /\ stdout wd' = stdout wd.
Proof.
  intros Hslide Hread Hmask Hconv Hresize.
  unfold tiling_candidate, candidate_accepted, tissue_accepts. cbn [fst snd].
  destruct ((x <=? fst (dimensions ts) - size) && (y <=? snd (dimensions ts) - size)).
  2: { exists wd. rewrite app_nil_r. repeat split; reflexivity. }
  cbn [andb]. rewrite Hslide.
  destruct (Hread x y) as [img Himg].
  destruct (Hmask x y) as (region & b & Hregion & Hb).
  destruct (Hconv img) as [img1 Himg1]. destruct (Hresize img1) as [img2 Himg2].
  rewrite Hregion, Hb.
  destruct b.
  - eexists. split.
    + unfold bind, lift. cbv beta iota. rewrite Himg. cbv beta iota.
      rewrite Hb. cbv beta iota. rewrite Himg1. cbv beta iota.
      rewrite Himg2. cbv beta iota. reflexivity.
    + split; reflexivity.
  - exists wd. split; [|split; reflexivity].
    unfold bind, lift. cbv beta iota. rewrite Himg. cbv beta iota.
    rewrite Hb. cbv beta iota. rewrite app_nil_r. reflexivity.
Qed.

Lemma tiling_inner_loop ts tiles mask desired_size threshold size handle x
    (ys : list Z) :
  slide ts = Some handle ->
  (forall x y, exists img, read_region handle (x, y) 0 (size, size) = Returned img) ->
  (forall x y, exists region b,
     get_region_mask mask (x, y) (size, size) = Returned region /\
     is_tissue mask region threshold = Returned b) ->
  (forall img, exists img', convert_RGB img = Returned img') ->
  (forall img, exists img', resize img (desired_size, desired_size) = Returned img') ->
  forall df wd, exists wd',
    for_acc ys
      (fun y df_list =>
         tiling_candidate ts tiles mask desired_size threshold
           (fst (dimensions ts)) (snd (dimensions ts)) size x y df_list) df wd
    = (Returned (df ++ accepted_rows ts tiles mask threshold size [x] ys), wd') /\
    errors wd' = errors wd /\ stdout wd' = stdout wd.
Proof.
  intros Hslide Hread Hmask Hconv Hresize.
  unfold accepted_rows. cbn [list_prod]. rewrite app_nil_r.
  induction ys as [|y ys IH]; intros df wd.
  - exists wd. cbn. rewrite app_nil_r. repeat split; reflexivity.
  - destruct (tiling_candidate_total ts tiles mask desired_size threshold size
                x y df wd handle Hslide Hread Hmask Hconv Hresize)
      as (wd1 & Hstep & He1 & Ho1).
    destruct (IH (df ++ (if candidate_accepted ts mask threshold size (x, y)
                         then [tile_row ts tiles size x y] else [])) wd1)
      as (wd2 & Hloop & He2 & Ho2).
    exists wd2. split; [|split; congruence].
    cbn [for_acc]. rewrite (bind_returned _ _ _ _ _ Hstep), Hloop.
    cbn [map List.filter].
    destruct (candidate_accepted ts mask threshold size (x, y));
      cbn [map fst snd]; rewrite <- app_assoc; reflexivity.
Qed.

Lemma accepted_rows_cons ts tiles mask threshold size x xs ys :
  accepted_rows ts tiles mask threshold size (x :: xs) ys =
  accepted_rows ts tiles mask threshold size [x] ys
    ++ accepted_rows ts tiles mask threshold size xs ys.
Proof.
  unfold accepted_rows. cbn [list_prod]. rewrite app_nil_r.
  rewrite List.filter_app, map_app. reflexivity.
Qed.

(** X5.  When the slide reader, the mask and the picture operations do not
    raise and the stride is not zero, [tiling] returns, and the Manifest it
    writes holds exactly the candidate origins that are in bounds and that
    the mask accepts, in the order of the two loops ([x] outer, [y]
    inner); the count it returns is their number. *)
Theorem tiling_accepts_exactly ts result_path mask overlap desired_size mag
    threshold size handle xs ys w :
  let tiles := path_join result_path "tiles" in
  let stride := tiling_stride overlap desired_size size in
  slide ts = Some handle ->
  best_size ts desired_size mag = Returned (Some size) ->
  py_range 0 (fst (dimensions ts) - size + 1) stride = Returned xs ->
  py_range 0 (snd (dimensions ts) - size + 1) stride = Returned ys ->
  (forall x y, exists img, read_region handle (x, y) 0 (size, size) = Returned img) ->
  (forall x y, exists region b,
     get_region_mask mask (x, y) (size, size) = Returned region /\
     is_tissue mask region threshold = Returned b) ->
  (forall img, exists img', convert_RGB img = Returned img') ->
  (forall img, exists img', resize img (desired_size, desired_size) = Returned img') ->
  exists w',
    tiling ts result_path mask overlap desired_size mag threshold w
      = (Returned
           (Some (Z.of_nat
                    (length (accepted_rows ts tiles mask threshold size xs ys)))),
         w') /\
    fs w' !! path_join result_path "tile_information.csv"
      = Some (CsvFile (accepted_rows ts tiles mask threshold size xs ys)) /\
    errors w' = errors w.
Proof.
  intros tiles stride Hslide Hsize Hxs Hys Hread Hmask Hconv Hresize.
  assert (Houter : forall l df wd, exists wd',
            for_acc l
              (fun x df_list =>
                 do ys0 <- lift (py_range 0 (snd (dimensions ts) - size + 1) stride);
                 for_acc ys0
                   (fun y df_list0 =>
                      tiling_candidate ts tiles mask desired_size threshold
                        (fst (dimensions ts)) (snd (dimensions ts)) size x y
                        df_list0) df_list) df wd
            = (Returned (df ++ accepted_rows ts tiles mask threshold size l ys), wd')
            /\ errors wd' = errors wd).
  { induction l as [|x l IH]; intros df wd.
    - exists wd. unfold accepted_rows. cbn. rewrite app_nil_r.
      split; reflexivity.
    - destruct (tiling_inner_loop ts tiles mask desired_size threshold size handle
                  x ys Hslide Hread Hmask Hconv Hresize df wd)
        as (wd1 & Hinner & He1 & _).
      destruct (IH (df ++ accepted_rows ts tiles mask threshold size [x] ys) wd1)
        as (wd2 & Hloop & He2).
      exists wd2. split; [|congruence].
      cbn [for_acc].
      erewrite bind_returned.
      2: { erewrite bind_returned by (unfold lift; rewrite Hys; reflexivity).
           exact Hinner. }
      rewrite Hloop, (accepted_rows_cons _ _ _ _ _ x l ys), app_assoc. reflexivity. }
  destruct (Houter xs [] (mkWorld (fs w) (errors w) (stdout w ++ ["Tiling slide"])))
    as (w2 & Hloop & He).
  eexists. split; [|split].
  - unfold tiling.
    erewrite bind_returned by (unfold print; reflexivity).
    erewrite bind_returned by (unfold lift; rewrite Hsize; reflexivity).
    cbv beta iota zeta. fold stride tiles.
    erewrite bind_returned by (unfold lift; rewrite Hxs; reflexivity).
    rewrite (bind_returned _ _ _ _ _ Hloop). cbn [app].
    erewrite bind_returned by (unfold to_csv, write_file; reflexivity).
    reflexivity.
  - cbn [fs]. apply lookup_insert_eq.
  - cbn [errors]. exact He.
Qed.

(** X6.  The count [tiling] returns is at most the number of candidate
    origins, which for a positive stride is
    [max 0 ((width - size) / stride + 1) * max 0 ((height - size) / stride + 1)]. *)
Theorem tiling_count_bound ts result_path mask overlap desired_size mag
    threshold size w n w' :
  let stride := tiling_stride overlap desired_size size in
  best_size ts desired_size mag = Returned (Some size) ->
  0 < stride ->
  tiling ts result_path mask overlap desired_size mag threshold w
    = (Returned (Some n), w') ->
  0 <= n <= origins_along (fst (dimensions ts)) size stride
            * origins_along (snd (dimensions ts)) size stride.
Proof.
  intros stride Hsize Hstride. unfold tiling. intros Hrun.
  apply bind_inv in Hrun as ([] & w1 & _ & Hrun).
  apply bind_inv in Hrun as (osize & w2 & Hsize' & Hrun).
  apply lift_inv in Hsize' as [Hsize' ->].
  rewrite Hsize in Hsize'. injection Hsize' as <-.
  cbv beta iota zeta in Hrun. fold stride in Hrun.
  apply bind_inv in Hrun as (xs & w3 & Hxs & Hrun).
  apply lift_inv in Hxs as [Hxs ->].
  apply bind_inv in Hrun as (rows & w4 & Hloop & Hrun).
  apply bind_inv in Hrun as ([] & w5 & _ & Hrun).
  unfold ret in Hrun. injection Hrun as <- _.
  destruct (py_range_returns 0 (snd (dimensions ts) - size + 1) stride ltac:(lia))
    as [ys Hys].
  assert (Hlen : (length rows <= length (@nil Row) + length ys * length xs)%nat).
  { revert Hloop. apply for_acc_length.
    intros x df wd df' wd' _ Hbody.
    apply bind_inv in Hbody as (ys0 & wd1 & Hys0 & Hinner).
    apply lift_inv in Hys0 as [Hys0 ->].
    rewrite Hys in Hys0. injection Hys0 as <-.
    assert (Hin : (length df' <= length df + 1 * length ys)%nat).
    { revert Hinner. apply for_acc_length.
      intros y df1 wd1 df1' wd1' _ Hcand.
      apply tiling_candidate_inv in Hcand
        as [[-> _] | (_ & _ & -> & _)]; [lia|].
      rewrite length_app. cbn [length]. lia. }
    lia. }
  pose proof (py_range_length _ _ _ Hstride Hxs) as Hnx.
  pose proof (py_range_length _ _ _ Hstride Hys) as Hny.
  unfold origins_along.
  replace (fst (dimensions ts) - size + 1 - 1) with (fst (dimensions ts) - size)
    in Hnx by lia.
  replace (snd (dimensions ts) - size + 1 - 1) with (snd (dimensions ts) - size)
    in Hny by lia.
  rewrite <- Hnx, <- Hny. cbn [length] in Hlen. split; [lia|]. nia.
Qed.

End TilingExactness.

Lemma tiling_accepts_exactly_witness :
  exists w',
    @tiling Demo.collaborators (Demo.synthetic 1024 1024 40) "out" Demo.all_tissue
      0 256 20 0.8%float Demo.empty_world
      = (Returned
           (Some (Z.of_nat
                    (length (accepted_rows (Demo.synthetic 1024 1024 40)
                               (path_join "out" "tiles") Demo.all_tissue
                               0.8%float 512 [0; 512] [0; 512])))),
         w') /\
    fs w' !! path_join "out" "tile_information.csv"
      = Some (CsvFile (accepted_rows (Demo.synthetic 1024 1024 40)
                         (path_join "out" "tiles") Demo.all_tissue
                         0.8%float 512 [0; 512] [0; 512])) /\
    errors w' = errors Demo.empty_world.
Proof.
  apply (@tiling_accepts_exactly Demo.collaborators (Demo.synthetic 1024 1024 40)
           "out" Demo.all_tissue 0 256 20 0.8%float 512 Demo.handle
           [0; 512] [0; 512] Demo.empty_world).
  - reflexivity.
  - vm_compute. reflexivity.
  - vm_compute. reflexivity.
  - vm_compute. reflexivity.
  - intros x y. exists Demo.pixel. reflexivity.
  - intros x y. exists [[true]], true. split; reflexivity.
  - intros img. exists img. reflexivity.
  - intros img. exists img. reflexivity.
Defined.

Lemma tiling_count_bound_witness :
  0 <= 4 <= origins_along 1024 512 (tiling_stride 0 256 512)
            * origins_along 1024 512 (tiling_stride 0 256 512).
Proof.
  apply (@tiling_count_bound Demo.collaborators (Demo.synthetic 1024 1024 40)
           "out" Demo.all_tissue 0 256 20 0.8%float 512 Demo.empty_world 4
           (snd (@tiling Demo.collaborators (Demo.synthetic 1024 1024 40) "out"
                   Demo.all_tissue 0 256 20 0.8%float Demo.empty_world))).
  - vm_compute. reflexivity.
  - vm_compute. reflexivity.
  - apply run_eq. vm_compute. reflexivity.
Defined.

(* ===================================================================== *)
(** ** Patient identifiers and their labels *)
(* ===================================================================== *)

Example tcga_tumor : extract_diagnosis "TCGA-A1-A0SB-01Z-00-DX1" = Ok 1.
Proof. reflexivity. Qed.
Example tcga_normal : extract_diagnosis "TCGA-A1-A0SB-11A-00-DX1" = Ok 0.
Proof. reflexivity. Qed.
Example tcga_ten : extract_diagnosis "a-b-c-1x0" = Ok 1.
Proof. reflexivity. Qed.
Example short_id : extract_diagnosis "slide-1" = Err IndexError.
Proof. reflexivity. Qed.
Example no_digit : extract_diagnosis "a-b-c-d" = Err (IntValueError "").
Proof. reflexivity. Qed.

Lemma split_on_nonempty sep s : split_on sep s <> [].
Proof.
  induction s as [|c s IH]; cbn; [discriminate|].
  destruct (bool_decide (c = sep)); [discriminate|].
  destruct (split_on sep s); discriminate.
Qed.

Lemma split_on_length sep s :
  length (split_on sep s) = S (count_char sep s).
Proof.
  induction s as [|c s IH]; [reflexivity|]. cbn [split_on count_char].
  destruct (bool_decide (c = sep)).
  - cbn [length]. rewrite IH. reflexivity.
  - destruct (split_on sep s) as [|h t] eqn:Hs; [cbn in IH; discriminate|].
    cbn [length] in *. lia.
Qed.

(** Splitting undoes joining, for fields without the separator. *)
Lemma split_on_join sep (fields : list string) :
  fields <> [] ->
  Forall (fun f => count_char sep f = O) fields ->
  split_on sep (join_with sep fields) = fields.
Proof.
  intros Hne Hall. induction fields as [|f rest IH]; [contradiction|].
  apply Forall_cons in Hall as [Hf Hrest].
  assert (Hfield : forall tail : list string,
            split_on sep (f +:+ String sep (join_with sep tail))
            = f :: split_on sep (join_with sep tail)).
  { intros tail. clear IH Hne Hrest. induction f as [|c f IHf].
    - change ("" +:+ String sep (join_with sep tail))
        with (String sep (join_with sep tail)).
      cbn [split_on]. rewrite bool_decide_eq_true_2 by reflexivity. reflexivity.
    - cbn [count_char] in Hf.
      destruct (bool_decide (c = sep)) eqn:Hc; [cbn in Hf; lia|].
      change (String c f +:+ String sep (join_with sep tail))
        with (String c (f +:+ String sep (join_with sep tail))).
      cbn [split_on]. rewrite Hc, (IHf Hf). reflexivity. }
  destruct rest as [|g rest].
  - cbn [join_with]. clear IH Hne Hrest Hfield.
    induction f as [|c f IHf]; [reflexivity|].
    cbn [count_char] in Hf.
    destruct (bool_decide (c = sep)) eqn:Hc; [cbn in Hf; lia|].
    cbn [split_on]. rewrite Hc, (IHf Hf). reflexivity.
  - change (join_with sep (f :: g :: rest))
      with (f +:+ String sep (join_with sep (g :: rest))).
    rewrite Hfield, IH; [reflexivity | discriminate | exact Hrest].
Qed.

(** Joining undoes splitting. *)
Lemma join_split_on sep s : join_with sep (split_on sep s) = s.
Proof.
  induction s as [|c s IH]; [reflexivity|]. cbn [split_on].
  destruct (bool_decide (c = sep)) eqn:Hc.
  - apply bool_decide_eq_true in Hc as ->.
    destruct (split_on sep s) as [|h t] eqn:Hs;
      [exfalso; exact (split_on_nonempty _ _ Hs)|].
    change (join_with sep ("" :: h :: t))
      with ("" +:+ String sep (join_with sep (h :: t))).
    rewrite IH. reflexivity.
  - destruct (split_on sep s) as [|h t] eqn:Hs;
      [exfalso; exact (split_on_nonempty _ _ Hs)|].
    destruct t as [|h' t].
    + cbn [join_with] in *. rewrite IH. reflexivity.
    + change (join_with sep (String c h :: h' :: t))
        with (String c (h +:+ String sep (join_with sep (h' :: t)))).
      change (join_with sep (h :: h' :: t))
        with (h +:+ String sep (join_with sep (h' :: t))) in IH.
      rewrite IH. reflexivity.
Qed.

(** X7.  [extract_diagnosis] raises [IndexError] exactly when the
    identifier has fewer than three dashes. *)
Theorem extract_diagnosis_index_error (ID : string) :
  extract_diagnosis ID = Err IndexError <-> (count_char "-" ID < 3)%nat.
Proof.
  unfold extract_diagnosis.
  pose proof (split_on_length "-" ID) as Hlen.
  destruct (nth_error (split_on "-" ID) 3) as [d|] eqn:Hnth.
  - assert (3 < length (split_on "-" ID))%nat
      by (apply nth_error_Some; rewrite Hnth; discriminate).
    split; [|lia].
    unfold int_of_string. destruct (digits_of d); [discriminate|].
    destruct (int_max_str_digits <? _)%nat; [discriminate|].
    destruct (11 <=? _); discriminate.
  - apply nth_error_None in Hnth. split; [lia | reflexivity].
Qed.

(** X8.  For an identifier made of at least four dash-separated fields,
    [extract_diagnosis] reads the digits of the fourth field, whatever
    stands between them and whatever the other fields hold: without a
    digit it raises [ValueError]; otherwise (for ASCII text and no more
    digits than [int] converts) the label is 0 when their number is at
    least 11 and 1 when it is below. *)
Theorem extract_diagnosis_of_fields (f0 f1 f2 f3 : string) (rest : list string) :
  Forall (fun f => count_char "-" f = O) (f0 :: f1 :: f2 :: f3 :: rest) ->
  ascii_only f3 = true ->
  (String.length (digits_of f3) <= int_max_str_digits)%nat ->
  extract_diagnosis (join_with "-" (f0 :: f1 :: f2 :: f3 :: rest)) =
  match digits_of f3 with
  | EmptyString => Err (IntValueError EmptyString)
  | String c d =>
      Ok (if 11 <=? int_of_digits (String c d) then 0 else 1)
  end.
Proof.
  intros Hfields _ Hlen. unfold extract_diagnosis.
  rewrite split_on_join by (discriminate || exact Hfields).
  cbn [nth_error]. unfold int_of_string.
  destruct (digits_of f3); [reflexivity|].
  replace (int_max_str_digits <? _)%nat with false
    by (symmetry; apply Nat.ltb_ge; exact Hlen).
  destruct (11 <=? _); reflexivity.
Qed.

Lemma extract_diagnosis_of_fields_witness :
  extract_diagnosis (join_with "-" ["TCGA"; "A1"; "A0SB"; "01Z"; "00"; "DX1"]) =
  match digits_of "01Z" with
  | EmptyString => Err (IntValueError EmptyString)
  | String c d => Ok (if 11 <=? int_of_digits (String c d) then 0 else 1)
  end.
Proof.
  apply (extract_diagnosis_of_fields "TCGA" "A1" "A0SB" "01Z" ["00"; "DX1"]).
  - repeat constructor.
  - reflexivity.
  - apply Nat.leb_le. vm_compute. reflexivity.
Defined.

(* ===================================================================== *)
(** ** A target magnification of zero *)
(* ===================================================================== *)

Section ZeroMagnification.
Context `{Collaborators}.



End ZeroMagnification.


(* ===================================================================== *)
(** ** The tile files of a slide are distinct *)
(* ===================================================================== *)

Lemma pretty_N_go_no_underscore (x : N) (s : string) :
  count_char "_" s = O -> count_char "_" (pretty_N_go x s) = O.
Proof.
  revert s. induction (N.lt_wf_0 x) as [x _ IH]. intros s Hs.
  destruct (N.eq_dec x 0%N) as [-> | Hx].
  - rewrite pretty_N_go_0. exact Hs.
  - rewrite pretty_N_go_step by lia. apply IH.
    + apply N.div_lt; lia.
    + cbn [count_char].
      replace (bool_decide (pretty_N_char (x `mod` 10)%N = "_"%char)) with false;
        [exact Hs|].
      symmetry. apply bool_decide_eq_false.
      unfold pretty_N_char.
      repeat (match goal with |- context [match ?n with _ => _ end] => destruct n end;
              try discriminate).
Qed.

Lemma str_no_underscore (z : Z) : count_char "_" (str z) = O.
Proof.
  assert (HN : forall n : N, count_char "_" (pretty n) = O).
  { intros n. unfold pretty, pretty_N. destruct (decide (n = 0%N)); [reflexivity|].
    apply pretty_N_go_no_underscore. reflexivity. }
  unfold str, pretty, pretty_Z. destruct z as [|p|p].
  - reflexivity.
  - apply (HN (N.pos p)).
  - change ("-" +:+ pretty p) with (String "-" (pretty (N.pos p))).
    cbn [count_char]. rewrite bool_decide_eq_false_2 by discriminate.
    apply (HN (N.pos p)).
Qed.

Lemma split_at_underscore (a a' b b' : string) :
  count_char "_" a = O -> count_char "_" a' = O ->
  a +:+ String "_" b = a' +:+ String "_" b' -> a = a' /\ b = b'.
Proof.
  revert a'. induction a as [|c a IH]; intros [|c' a'] Ha Ha' Heq.
  - injection Heq as <-. split; reflexivity.
  - change (String "_" b = String c' (a' +:+ String "_" b')) in Heq.
    injection Heq as <- _. cbn [count_char] in Ha'.
    rewrite bool_decide_eq_true_2 in Ha' by reflexivity. discriminate.
  - change (String c (a +:+ String "_" b) = String "_" b') in Heq.
    injection Heq as -> _. cbn [count_char] in Ha.
    rewrite bool_decide_eq_true_2 in Ha by reflexivity. discriminate.
  - change (String c (a +:+ String "_" b) = String c' (a' +:+ String "_" b')) in Heq.
    injection Heq as <- Heq. cbn [count_char] in Ha, Ha'.
    destruct (bool_decide (c = "_"%char)); [discriminate|].
    destruct (IH a' Ha Ha' Heq) as [-> ->]. split; reflexivity.
Qed.

(** Two tile names of one slide are equal only for equal origins. *)
Lemma tile_name_inj (id : string) (x y x' y' mag size scale : Z) :
  tile_name id x y mag size scale = tile_name id x' y' mag size scale ->
  x = x' /\ y = y'.
Proof.
  unfold tile_name. intros Heq.
  apply append_inj_l in Heq. apply (append_inj_l "_tile_w") in Heq.
  apply split_at_underscore in Heq as [Hx Heq]; try apply str_no_underscore.
  apply (append_inj_l "h") in Heq.
  apply split_at_underscore in Heq as [Hy _]; try apply str_no_underscore.
  unfold str in Hx, Hy.
  split; [exact (pretty_Z_inj _ _ Hx) | exact (pretty_Z_inj _ _ Hy)].
Qed.

Lemma starts_with_slash_tile_name (id : string) (x y x' y' mag size scale : Z) :
  starts_with_slash (tile_name id x y mag size scale)
  = starts_with_slash (tile_name id x' y' mag size scale).
Proof. unfold tile_name. destruct id; reflexivity. Qed.

Lemma path_join_inj_same (a b c : string) :
  starts_with_slash b = starts_with_slash c ->
  path_join a b = path_join a c -> b = c.
Proof.
  intros Hsame. destruct (starts_with_slash c) eqn:Hc.
  - unfold path_join. rewrite Hsame, Hc. tauto.
  - apply path_join_inj; assumption.
Qed.

Lemma tile_path_inj ts tiles size (p q : Z * Z) :
  r_path_to_slide (tile_row ts tiles size (fst p) (snd p))
  = r_path_to_slide (tile_row ts tiles size (fst q) (snd q)) -> p = q.
Proof.
  destruct p as [x y], q as [x' y']. cbn [fst snd tile_row r_path_to_slide].
  intros Heq. apply path_join_inj_same in Heq;
    [|apply starts_with_slash_tile_name].
  apply tile_name_inj in Heq as [-> ->]. reflexivity.
Qed.

Lemma py_range_NoDup (start stop step : Z) (l : list Z) :
  py_range start stop step = Returned l -> NoDup l.
Proof.
  unfold py_range. destruct (Z.eqb_spec step 0) as [|Hne]; [discriminate|].
  intros [= <-].
  apply (NoDup_fmap_2_strong (fun i : nat => start + Z.of_nat i * step)).
  - intros i j _ _ Hij. nia.
  - apply NoDup_seq.
Qed.

Lemma NoDup_list_prod' {A B} (xs : list A) (ys : list B) :
  NoDup xs -> NoDup ys -> NoDup (list_prod xs ys).
Proof.
  intros Hxs Hys. induction Hxs as [|x xs Hx Hxs IH]; [constructor|].
  cbn [list_prod]. apply NoDup_app. split; [|split].
  - apply (NoDup_fmap_2 (pair x)). exact Hys.
  - intros [a b] Hin Hin'. apply list_elem_of_In in Hin, Hin'.
    apply in_map_iff in Hin as (b' & [= <- <-] & _).
    apply in_prod_iff in Hin' as [Hin' _]. apply Hx.
    apply list_elem_of_In. exact Hin'.
  - exact IH.
Qed.

Lemma for_acc_sublist {A B} (f : A -> list B) (l : list A)
    (body : A -> list B -> M (list B)) :
  (forall a s w s' w', In a l -> body a s w = (Returned s', w') ->
     exists k, s' = s ++ k /\ sublist k (f a)) ->
  forall s w s' w', for_acc l body s w = (Returned s', w') ->
    exists k, s' = s ++ k /\ sublist k (concat (map f l)).
Proof.
  induction l as [|a l IH]; intros Hstep s w s' w' Hrun.
  - cbn in Hrun. unfold ret in Hrun. injection Hrun as <- _.
    exists []. split; [symmetry; apply app_nil_r | constructor].
  - cbn [for_acc] in Hrun. apply bind_inv in Hrun as (s1 & w1 & H1 & H2).
    destruct (Hstep a s w s1 w1 (or_introl eq_refl) H1) as (k1 & -> & Hk1).
    destruct (IH (fun a0 s0 w0 s0' w0' Hin => Hstep a0 s0 w0 s0' w0' (or_intror Hin))
                 _ _ _ _ H2) as (k2 & -> & Hk2).
    exists (k1 ++ k2). split; [symmetry; apply app_assoc|].
    cbn [map concat]. apply sublist_app; assumption.
Qed.

Section DistinctTiles.
Context `{Collaborators}.

Lemma tiling_rows_sublist ts result_path mask overlap desired_size mag
    threshold w n w' :
  tiling ts result_path mask overlap desired_size mag threshold w
    = (Returned (Some n), w') ->
  exists size xs ys rows,
    NoDup xs /\ NoDup ys /\
    fs w' !! path_join result_path "tile_information.csv" = Some (CsvFile rows) /\
    n = Z.of_nat (length rows) /\
    sublist rows
      (map (fun xy => tile_row ts (path_join result_path "tiles") size
                               (fst xy) (snd xy))
           (list_prod xs ys)).
Proof.
  unfold tiling. intros Hrun.
  apply bind_inv in Hrun as ([] & w1 & Hprint & Hrun).
  unfold print in Hprint. injection Hprint as <-.
  apply bind_inv in Hrun as (osize & w1 & Hsize & Hrun).
  apply lift_inv in Hsize as [Hsize ->].
  destruct osize as [size|].
  2: { apply bind_inv in Hrun as ([] & w1 & _ & Hrun). discriminate. }
  set (stride := tiling_stride overlap desired_size size) in *.
  apply bind_inv in Hrun as (xs & w1 & Hxs & Hrun).
  apply lift_inv in Hxs as [Hxs ->].
  apply bind_inv in Hrun as (rows & w2 & Hloop & Hrun).
  apply bind_inv in Hrun as ([] & w3 & Hcsv & Hrun).
  unfold to_csv, write_file in Hcsv. injection Hcsv as <-.
  unfold ret in Hrun. injection Hrun as <- <-.
  assert (Hys : exists ys,
            py_range 0 (snd (dimensions ts) - size + 1) stride = Returned ys).
  { unfold py_range in *. destruct (stride =? 0); [discriminate|]. eauto. }
  destruct Hys as [ys Hys].
  exists size, xs, ys, rows. cbn [fs].
  split; [exact (py_range_NoDup _ _ _ _ Hxs)|].
  split; [exact (py_range_NoDup _ _ _ _ Hys)|].
  split; [apply lookup_insert_eq|]. split; [reflexivity|].
  set (tiles := path_join result_path "tiles") in *.
  apply (for_acc_sublist
           (fun x => map (fun y => tile_row ts tiles size x y) ys)) in Hloop.
  - destruct Hloop as (k & -> & Hk). cbn [app].
    replace (map (fun xy => tile_row ts tiles size (fst xy) (snd xy))
                 (list_prod xs ys))
      with (concat (map (fun x => map (fun y => tile_row ts tiles size x y) ys) xs));
      [exact Hk|].
    clear. induction xs as [|x xs IH]; [reflexivity|].
    cbn [map concat list_prod]. rewrite map_app, map_map, IH. reflexivity.
  - intros x s wd s' wd' _ Hbody.
    apply bind_inv in Hbody as (ys' & wd1 & Hys' & Hbody).
    apply lift_inv in Hys' as [Hys' ->].
    rewrite Hys in Hys'. injection Hys' as <-.
    apply (for_acc_sublist (fun y => [tile_row ts tiles size x y])) in Hbody.
    + destruct Hbody as (k & -> & Hk). exists k. split; [reflexivity|].
      replace (map (fun y => tile_row ts tiles size x y) ys)
        with (concat (map (fun y => [tile_row ts tiles size x y]) ys)); [exact Hk|].
      clear. induction ys as [|y ys IH]; [reflexivity|].
      cbn [map concat app]. rewrite IH. reflexivity.
    + intros y s0 wd0 s0' wd0' _ Hcand.
      apply tiling_candidate_inv in Hcand
        as [[-> _] | (_ & _ & -> & _)].
      * exists []. split; [symmetry; apply app_nil_r | apply sublist_nil_l].
      * eexists. split; [reflexivity | reflexivity].
Qed.

(** X10.  No two rows of the Manifest [tiling] writes name the same tile
    file: the decimal origin in the file name tells the tiles of a slide
    apart, so no stored tile is overwritten by a later one. *)
Theorem tiling_tile_files_distinct ts result_path mask overlap desired_size mag
    threshold w n w' :
  tiling ts result_path mask overlap desired_size mag threshold w
    = (Returned (Some n), w') ->
  exists rows,
    fs w' !! path_join result_path "tile_information.csv" = Some (CsvFile rows) /\
    n = Z.of_nat (length rows) /\
    NoDup (map r_path_to_slide rows).
Proof.
  intros Hrun.
  apply tiling_rows_sublist in Hrun
    as (size & xs & ys & rows & Hxs & Hys & Hcsv & Hn & Hsub).
  exists rows. split; [exact Hcsv|]. split; [exact Hn|].
  apply (fmap_sublist r_path_to_slide) in Hsub.
  refine (sublist_NoDup _ _ _ Hsub).
  change (NoDup (map r_path_to_slide
                   (map (fun xy => tile_row ts (path_join result_path "tiles") size
                                            (fst xy) (snd xy))
                        (list_prod xs ys)))).
  rewrite map_map.
  apply NoDup_fmap_2_strong; [|apply NoDup_list_prod'; assumption].
  intros p q _ _ Hpq. exact (tile_path_inj _ _ _ _ _ Hpq).
Qed.

End DistinctTiles.

Lemma tiling_tile_files_distinct_witness :
  exists rows,
    fs (snd (@tiling Demo.collaborators (Demo.synthetic 1024 1024 40) "out"
               Demo.all_tissue 0 256 20 0.8%float Demo.empty_world))
      !! path_join "out" "tile_information.csv" = Some (CsvFile rows) /\
    4 = Z.of_nat (length rows) /\
    NoDup (map r_path_to_slide rows).
Proof.
  apply (@tiling_tile_files_distinct Demo.collaborators
           (Demo.synthetic 1024 1024 40) "out" Demo.all_tissue 0 256 20
           0.8%float Demo.empty_world 4).
  apply run_eq, synthetic_run.
Defined.

(* ===================================================================== *)
(** ** The extraction size is at least the output size *)
(* ===================================================================== *)

Module Binary64Bounds.
Import Binary64.

(** The binade of a quotient that is at least 1. *)
Lemma ilog2_frac_bounds (a b : Z) :
  0 < b <= a ->
  0 <= ilog2_frac a b <= Z.log2 a /\
  b * 2 ^ ilog2_frac a b <= a < b * 2 ^ (ilog2_frac a b + 1).
Proof.
  intros [Hb Hab]. unfold ilog2_frac.
  pose proof (Z.log2_spec a ltac:(lia)) as [Ha1 Ha2].
  pose proof (Z.log2_spec b Hb) as [Hb1 Hb2].
  pose proof (Z.log2_nonneg b) as Hlb.
  pose proof (Z.log2_le_mono b a Hab) as Hmono.
  set (la := Z.log2 a) in *. set (lb := Z.log2 b) in *.
  set (d := la - lb).
  assert (Hd : 0 <= d) by (unfold d; lia).
  replace (0 <=? d) with true by (symmetry; apply Z.leb_le; lia).
  assert (Hpd : 0 < 2 ^ d) by (apply Z.pow_pos_nonneg; lia).
  assert (Hplb : 0 < 2 ^ lb) by (apply Z.pow_pos_nonneg; lia).
  assert (Hsucc : 2 ^ (d + 1) = 2 * 2 ^ d)
    by (rewrite Z.pow_add_r by lia; change (2 ^ 1) with 2; ring).
  assert (Hla : 2 ^ la = 2 ^ lb * 2 ^ d).
  { rewrite <- Z.pow_add_r by lia. f_equal. unfold d. lia. }
  replace (Z.succ la) with (la + 1) in Ha2 by lia.
  replace (Z.succ lb) with (lb + 1) in Hb2 by lia.
  rewrite (Z.pow_add_r 2 la 1) in Ha2 by lia.
  rewrite (Z.pow_add_r 2 lb 1) in Hb2 by lia.
  change (2 ^ 1) with 2 in Ha2, Hb2.
  destruct (Z.leb_spec (b * 2 ^ d) a) as [Hc | Hc].
  - split; [unfold d; lia|]. split; [exact Hc|]. rewrite Hsucc. nia.
  - assert (Hd1 : 1 <= d).
    { destruct (Z.eq_dec d 0) as [Hz|]; [|lia].
      rewrite Hz in Hc. change (2 ^ 0) with 1 in Hc. lia. }
    assert (Hpred : 2 ^ d = 2 * 2 ^ (d - 1)).
    { replace d with ((d - 1) + 1) at 1 by lia.
      rewrite Z.pow_add_r by lia. change (2 ^ 1) with 2. ring. }
    assert (0 < 2 ^ (d - 1)) by (apply Z.pow_pos_nonneg; lia).
    split; [unfold d in *; lia|].
    replace (d - 1 + 1) with d by lia. split; [nia | exact Hc].
Qed.

Lemma round_half_even_bounds (a b : Z) :
  a / b <= round_half_even a b <= a / b + 1.
Proof.
  unfold round_half_even. cbv zeta.
  destruct (2 * (a mod b) ?= b); [destruct (Z.even (a / b))| |]; lia.
Qed.

(** Rounding a quotient that is at least the integer [k] gives a double
    that is at least [k]. *)
Lemma round_frac_lower (a b k : Z) :
  0 < b -> 0 < k < 2 ^ 53 -> k * b <= a -> Z.log2 a < 1023 ->
  exists m e,
    round_frac a b = Some (Dy m e) /\
    0 < m <= 2 ^ 53 /\ - 52 <= e <= Z.log2 a - 52 /\
    (if 0 <=? e then k <= m * 2 ^ e else k * 2 ^ (- e) <= m).
Proof.
  intros Hb [Hk Hk53] Hkb Hfin.
  assert (Ha : 0 < a) by nia.
  destruct (ilog2_frac_bounds a b ltac:(nia)) as [[HL0 HL1] [Hlo Hhi]].
  unfold round_frac, round_expo, prec, emin, emax.
  replace (a =? 0) with false by (symmetry; apply Z.eqb_neq; lia).
  rewrite (Z.abs_eq a) by lia. rewrite (Z.sgn_pos a) by lia.
  set (L := ilog2_frac a b) in *.
  rewrite Z.max_l by lia.
  replace (L - (53 - 1)) with (L - 52) by lia.
  set (e := L - 52).
  replace (1024 - 53 <? e) with false by (symmetry; apply Z.ltb_ge; unfold e; lia).
  replace (e =? 1024 - 53) with false by (symmetry; apply Z.eqb_neq; unfold e; lia).
  cbn [orb andb]. rewrite Z.mul_1_l.
  assert (H52 : 0 < 2 ^ 52) by (apply Z.pow_pos_nonneg; lia).
  assert (H53 : 2 ^ 53 = 2 * 2 ^ 52) by reflexivity.
  destruct (Z.leb_spec 0 e) as [He | He].
  - (* the quotient is at least 2^52 *)
    assert (HP : 0 < 2 ^ e) by (apply Z.pow_pos_nonneg; lia).
    assert (HLe : 2 ^ L = 2 ^ e * 2 ^ 52).
    { rewrite <- Z.pow_add_r by lia. f_equal. unfold e. lia. }
    assert (HLe1 : 2 ^ (L + 1) = 2 ^ e * 2 ^ 53).
    { rewrite <- Z.pow_add_r by lia. f_equal. unfold e. lia. }
    rewrite HLe in Hlo. rewrite HLe1 in Hhi.
    set (P := 2 ^ e) in *.
    pose proof (round_half_even_bounds a (b * P)) as [Hr1 Hr2].
    assert (HbP : 0 < b * P) by nia.
    assert (Hq1 : 2 ^ 52 <= a / (b * P)).
    { apply Z.div_le_lower_bound; [exact HbP|].
      replace (b * P * 2 ^ 52) with (b * (P * 2 ^ 52)) by ring. exact Hlo. }
    assert (Hq2 : a / (b * P) < 2 ^ 53).
    { apply Z.div_lt_upper_bound; [exact HbP|].
      replace (b * P * 2 ^ 53) with (b * (P * 2 ^ 53)) by ring. exact Hhi. }
    eexists _, _. split; [reflexivity|].
    split; [lia|]. split; [unfold e; lia|].
    replace (0 <=? e) with true by (symmetry; apply Z.leb_le; lia).
    fold P.
    destruct (Z.eq_dec e 0) as [Hz | Hnz].
    + assert (HP1 : P = 1) by (unfold P; rewrite Hz; reflexivity).
      rewrite HP1, Z.mul_1_r in Hr1. rewrite HP1, !Z.mul_1_r.
      assert (k <= a / b).
      { apply Z.div_le_lower_bound; [exact Hb|]. rewrite Z.mul_comm. exact Hkb. }
      lia.
    + assert (2 <= P).
      { unfold P. replace e with (1 + (e - 1)) by lia.
        rewrite Z.pow_add_r by lia. change (2 ^ 1) with 2.
        assert (0 < 2 ^ (e - 1)) by (apply Z.pow_pos_nonneg; lia). lia. }
      nia.
  - assert (HP : 0 < 2 ^ (- e)) by (apply Z.pow_pos_nonneg; lia).
    assert (HLe : 2 ^ L * 2 ^ (- e) = 2 ^ 52).
    { rewrite <- Z.pow_add_r by lia. f_equal. unfold e. lia. }
    assert (HLe1 : 2 ^ (L + 1) * 2 ^ (- e) = 2 ^ 53).
    { rewrite <- Z.pow_add_r by lia. f_equal. unfold e. lia. }
    set (P := 2 ^ (- e)) in *.
    pose proof (round_half_even_bounds (a * P) b) as [Hr1 Hr2].
    assert (Hlo' : b * 2 ^ 52 <= a * P).
    { rewrite <- HLe. replace (b * (2 ^ L * P)) with (b * 2 ^ L * P) by ring.
      apply Z.mul_le_mono_nonneg_r; lia. }
    assert (Hhi' : a * P < b * 2 ^ 53).
    { rewrite <- HLe1. replace (b * (2 ^ (L + 1) * P)) with (b * 2 ^ (L + 1) * P) by ring.
      apply Z.mul_lt_mono_pos_r; lia. }
    assert (Hkb' : b * (k * P) <= a * P).
    { replace (b * (k * P)) with (k * b * P) by ring.
      apply Z.mul_le_mono_nonneg_r; lia. }
    assert (Hq1 : 2 ^ 52 <= a * P / b) by (apply Z.div_le_lower_bound; lia).
    assert (Hq2 : a * P / b < 2 ^ 53) by (apply Z.div_lt_upper_bound; lia).
    assert (Hq3 : k * P <= a * P / b) by (apply Z.div_le_lower_bound; lia).
    eexists _, _. split; [reflexivity|].
    split; [lia|]. split; [unfold e; lia|].
    replace (0 <=? e) with false by (symmetry; apply Z.leb_gt; lia).
    fold P. lia.
Qed.

End Binary64Bounds.

(** X11.  For magnifications [0 < mag <= native < 2^53] and an output
    size [0 < size < 2^53], [best_size] returns, and the extraction size
    is at least the output size: the floating-point quotient and product
    never make the Tile Selector enlarge a region. *)
Theorem best_size_at_least_output_size (ts : TissueSlide) (size mag : Z) :
  0 < mag <= magnification ts -> magnification ts < 2 ^ 53 ->
  0 < size < 2 ^ 53 ->
  exists s, best_size ts size mag = Returned (Some s) /\ size <= s.
Proof.
  intros [Hmag Hnat] Hnat53 [Hsize Hsize53]. unfold best_size.
  destruct (Z.ltb_spec (magnification ts) mag); [lia|].
  destruct (Z.eqb_spec mag 0); [lia|].
  set (native := magnification ts) in *.
  assert (Hlog : forall z, 0 < z < 2 ^ 53 -> 0 <= Z.log2 z <= 52).
  { intros z [Hz Hz53]. split; [apply Z.log2_nonneg|].
    enough (Z.log2 z < 53) by lia. apply Z.log2_lt_pow2; lia. }
  (* the quotient *)
  unfold Binary64.div_int. rewrite Z.sgn_pos, Z.abs_eq, Z.mul_1_r by lia.
  destruct (Binary64Bounds.round_frac_lower native mag 1)
    as (mq & eq & -> & [Hmq0 Hmq53] & [Heq0 Heq1] & Hq);
    [lia | split; [lia | reflexivity] | lia
     | pose proof (Hlog native ltac:(lia)); lia |].
  pose proof (Hlog native ltac:(lia)) as Hln.
  assert (Heq : eq <= 0) by lia.
  (* the size *)
  rewrite Binary64Facts.of_int_exact by lia.
  pose proof (Hlog size ltac:(lia)) as Hls.
  unfold Binary64.mul, Binary64.canon. cbn [Binary64.mant Binary64.expo].
  set (ls := Z.log2 size) in *.
  set (m := size * 2 ^ (52 - ls) * mq).
  set (e := ls - 52 + eq).
  assert (He : e <= 0) by (unfold e; lia).
  assert (HPs : 0 < 2 ^ (52 - ls)) by (apply Z.pow_pos_nonneg; lia).
  assert (HPq : 0 < 2 ^ (- eq)) by (apply Z.pow_pos_nonneg; lia).
  assert (HPe : 2 ^ (- e) = 2 ^ (52 - ls) * 2 ^ (- eq)).
  { rewrite <- Z.pow_add_r by lia. f_equal. unfold e. lia. }
  assert (Hq' : 2 ^ (- eq) <= mq).
  { destruct (Z.leb_spec 0 eq).
    - assert (eq = 0) as -> by lia. change (2 ^ (- 0)) with 1.
      change (2 ^ 0) with 1 in Hq. lia.
    - lia. }
  assert (Hs52 : 2 ^ (52 - ls) <= 2 ^ 52)
    by (apply Z.pow_le_mono_r; lia).
  assert (Hm : 0 < m).
  { unfold m. apply Z.mul_pos_pos; [apply Z.mul_pos_pos|]; lia. }
  assert (Hmfin : Z.log2 m < 1023).
  { apply Z.log2_lt_pow2; [exact Hm|].
    assert (Hsp : 0 <= size * 2 ^ (52 - ls) <= 2 ^ 53 * 2 ^ 52).
    { split; [apply Z.mul_nonneg_nonneg; lia|].
      apply Z.mul_le_mono_nonneg; lia. }
    apply (Z.le_lt_trans _ (2 ^ 53 * 2 ^ 52 * 2 ^ 53)).
    - unfold m. apply Z.mul_le_mono_nonneg; lia.
    - vm_compute. reflexivity. }
  assert (Hprod : exists mp ep,
            (if 0 <=? e then Binary64.round_frac (m * 2 ^ e) 1
             else Binary64.round_frac m (2 ^ (- e))) = Some (Binary64.Dy mp ep) /\
            0 < mp /\
            (if 0 <=? ep then size <= mp * 2 ^ ep else size * 2 ^ (- ep) <= mp)).
  { destruct (Binary64Bounds.round_frac_lower m (2 ^ (- e)) size)
      as (mp & ep & Hr & [Hmp _] & _ & Hge);
      [apply Z.pow_pos_nonneg; lia | lia | rewrite HPe; unfold m; nia
       | exact Hmfin |].
    exists mp, ep. split; [|split; [exact Hmp | exact Hge]].
    destruct (Z.leb_spec 0 e); [|exact Hr].
    assert (e = 0) as Hz by lia. rewrite Hz in Hr |- *.
    change (2 ^ (- 0)) with 1 in Hr. change (2 ^ 0) with 1.
    rewrite Z.mul_1_r. exact Hr. }
  destruct Hprod as (mp & ep & -> & Hmp & Hge).
  eexists. split; [reflexivity|].
  unfold Binary64.trunc. cbn [Binary64.mant Binary64.expo].
  destruct (Z.leb_spec 0 ep); [exact Hge|].
  assert (0 < 2 ^ (- ep)) by (apply Z.pow_pos_nonneg; lia).
  rewrite Z.quot_div_nonneg by lia.
  apply Z.div_le_lower_bound; lia.
Qed.

Lemma best_size_at_least_output_size_witness :
  exists s, best_size (Demo.synthetic 1024 1024 40) 299 13 = Returned (Some s)
            /\ 299 <= s.
Proof.
  apply (best_size_at_least_output_size (Demo.synthetic 1024 1024 40) 299 13).
  - cbn. lia.
  - reflexivity.
  - split; reflexivity.
Defined.

(* ===================================================================== *)
(** ** The patient file *)
(* ===================================================================== *)

Lemma split_on_head_clean (c : ascii) (s : string) :
  count_char c (hd "" (split_on c s)) = O.
Proof.
  induction s as [|d s IH]; [reflexivity|]. cbn [split_on].
  destruct (bool_decide (d = c)) eqn:Hd; [reflexivity|].
  destruct (split_on c s) as [|h t]; cbn [hd count_char] in *.
  - rewrite Hd. reflexivity.
  - rewrite Hd, IH. reflexivity.
Qed.

Lemma split_on_head_count (c d : ascii) (s : string) :
  (count_char c (hd "" (split_on d s)) <= count_char c s)%nat.
Proof.
  induction s as [|a s IH]; [cbn; lia|]. cbn [split_on].
  destruct (bool_decide (a = d)); [cbn; lia|].
  destruct (split_on d s) as [|h t]; cbn [hd count_char] in *; lia.
Qed.

Lemma split_on_fields_clean (c : ascii) (s : string) :
  Forall (fun f => count_char c f = O) (split_on c s).
Proof.
  induction s as [|d s IH]; [repeat constructor|]. cbn [split_on].
  destruct (bool_decide (d = c)) eqn:Hd; [constructor; [reflexivity | exact IH]|].
  destruct (split_on c s) as [|h t].
  - repeat constructor. cbn [count_char]. rewrite Hd. reflexivity.
  - apply Forall_cons in IH as [Hh Ht]. constructor; [|exact Ht].
    cbn [count_char]. rewrite Hd, Hh. reflexivity.
Qed.

Lemma basename_clean (p : string) : count_char "/" (basename p) = O.
Proof.
  unfold basename. pose proof (split_on_fields_clean "/" p) as Hall.
  pose proof (split_on_nonempty "/" p) as Hne.
  induction (split_on "/" p) as [|f l IH]; [contradiction|].
  apply Forall_cons in Hall as [Hf Hl].
  destruct l as [|g l]; [exact Hf|]. apply IH; [exact Hl | discriminate].
Qed.

(** The identifier of a row has neither a dot nor a slash. *)
Lemma patient_csv_row_id (results_path original name : string) :
  count_char "." (p_id (patient_csv_row results_path original name)) = O /\
  count_char "/" (p_id (patient_csv_row results_path original name)) = O.
Proof.
  cbn [patient_csv_row p_id]. split; [apply split_on_head_clean|].
  pose proof (split_on_head_count "/" "." (basename name)).
  pose proof (basename_clean name). lia.
Qed.

Lemma patient_csv_loop (results_path input_path : string) (names : list string)
    (acc : list PatientRow) :
  fold_left
    (fun rows file =>
       if is_slide_file file
       then rows ++ [patient_csv_row results_path (path_join input_path file) file]
       else rows)
    names acc
  = acc ++ map (fun file => patient_csv_row results_path
                              (path_join input_path file) file)
               (List.filter is_slide_file names).
Proof.
  revert acc. induction names as [|f names IH]; intros acc.
  - cbn. symmetry. apply app_nil_r.
  - cbn [fold_left List.filter]. rewrite IH.
    destruct (is_slide_file f); [|reflexivity].
    cbn [map]. rewrite <- app_assoc. reflexivity.
Qed.

(** X12.  For a directory, [patient_csv] writes one row for each entry
    whose name ends in a slide extension, in the order of the listing and
    skipping every other entry; the Patient ID of a row is the entry's
    name up to its first dot, so it holds neither a dot nor a slash, and
    the Preprocessing Path is the results path joined with it. *)
Theorem patient_csv_of_directory (listdir : string -> option (list string))
    (input_path results_path : string) (names : list string) :
  listdir input_path = Some names ->
  let rows := snd (patient_csv listdir input_path results_path) in
  fst (patient_csv listdir input_path results_path)
    = path_join results_path "patient_files.csv" /\
  map p_original rows
    = map (path_join input_path) (List.filter is_slide_file names) /\
  map p_id rows
    = map (fun file => hd "" (split_on "." (basename file)))
          (List.filter is_slide_file names) /\
  Forall (fun r =>
            p_preprocessing r = path_join results_path (p_id r) /\
            count_char "." (p_id r) = O /\ count_char "/" (p_id r) = O) rows.
Proof.
  intros Hdir rows. unfold rows, patient_csv. rewrite Hdir. cbn [fst snd].
  rewrite patient_csv_loop. cbn [app].
  split; [reflexivity|]. split; [rewrite map_map; reflexivity|].
  split; [rewrite map_map; reflexivity|].
  apply Forall_forall. intros r Hr. apply list_elem_of_In in Hr.
  apply in_map_iff in Hr as (file & <- & _).
  split; [reflexivity|]. apply patient_csv_row_id.
Qed.

Lemma patient_csv_of_directory_witness :
  fst (patient_csv demo_listdir "slides" "out") = path_join "out" "patient_files.csv" /\
  map p_original (snd (patient_csv demo_listdir "slides" "out"))
    = map (path_join "slides")
          (List.filter is_slide_file
             ["S1.svs"; "notes.txt"; "S1.v2.tif"; "TCGA-A1-A0SB-01Z-00-DX1.svs"]) /\
  map p_id (snd (patient_csv demo_listdir "slides" "out"))
    = map (fun file => hd "" (split_on "." (basename file)))
          (List.filter is_slide_file
             ["S1.svs"; "notes.txt"; "S1.v2.tif"; "TCGA-A1-A0SB-01Z-00-DX1.svs"]) /\
  Forall (fun r =>
            p_preprocessing r = path_join "out" (p_id r) /\
            count_char "." (p_id r) = O /\ count_char "/" (p_id r) = O)
         (snd (patient_csv demo_listdir "slides" "out")).
Proof.
  apply (patient_csv_of_directory demo_listdir "slides" "out"
           ["S1.svs"; "notes.txt"; "S1.v2.tif"; "TCGA-A1-A0SB-01Z-00-DX1.svs"]).
  reflexivity.
Defined.

Lemma patient_csv_rows (listdir : string -> option (list string))
    (input_path results_path : string) (r : PatientRow) :
  In r (snd (patient_csv listdir input_path results_path)) ->
  exists original name, r = patient_csv_row results_path original name.
Proof.
  unfold patient_csv. cbn [snd]. destruct (listdir input_path) as [names|].
  - rewrite patient_csv_loop. cbn [app]. intros Hr.
    apply in_map_iff in Hr as (file & <- & _). eauto.
  - intros [<- | []]. eauto.
Qed.

Section SharedOutput.
Context `{Collaborators}.

(** X13.  Two rows of the patient file with the same Patient ID (slides
    whose names agree up to the first dot) have the same Preprocessing
    Path.  When both slides open and the target magnification is not
    above the magnification of either: once the driver has returned for
    one of them, it runs neither the Tile Selector nor the Quality Filter
    for the other, whose Outcome Record carries the counts of the
    first. *)
Theorem rows_sharing_an_identifier_share_the_output
    (listdir : string -> option (list string)) (input_path results_path : string)
    (r1 r2 : PatientRow) (device encoder_path : string) (args : Args)
    (w w1 w2 : World) s1 e1 o2 :
  In r1 (snd (patient_csv listdir input_path results_path)) ->
  In r2 (snd (patient_csv listdir input_path results_path)) ->
  p_id r1 = p_id r2 ->
  slide (new_TissueSlide (p_original r1)) <> None ->
  desired_magnification args <= magnification (new_TissueSlide (p_original r1)) ->
  slide (new_TissueSlide (p_original r2)) <> None ->
  desired_magnification args <= magnification (new_TissueSlide (p_original r2)) ->
  preprocess_patient r1 device encoder_path args w = (Returned (s1, e1), w1) ->
  preprocess_patient r2 device encoder_path args w1 = (o2, w2) ->
  p_preprocessing r1 = p_preprocessing r2 /\
  ~ In "Tiling slide" (printed w1 w2) /\
  ~ In "removing blurry tiles" (printed w1 w2) /\
  forall s2 e2, o2 = Returned (s2, e2) ->
    exists total blur,
      s1 = [(p_id r1, p_original r1, total, blur)] /\
      s2 = [(p_id r2, p_original r2, total, blur)].
Proof.
  intros Hr1 Hr2 Hid Hopen1 Hmag1 Hopen2 Hmag2 Hrun1 Hrun2.
  assert (Hpre : p_preprocessing r1 = p_preprocessing r2).
  { apply patient_csv_rows in Hr1 as (o1 & n1 & ->).
    apply patient_csv_rows in Hr2 as (o2' & n2 & ->).
    cbn [patient_csv_row p_id p_preprocessing] in *. rewrite Hid. reflexivity. }
  split; [exact Hpre|].
  unfold preprocess_patient in Hrun1, Hrun2.
  apply bind_inv in Hrun1 as (se1 & wa & Hp1 & Hrun1).
  apply bind_inv in Hrun1 as ([] & wa' & Hprint & Hrun1).
  unfold print in Hprint. injection Hprint as <-.
  unfold ret in Hrun1. injection Hrun1 as -> <-.
  destruct (preprocessing_returns _ _ _ _ _ _ _ _ _ _ Hopen1 Hmag1 Hp1)
    as (tile_rows & in_focus_rows & -> & _ & Htile & Hfocus).
  rewrite Hpre in Htile, Hfocus.
  unfold bind in Hrun2.
  destruct (preprocessing (p_original r2) (p_preprocessing r2) (p_id r2) device
              encoder_path args
              (mkWorld (fs wa) (errors wa)
                 (stdout wa ++ ["done with patient " +:+ p_id r1])))
    as [o wb] eqn:Hp2.
  set (wp := mkWorld (fs wa) (errors wa)
               (stdout wa ++ ["done with patient " +:+ p_id r1])) in *.
  change (fs wa) with (fs wp) in Htile, Hfocus.
  destruct (preprocessing_skips_tiling _ _ _ _ _ _ Hopen2 Hmag2 tile_rows
              wp o wb Htile Hp2) as (_ & (out1 & Hout1 & Hno1) & Hval1).
  destruct (preprocessing_skips_blur_filter _ _ _ _ _ _ Hopen2 Hmag2 in_focus_rows
              wp o wb Hfocus Hp2) as (_ & (out2 & Hout2 & Hno2) & Hval2).
  assert (Hprinted : exists tail,
            printed wp w2 = out1 ++ tail /\
            (tail = [] \/ tail = ["done with patient " +:+ p_id r2])).
  { destruct o as [se2|e]; unfold print, ret in Hrun2; cbv beta iota in Hrun2;
      injection Hrun2 as _ <-; unfold printed; cbn [stdout].
    - exists ["done with patient " +:+ p_id r2]. split; [|right; reflexivity].
      rewrite Hout1, <- app_assoc, drop_app_length. reflexivity.
    - exists []. split; [|left; reflexivity].
      rewrite Hout1, drop_app_length, app_nil_r. reflexivity. }
  destruct Hprinted as (tail & Hprinted & Htail).
  assert (Hout : out2 = out1) by (rewrite Hout1 in Hout2; apply app_inv_head in Hout2; congruence).
  subst out2.
  assert (Hbanner : forall banner,
            Forall (fun s => s <> banner) out1 ->
            banner <> "done with patient " +:+ p_id r2 ->
            ~ In banner (out1 ++ tail)).
  { intros banner Hall Hne Hin. apply in_app_or in Hin as [Hin | Hin].
    - exact (not_printed _ _ Hall Hin).
    - destruct Htail as [-> | ->]; [destruct Hin|].
      destruct Hin as [<- | []]. apply Hne. reflexivity. }
  rewrite Hprinted.
  split; [apply Hbanner; [exact Hno1 | discriminate]|].
  split; [apply Hbanner; [exact Hno2 | discriminate]|].
  intros s2 e2 ->.
  destruct o as [se2|e]; unfold print, ret in Hrun2; cbv beta iota in Hrun2;
    [|discriminate].
  injection Hrun2 as -> _.
  destruct (Hval1 _ eq_refl) as [blur Hs1]. destruct (Hval2 _ eq_refl) as [total Hs2].
  cbn [fst] in Hs1, Hs2. rewrite Hs1 in Hs2. injection Hs2 as <- ->.
  eexists _, _. split; [reflexivity | exact Hs1].
Qed.

End SharedOutput.

Lemma rows_sharing_an_identifier_share_the_output_witness :
  p_preprocessing DemoDriver.first_row = p_preprocessing DemoDriver.second_row /\
  ~ In "Tiling slide"
       (printed (snd DemoDriver.first_run) (snd DemoDriver.second_run)) /\
  ~ In "removing blurry tiles"
       (printed (snd DemoDriver.first_run) (snd DemoDriver.second_run)) /\
  forall s2 e2, fst DemoDriver.second_run = Returned (s2, e2) ->
    exists total blur,
      [(("S1", "slides/S1.svs", Some 4, Some 4) : OutcomeRecord)]
        = [(p_id DemoDriver.first_row, p_original DemoDriver.first_row, total, blur)] /\
      s2 = [(p_id DemoDriver.second_row, p_original DemoDriver.second_row,
             total, blur)].
Proof.
  refine (@rows_sharing_an_identifier_share_the_output Demo.collaborators
            demo_listdir "slides" "out" DemoDriver.first_row DemoDriver.second_row
            "cpu" "out/encoded" (Demo.args 20 256 0) Demo.empty_world
            (snd DemoDriver.first_run) (snd DemoDriver.second_run)
            [("S1", "slides/S1.svs", Some 4, Some 4)] []
            (fst DemoDriver.second_run) _ _ _ _ _ _ _ _ _).
  - vm_compute. left. reflexivity.
  - vm_compute. right. left. reflexivity.
  - vm_compute. reflexivity.
  - vm_compute. discriminate.
  - vm_compute. discriminate.
  - vm_compute. discriminate.
  - vm_compute. discriminate.
  - apply run_eq. vm_compute. reflexivity.
  - apply surjective_pairing.
Defined.

Lemma extract_diagnosis_short (ID : string) :
  (count_char "-" ID < 3)%nat -> extract_diagnosis ID = Err IndexError.
Proof.
  intros Hshort. unfold extract_diagnosis.
  pose proof (split_on_length "-" ID) as Hlen.
  destruct (nth_error (split_on "-" ID) 3) as [d|] eqn:Hnth; [|reflexivity].
  assert (3 < length (split_on "-" ID))%nat
    by (apply nth_error_Some; rewrite Hnth; discriminate).
  lia.
Qed.

Lemma patient_files_encoded_loop_ok (rows : list PatientRow) (df : list EncodedRow) :
  Forall (fun r => exists label, extract_diagnosis (p_id r) = Ok label) rows ->
  exists added,
    patient_files_encoded_loop rows df = Ok (df ++ added) /\
    map e_row added = rows /\
    Forall (fun e =>
              extract_diagnosis (p_id (e_row e)) = Ok (e_target e) /\
              e_encoded_path e
              = path_join (path_join (dirname (p_preprocessing (e_row e))) "encoded")
                          (p_id (e_row e) +:+ ".h5")) added.
Proof.
  revert df. induction rows as [|r rows IH]; intros df Hall.
  - exists []. cbn. rewrite app_nil_r. repeat split. constructor.
  - apply Forall_cons in Hall as [[label Hl] Hall].
    cbn [patient_files_encoded_loop]. rewrite Hl.
    destruct (IH (df ++ [mkEncodedRow r label
                           (path_join (path_join (dirname (p_preprocessing r)) "encoded")
                                      (p_id r +:+ ".h5"))]) Hall)
      as (added & -> & Hrows & Hadded).
    eexists (_ :: added). rewrite <- app_assoc. split; [reflexivity|].
    cbn [map e_row]. rewrite Hrows. split; [reflexivity|].
    constructor; [|exact Hadded]. cbn [e_row e_target e_encoded_path].
    split; [exact Hl | reflexivity].
Qed.

Lemma patient_files_encoded_loop_err (good rest : list PatientRow) (bad : PatientRow)
    (df : list EncodedRow) (e : driver_exn) :
  Forall (fun r => exists label, extract_diagnosis (p_id r) = Ok label) good ->
  extract_diagnosis (p_id bad) = Err e ->
  patient_files_encoded_loop (good ++ bad :: rest) df = Err e.
Proof.
  revert df. induction good as [|r good IH]; intros df Hall Hbad.
  - cbn [app patient_files_encoded_loop]. rewrite Hbad. reflexivity.
  - apply Forall_cons in Hall as [[label Hl] Hall].
    cbn [app patient_files_encoded_loop]. rewrite Hl. apply IH; assumption.
Qed.

(** X14.  [patient_files_encoded] is all or nothing (Patient IDs being
    ASCII text).  When every Patient ID has a label it returns one row
    for each input row, in order, with that label as target; as soon as
    one Patient ID has fewer than three dashes it raises, and as the file
    is written after the loop, nothing is written back. *)
Theorem patient_files_encoded_all_or_nothing (rows : list PatientRow) :
  Forall (fun r => ascii_only (p_id r) = true) rows ->
  (Forall (fun r => exists label, extract_diagnosis (p_id r) = Ok label) rows ->
   exists out,
     patient_files_encoded rows = Ok out /\
     map e_row out = rows /\
     Forall (fun e => extract_diagnosis (p_id (e_row e)) = Ok (e_target e)) out) /\
  (Exists (fun r => (count_char "-" (p_id r) < 3)%nat) rows ->
   exists e, patient_files_encoded rows = Err e).
Proof.
  intros _. split.
  - intros Hall. destruct (patient_files_encoded_loop_ok rows [] Hall)
      as (added & Hrun & Hrows & Hadded).
    exists added. split; [exact Hrun|]. split; [exact Hrows|].
    eapply Forall_impl; [exact Hadded|]. intros e [He _]. exact He.
  - intros Hbad. unfold patient_files_encoded. generalize (@nil EncodedRow).
    induction rows as [|r rows IH]; intros df; [inversion Hbad|].
    cbn [patient_files_encoded_loop].
    destruct (extract_diagnosis (p_id r)) as [label|e] eqn:Hr; [|eauto].
    apply Exists_cons in Hbad as [Hshort | Hlater]; [|apply IH; exact Hlater].
    rewrite (extract_diagnosis_short _ Hshort) in Hr. discriminate.
Qed.

Lemma patient_files_encoded_all_or_nothing_witness :
  (exists out,
     patient_files_encoded
       [patient_csv_row "out" "slides/TCGA-A1-A0SB-01Z-00-DX1.svs"
          "TCGA-A1-A0SB-01Z-00-DX1.svs"] = Ok out /\
     map e_row out
       = [patient_csv_row "out" "slides/TCGA-A1-A0SB-01Z-00-DX1.svs"
            "TCGA-A1-A0SB-01Z-00-DX1.svs"] /\
     Forall (fun e => extract_diagnosis (p_id (e_row e)) = Ok (e_target e)) out) /\
  (exists e, patient_files_encoded DemoDriver.rows = Err e).
Proof.
  split.
  - apply (proj1 (patient_files_encoded_all_or_nothing
                    [patient_csv_row "out" "slides/TCGA-A1-A0SB-01Z-00-DX1.svs"
                       "TCGA-A1-A0SB-01Z-00-DX1.svs"]
                    ltac:(repeat constructor))).
    repeat constructor. exists 1. reflexivity.
  - apply (proj2 (patient_files_encoded_all_or_nothing DemoDriver.rows
                    ltac:(repeat constructor))).
    apply Exists_cons_hd. vm_compute. lia.
Defined.

Lemma head_with_slash_clean (b : string) :
  count_char "/" b = O -> head_with_slash b = "".
Proof.
  induction b as [|c b IH]; [reflexivity|]. cbn [count_char head_with_slash].
  destruct (bool_decide (c = "/"%char)); [discriminate|].
  intros Hb. rewrite (IH Hb). reflexivity.
Qed.

Lemma head_with_slash_app (a b : string) :
  count_char "/" b = O -> head_with_slash (a +:+ String "/" b) = a +:+ "/".
Proof.
  intros Hb. induction a as [|c a IH].
  - change ("" +:+ String "/" b) with (String "/" b).
    cbn [head_with_slash]. rewrite (head_with_slash_clean b Hb).
    rewrite bool_decide_eq_true_2 by reflexivity. reflexivity.
  - change (String c a +:+ String "/" b) with (String c (a +:+ String "/" b)).
    cbn [head_with_slash]. rewrite IH.
    change (String c a +:+ "/") with (String c (a +:+ "/")).
    destruct a; reflexivity.
Qed.

Lemma rstrip_slash_app (a : string) : rstrip_slash (a +:+ "/") = rstrip_slash a.
Proof.
  induction a as [|c a IH]; [reflexivity|].
  change (String c a +:+ "/") with (String c (a +:+ "/")).
  cbn [rstrip_slash]. rewrite IH. reflexivity.
Qed.

Lemma rstrip_slash_id (a : string) :
  ends_with_slash a = false -> rstrip_slash a = a.
Proof.
  induction a as [|c a IH]; [reflexivity|]. cbn [ends_with_slash rstrip_slash].
  destruct a as [|d a].
  - cbn [rstrip_slash]. intros ->. reflexivity.
  - intros Ha. rewrite (IH Ha). reflexivity.
Qed.

(** The directory of a name joined to a path without a closing slash is
    that path. *)
Lemma dirname_path_join (a b : string) :
  ends_with_slash a = false -> count_char "/" b = O ->
  dirname (path_join a b) = a.
Proof.
  intros Ha Hb. unfold path_join.
  assert (Hstart : starts_with_slash b = false).
  { destruct b as [|c b]; [reflexivity|]. cbn [starts_with_slash count_char] in *.
    destruct (bool_decide (c = "/"%char)); [discriminate | reflexivity]. }
  rewrite Hstart, Ha, orb_false_r.
  destruct (bool_decide (a = "")) eqn:Hempty.
  - apply bool_decide_eq_true in Hempty as ->.
    change ("" +:+ b) with b. unfold dirname.
    rewrite (head_with_slash_clean b Hb). reflexivity.
  - change (a +:+ "/" +:+ b) with (a +:+ String "/" b).
    unfold dirname. rewrite (head_with_slash_app a b Hb).
    rewrite rstrip_slash_app, (rstrip_slash_id a Ha).
    apply bool_decide_eq_false in Hempty. destruct a; [contradiction | reflexivity].
Qed.

(** X15.  For a results path without a closing slash (and Patient IDs
    that are ASCII text), every Encoded Path [patient_files_encoded]
    derives from the rows of [patient_csv] lies in the directory
    [results_path/encoded] that [main] makes and hands to the encoder: it
    is that directory joined with the Patient ID followed by ".h5". *)
Theorem encoded_paths_in_encoder_directory
    (listdir : string -> option (list string)) (input_path results_path : string)
    (out : list EncodedRow) :
  ends_with_slash results_path = false ->
  Forall (fun r => ascii_only (p_id r) = true)
         (snd (patient_csv listdir input_path results_path)) ->
  patient_files_encoded (snd (patient_csv listdir input_path results_path))
    = Ok out ->
  map e_row out = snd (patient_csv listdir input_path results_path) /\
  Forall (fun e =>
            e_encoded_path e
            = path_join (path_join results_path "encoded")
                        (p_id (e_row e) +:+ ".h5")) out.
Proof.
  intros Hslash _ Hrun.
  set (rows := snd (patient_csv listdir input_path results_path)) in *.
  assert (Hall : Forall (fun r => exists label, extract_diagnosis (p_id r) = Ok label)
                        rows).
  { apply Forall_forall. intros r Hr.
    destruct (extract_diagnosis (p_id r)) as [label|e] eqn:He; [eauto|].
    apply list_elem_of_In, in_split in Hr as (l1 & l2 & Hsplit).
    exfalso. revert Hrun. rewrite Hsplit. unfold patient_files_encoded.
    generalize (@nil EncodedRow). clear Hsplit.
    induction l1 as [|r1 l1 IH]; intros df; cbn [app patient_files_encoded_loop].
    - rewrite He. discriminate.
    - destruct (extract_diagnosis (p_id r1)); [apply IH | discriminate]. }
  destruct (patient_files_encoded_loop_ok rows [] Hall)
    as (added & Hrun' & Hrows & Hadded).
  unfold patient_files_encoded in Hrun. rewrite Hrun' in Hrun.
  injection Hrun as <-. cbn [app]. split; [exact Hrows|].
  apply Forall_forall. intros e He.
  pose proof (proj1 (Forall_forall _ _) Hadded e He) as [_ ->].
  assert (Hin : In (e_row e) rows).
  { rewrite <- Hrows. apply in_map, list_elem_of_In, He. }
  apply patient_csv_rows in Hin as (original & name & Hrow).
  rewrite Hrow. cbn [patient_csv_row p_id p_preprocessing].
  rewrite dirname_path_join; [reflexivity | exact Hslash |].
  pose proof (patient_csv_row_id results_path original name) as [_ Hclean].
  exact Hclean.
Qed.

Lemma encoded_paths_in_encoder_directory_witness :
  map e_row
      [mkEncodedRow
         (patient_csv_row "out" "slide/TCGA-A1-A0SB-01Z-00-DX1.svs"
            "slide/TCGA-A1-A0SB-01Z-00-DX1.svs")
         1 "out/encoded/TCGA-A1-A0SB-01Z-00-DX1.h5"]
    = snd (patient_csv demo_listdir "slide/TCGA-A1-A0SB-01Z-00-DX1.svs" "out") /\
  Forall (fun e =>
            e_encoded_path e
            = path_join (path_join "out" "encoded") (p_id (e_row e) +:+ ".h5"))
         [mkEncodedRow
            (patient_csv_row "out" "slide/TCGA-A1-A0SB-01Z-00-DX1.svs"
               "slide/TCGA-A1-A0SB-01Z-00-DX1.svs")
            1 "out/encoded/TCGA-A1-A0SB-01Z-00-DX1.h5"].
Proof.
  apply (encoded_paths_in_encoder_directory demo_listdir
           "slide/TCGA-A1-A0SB-01Z-00-DX1.svs" "out").
  - reflexivity.
  - repeat constructor.
  - vm_compute. reflexivity.
Defined.

(* ===================================================================== *)
(** ** The files a stage writes *)
(* ===================================================================== *)

Section WriteSets.
Context `{Collaborators}.

(** X16.  The Tile Selector writes no file that its Manifest does not
    list: when it returns, every path whose content changed is the
    Manifest itself or the tile file of one of its rows. *)
Theorem tiling_writes_only_listed_tiles ts result_path mask overlap desired_size
    mag threshold w n w' :
  tiling ts result_path mask overlap desired_size mag threshold w
    = (Returned (Some n), w') ->
  exists rows,
    fs w' !! path_join result_path "tile_information.csv" = Some (CsvFile rows) /\
    forall p,
      p <> path_join result_path "tile_information.csv" ->
      ~ In p (map r_path_to_slide rows) ->
      fs w' !! p = fs w !! p.
Proof.
  unfold tiling. intros Hrun.
  apply bind_inv in Hrun as ([] & w1 & Hprint & Hrun).
  unfold print in Hprint. injection Hprint as <-.
  apply bind_inv in Hrun as (osize & w1 & Hsize & Hrun).
  apply lift_inv in Hsize as [Hsize ->].
  destruct osize as [size|].
  2: { apply bind_inv in Hrun as ([] & w1 & _ & Hrun). discriminate. }
  set (stride := tiling_stride overlap desired_size size) in *.
  apply bind_inv in Hrun as (xs & w1 & Hxs & Hrun).
  apply lift_inv in Hxs as [Hxs ->].
  apply bind_inv in Hrun as (rows & w2 & Hloop & Hrun).
  apply bind_inv in Hrun as ([] & w3 & Hcsv & Hrun).
  unfold to_csv, write_file in Hcsv. injection Hcsv as <-.
  unfold ret in Hrun. injection Hrun as <- <-.
  exists rows. cbn [fs]. split; [apply lookup_insert_eq|].
  intros p Hp Hnot. rewrite lookup_insert_ne by congruence.
  clear Hp. revert p Hnot. revert Hloop.
  apply (for_acc_inv
           (fun df wd => forall p, ~ In p (map r_path_to_slide df) ->
                                   fs wd !! p = fs w !! p)).
  2: { intros p _. reflexivity. }
  intros x df wd df' wd' _ HP Hbody.
  apply bind_inv in Hbody as (ys & wd1 & Hys & Hbody).
  apply lift_inv in Hys as [_ ->].
  revert HP Hbody.
  apply (for_acc_inv
           (fun df wd => forall p, ~ In p (map r_path_to_slide df) ->
                                   fs wd !! p = fs w !! p)).
  intros y df1 wd1 df1' wd1' _ HP Hcand p Hnot.
  apply tiling_candidate_inv in Hcand
    as [[-> ->] | (_ & _ & -> & img & ->)]; [apply HP; exact Hnot|].
  rewrite map_app, in_app_iff in Hnot. cbn [map In fs] in Hnot |- *.
  rewrite lookup_insert_ne by (intros Heq; apply Hnot; right; left; exact Heq).
  apply HP. intros Hin. apply Hnot. left. exact Hin.
Qed.




End WriteSets.

Lemma tiling_writes_only_listed_tiles_witness :
  exists rows,
    fs (snd (@tiling Demo.collaborators (Demo.synthetic 1024 1024 40) "out"
               Demo.all_tissue 0 256 20 0.8%float Demo.empty_world))
      !! path_join "out" "tile_information.csv" = Some (CsvFile rows) /\
    forall p,
      p <> path_join "out" "tile_information.csv" ->
      ~ In p (map r_path_to_slide rows) ->
      fs (snd (@tiling Demo.collaborators (Demo.synthetic 1024 1024 40) "out"
                 Demo.all_tissue 0 256 20 0.8%float Demo.empty_world)) !! p
      = fs Demo.empty_world !! p.
Proof.
  apply (@tiling_writes_only_listed_tiles Demo.collaborators
           (Demo.synthetic 1024 1024 40) "out" Demo.all_tissue 0 256 20
           0.8%float Demo.empty_world 4).
  apply run_eq, synthetic_run.
Defined.


(* ===================================================================== *)
(** ** The stride of the Tile Selector (C5) *)
(* ===================================================================== *)

Lemma for_acc_exact {A B} (f : A -> list B) (l : list A)
    (body : A -> list B -> M (list B)) :
  (forall a s w s' w', In a l -> body a s w = (Returned s', w') -> s' = s ++ f a) ->
  forall s w s' w', for_acc l body s w = (Returned s', w') ->
    s' = s ++ concat (map f l).
Proof.
  induction l as [|a l IH]; intros Hstep s w s' w' Hrun.
  - cbn in Hrun. unfold ret in Hrun. injection Hrun as <- _.
    cbn. symmetry. apply app_nil_r.
  - cbn [for_acc] in Hrun. apply bind_inv in Hrun as (s1 & w1 & H1 & H2).
    rewrite (Hstep a s w s1 w1 (or_introl eq_refl) H1) in H2.
    rewrite (IH (fun a0 s0 w0 s0' w0' Hin => Hstep a0 s0 w0 s0' w0' (or_intror Hin))
                _ _ _ _ H2).
    cbn [map concat]. symmetry. apply app_assoc.
Qed.

(** The multiples of a positive step that a range from 0 yields. *)
Lemma py_range_multiples (stop step : Z) (l : list Z) :
  0 < step -> py_range 0 stop step = Returned l ->
  forall x, In x l <-> exists i : nat, x = Z.of_nat i * step /\ x < stop.
Proof.
  intros Hs Hl x. split.
  - intros Hx. destruct (py_range_In _ _ _ _ _ Hl Hx) as (i & -> & Hlt & _).
    exists i. split; [lia | apply Hlt; exact Hs].
  - intros (i & -> & Hlt). revert Hl. unfold py_range, range_length.
    destruct (Z.eqb_spec step 0); [lia|].
    destruct (Z.ltb_spec 0 step); [|lia].
    intros [= <-]. apply in_map_iff. exists i. split; [lia|].
    apply in_seq. split; [lia|]. cbn [Nat.add].
    assert (Hstop : 0 < stop) by nia.
    destruct (Z.ltb_spec 0 stop); [|lia].
    assert (Z.of_nat i <= (stop - 0 - 1) / step)
      by (apply Z.div_le_lower_bound; nia).
    lia.
Qed.

Section StrideOfTheTileSelector.
Context `{Collaborators}.

Lemma tiling_candidate_exact ts tiles mask desired_size threshold size x y
    df df' wd wd' :
  tiling_candidate ts tiles mask desired_size threshold
    (fst (dimensions ts)) (snd (dimensions ts)) size x y df wd
    = (Returned df', wd') ->
  df' = df ++ (if candidate_accepted ts mask threshold size (x, y)
               then [tile_row ts tiles size x y] else []).
Proof.
  unfold tiling_candidate, candidate_accepted, tissue_accepts. cbn [fst snd].
  intros Hrun.
  destruct ((x <=? fst (dimensions ts) - size) && (y <=? snd (dimensions ts) - size)).
  2: { unfold ret in Hrun. injection Hrun as <- _. cbn [andb].
       symmetry. apply app_nil_r. }
  cbn [andb].
  apply bind_inv in Hrun as (handle & w1 & H1 & Hrun).
  apply lift_inv in H1 as [_ ->].
  apply bind_inv in Hrun as (rgb & w1 & H1 & Hrun).
  apply lift_inv in H1 as [_ ->].
  apply bind_inv in Hrun as (tm & w1 & H1 & Hrun).
  apply lift_inv in H1 as [Hregion ->].
  apply bind_inv in Hrun as (tissue & w1 & H1 & Hrun).
  apply lift_inv in H1 as [Htissue ->].
  rewrite Hregion, Htissue.
  destruct tissue.
  2: { unfold ret in Hrun. injection Hrun as <- _. symmetry. apply app_nil_r. }
  apply bind_inv in Hrun as (t1 & w1 & H1 & Hrun).
  apply lift_inv in H1 as [_ ->].
  apply bind_inv in Hrun as (t2 & w1 & H1 & Hrun).
  apply lift_inv in H1 as [_ ->].
  apply bind_inv in Hrun as ([] & w1 & H1 & Hrun).
  unfold ret in Hrun. injection Hrun as <- _. reflexivity.
Qed.

Lemma accepted_rows_concat ts tiles mask threshold size (xs ys : list Z) :
  concat
    (map (fun x =>
            concat
              (map (fun y =>
                      if candidate_accepted ts mask threshold size (x, y)
                      then [tile_row ts tiles size x y] else []) ys)) xs)
  = accepted_rows ts tiles mask threshold size xs ys.
Proof.
  induction xs as [|x xs IH]; [reflexivity|].
  cbn [map concat]. rewrite accepted_rows_cons, IH. f_equal.
  unfold accepted_rows. cbn [list_prod]. rewrite app_nil_r.
  clear. induction ys as [|y ys IHy]; [reflexivity|].
  cbn [map concat List.filter]. rewrite IHy.
  destruct (candidate_accepted ts mask threshold size (x, y)); reflexivity.
Qed.

(** C5.  The Tile Selector steps both of its ranges by the extraction
    size when the overlap is zero and by [output_size // overlap] (the
    floor quotient of the configured output size, not of the extraction
    size) otherwise: when it returns, the Manifest it writes holds
    exactly the rows of the origins of
    [range(0, width - size + 1, stride) x range(0, height - size + 1, stride)]
    that are in bounds and that the mask accepts, in the order of the two
    loops, and the count it returns is their number.  For a positive
    stride the origins along an axis are exactly the natural multiples of
    the stride that leave room for a tile. *)
Theorem tiling_stride_spec ts result_path mask overlap desired_size mag
    threshold size w n w' :
  let stride := if overlap =? 0 then size else desired_size / overlap in
  let tiles := path_join result_path "tiles" in
  best_size ts desired_size mag = Returned (Some size) ->
  tiling ts result_path mask overlap desired_size mag threshold w
    = (Returned (Some n), w') ->
  exists xs ys,
    py_range 0 (fst (dimensions ts) - size + 1) stride = Returned xs /\
    py_range 0 (snd (dimensions ts) - size + 1) stride = Returned ys /\
    fs w' !! path_join result_path "tile_information.csv"
      = Some (CsvFile (accepted_rows ts tiles mask threshold size xs ys)) /\
    n = Z.of_nat (length (accepted_rows ts tiles mask threshold size xs ys)) /\
    (0 < stride ->
     (forall x, In x xs <->
        exists i : nat,
          x = Z.of_nat i * stride /\ x <= fst (dimensions ts) - size) /\
     (forall y, In y ys <->
        exists j : nat,
          y = Z.of_nat j * stride /\ y <= snd (dimensions ts) - size)).
Proof.
  intros stride tiles Hsize Hrun. unfold tiling in Hrun.
  apply bind_inv in Hrun as ([] & w1 & Hprint & Hrun).
  unfold print in Hprint. injection Hprint as <-.
  apply bind_inv in Hrun as (osize & w1 & Hsize' & Hrun).
  apply lift_inv in Hsize' as [Hsize' ->].
  rewrite Hsize in Hsize'. injection Hsize' as <-.
  assert (Hstride : tiling_stride overlap desired_size size = stride).
  { unfold tiling_stride, stride. destruct (overlap =? 0); reflexivity. }
  rewrite Hstride in Hrun. fold tiles in Hrun.
  apply bind_inv in Hrun as (xs & w1 & Hxs & Hrun).
  apply lift_inv in Hxs as [Hxs ->].
  apply bind_inv in Hrun as (rows & w2 & Hloop & Hrun).
  apply bind_inv in Hrun as ([] & w3 & Hcsv & Hrun).
  unfold to_csv, write_file in Hcsv. injection Hcsv as <-.
  unfold ret in Hrun. injection Hrun as <- <-.
  assert (Hys : exists ys,
            py_range 0 (snd (dimensions ts) - size + 1) stride = Returned ys).
  { unfold py_range in *. destruct (stride =? 0); [discriminate|]. eauto. }
  destruct Hys as [ys Hys].
  assert (Hrows : rows = accepted_rows ts tiles mask threshold size xs ys).
  { rewrite <- accepted_rows_concat.
    apply (for_acc_exact
             (fun x =>
                concat
                  (map (fun y =>
                          if candidate_accepted ts mask threshold size (x, y)
                          then [tile_row ts tiles size x y] else []) ys)))
      in Hloop; [exact Hloop|].
    intros x s wd s' wd' _ Hbody.
    apply bind_inv in Hbody as (ys' & wd1 & Hys' & Hbody).
    apply lift_inv in Hys' as [Hys' ->].
    rewrite Hys in Hys'. injection Hys' as <-.
    apply (for_acc_exact
             (fun y => if candidate_accepted ts mask threshold size (x, y)
                       then [tile_row ts tiles size x y] else []))
      in Hbody; [exact Hbody|].
    intros y s0 wd0 s0' wd0' _ Hcand.
    exact (tiling_candidate_exact _ _ _ _ _ _ _ _ _ _ _ _ Hcand). }
  exists xs, ys. cbn [fs]. rewrite <- Hrows.
  split; [exact Hxs|]. split; [exact Hys|].
  split; [apply lookup_insert_eq|]. split; [reflexivity|].
  intros Hpos. split; intros v.
  - rewrite (py_range_multiples _ _ _ Hpos Hxs v).
    split; intros (i & Hv & Hb); exists i; (split; [exact Hv | lia]).
  - rewrite (py_range_multiples _ _ _ Hpos Hys v).
    split; intros (i & Hv & Hb); exists i; (split; [exact Hv | lia]).
Qed.

End StrideOfTheTileSelector.

Lemma tiling_stride_spec_witness :
  (exists xs ys,
     py_range 0 (1024 - 512 + 1) (if 0 =? 0 then 512 else 256 / 0) = Returned xs /\
     py_range 0 (1024 - 512 + 1) (if 0 =? 0 then 512 else 256 / 0) = Returned ys /\
     fs (snd (@tiling Demo.collaborators (Demo.synthetic 1024 1024 40) "out"
                Demo.all_tissue 0 256 20 0.8%float Demo.empty_world))
       !! path_join "out" "tile_information.csv"
       = Some (CsvFile (accepted_rows (Demo.synthetic 1024 1024 40)
                          (path_join "out" "tiles") Demo.all_tissue 0.8%float
                          512 xs ys)) /\
     4 = Z.of_nat (length (accepted_rows (Demo.synthetic 1024 1024 40)
                             (path_join "out" "tiles") Demo.all_tissue 0.8%float
                             512 xs ys)) /\
     (0 < (if 0 =? 0 then 512 else 256 / 0) ->
      (forall x, In x xs <->
         exists i : nat,
           x = Z.of_nat i * (if 0 =? 0 then 512 else 256 / 0) /\ x <= 1024 - 512) /\
      (forall y, In y ys <->
         exists j : nat,
           y = Z.of_nat j * (if 0 =? 0 then 512 else 256 / 0) /\ y <= 1024 - 512))) /\
  (exists xs ys,
     py_range 0 (1024 - 512 + 1) (if 2 =? 0 then 512 else 256 / 2) = Returned xs /\
     py_range 0 (1024 - 512 + 1) (if 2 =? 0 then 512 else 256 / 2) = Returned ys /\
     fs (snd (@tiling Demo.collaborators (Demo.synthetic 1024 1024 40) "out"
                Demo.all_tissue 2 256 20 0.8%float Demo.empty_world))
       !! path_join "out" "tile_information.csv"
       = Some (CsvFile (accepted_rows (Demo.synthetic 1024 1024 40)
                          (path_join "out" "tiles") Demo.all_tissue 0.8%float
                          512 xs ys)) /\
     25 = Z.of_nat (length (accepted_rows (Demo.synthetic 1024 1024 40)
                              (path_join "out" "tiles") Demo.all_tissue 0.8%float
                              512 xs ys)) /\
     (0 < (if 2 =? 0 then 512 else 256 / 2) ->
      (forall x, In x xs <->
         exists i : nat,
           x = Z.of_nat i * (if 2 =? 0 then 512 else 256 / 2) /\ x <= 1024 - 512) /\
      (forall y, In y ys <->
         exists j : nat,
           y = Z.of_nat j * (if 2 =? 0 then 512 else 256 / 2) /\ y <= 1024 - 512))).
Proof.
  split.
  - refine (@tiling_stride_spec Demo.collaborators (Demo.synthetic 1024 1024 40)
              "out" Demo.all_tissue 0 256 20 0.8%float 512 Demo.empty_world 4
              (snd (@tiling Demo.collaborators (Demo.synthetic 1024 1024 40) "out"
                      Demo.all_tissue 0 256 20 0.8%float Demo.empty_world)) _ _).
    + vm_compute. reflexivity.
    + apply run_eq. vm_compute. reflexivity.
  - refine (@tiling_stride_spec Demo.collaborators (Demo.synthetic 1024 1024 40)
              "out" Demo.all_tissue 2 256 20 0.8%float 512 Demo.empty_world 25
              (snd (@tiling Demo.collaborators (Demo.synthetic 1024 1024 40) "out"
                      Demo.all_tissue 2 256 20 0.8%float Demo.empty_world)) _ _).
    + vm_compute. reflexivity.
    + apply run_eq. vm_compute. reflexivity.
Defined.
